(** * The result normalizer and the streaming ingestor of the frontend API client

    A shallow embedding of [transformBackendResult] and [streamAnalysis]
    (frontend/src/api/client.ts) and the properties of their specification.

    The embedding follows the JavaScript the TypeScript source compiles to:
    types are erased, so a payload is an arbitrary parsed JSON value, a
    string is a sequence of UTF-16 code units, and an operation that raises
    returns an abrupt completion instead of a value.

    After the two, the one-shot calls of the client ([postJson],
    [analyzeText], [analyzeImage], [translateText], [getResult]) and the
    effects of the pages that call them ([fetchResult] and [handleTranslate]
    of the Results page, [handleAnalyze] of the image page), with a network
    that answers the calls of [fetch]. *)

From Stdlib Require Import ZArith NArith Strings.Byte String Ascii List Bool Lia DecimalString.
Import ListNotations.

Set Implicit Arguments.

(** ** Strings *)

(** A JavaScript string: its UTF-16 code units. *)
Definition code_unit := N.
Definition jsstring := list code_unit.

(** The code units of a code point (a pair of surrogates above the BMP). *)
Definition utf16_units (cp : N) : jsstring :=
  if (cp <? 0x10000)%N then [cp]
  else [(0xD800 + (cp - 0x10000) / 0x400)%N; (0xDC00 + (cp - 0x10000) mod 0x400)%N].

(** Source text is UTF-8: [utf16_from s acc need] reads the bytes of the
    literal [s], [need] continuation bytes being still due for the code
    point accumulated in [acc]. *)
Fixpoint utf16_from (s : string) (acc : N) (need : nat) : jsstring :=
  match s with
  | EmptyString => []
  | String c rest =>
      let b := N_of_ascii c in
      match need with
      | O =>
          if (b <? 0x80)%N then b :: utf16_from rest 0%N 0
          else if (b <? 0xE0)%N then utf16_from rest (N.land b 0x1F) 1
          else if (b <? 0xF0)%N then utf16_from rest (N.land b 0x0F) 2
          else utf16_from rest (N.land b 0x07) 3
      | S k =>
          let acc' := (acc * 64 + N.land b 0x3F)%N in
          match k with
          | O => utf16_units acc' ++ utf16_from rest 0%N 0
          | S _ => utf16_from rest acc' k
          end
      end
  end.

(** A string literal of the source. *)
Definition js (s : string) : jsstring := utf16_from s 0%N 0.

Definition unit_eqb (a b : code_unit) : bool := (a =? b)%N.

Fixpoint jsstring_eqb (a b : jsstring) : bool :=
  match a, b with
  | [], [] => true
  | x :: a', y :: b' => unit_eqb x y && jsstring_eqb a' b'
  | _, _ => false
  end.

(** [WhiteSpace] and [LineTerminator] of ECMAScript: what [String.prototype.trim]
    removes and what [\s] matches. *)
Definition is_whitespace (c : code_unit) : bool :=
  ((9 <=? c) && (c <=? 13) || (c =? 0x20) || (c =? 0xA0) || (c =? 0x1680)
   || (0x2000 <=? c) && (c <=? 0x200A)
   || (c =? 0x2028) || (c =? 0x2029) || (c =? 0x202F) || (c =? 0x205F)
   || (c =? 0x3000) || (c =? 0xFEFF))%N.

(** [s.replace(/^\s*/, "")], the left half of [trim]. *)
Fixpoint trimStart (s : jsstring) : jsstring :=
  match s with
  | c :: rest => if is_whitespace c then trimStart rest else s
  | [] => []
  end.

Definition trimEnd (s : jsstring) : jsstring := rev (trimStart (rev s)).

(** [s.trim()]. *)
Definition trim (s : jsstring) : jsstring := trimEnd (trimStart s).

(** [s.startsWith(p)]. *)
Fixpoint startsWith (s p : jsstring) {struct p} : bool :=
  match p, s with
  | [], _ => true
  | y :: p', x :: s' => unit_eqb x y && startsWith s' p'
  | _ :: _, [] => false
  end.

(** Puts a code unit in front of the first part of a split. *)
Definition push_front (c : code_unit) (parts : list jsstring) : list jsstring :=
  match parts with
  | part :: others => (c :: part) :: others
  | [] => [[c]]
  end.

(** [s.split(sep)] for a non-empty separator: the text between the
    occurrences of [sep], found from the left without overlap.  [skip] code
    units of a separator found earlier are still to be passed. *)
Fixpoint split_from (sep : jsstring) (skip : nat) (s : jsstring) : list jsstring :=
  match s with
  | [] => [[]]
  | c :: rest =>
      match skip with
      | S k => split_from sep k rest
      | O =>
          if startsWith s sep
          then [] :: split_from sep (length sep - 1) rest
          else push_front c (split_from sep 0 rest)
      end
  end.

Definition split (s sep : jsstring) : list jsstring := split_from sep 0 s.

(** The line feed, ['\n'] in the source. *)
Definition LF : code_unit := 10%N.

(** The decimal digits of an integer, after a minus sign when it is
    negative. *)
Definition decimal (n : Z) : jsstring :=
  js (NilZero.string_of_int (Z.to_int n)).

(** The Number value of a positive integer: the double nearest to it, ties
    to the even significand of 53 bits; [None] is Infinity.  An integer
    below 2^53 is its own double. *)
Definition nearest_double (v : Z) : option Z :=
  let excess := (Z.log2 v - 52)%Z in
  if (excess <=? 0)%Z then Some v
  else
    let ulp := (2 ^ excess)%Z in
    let q := (v / ulp)%Z in
    let r := (v mod ulp)%Z in
    let half := (ulp / 2)%Z in
    let q' := if ((half <? r) || ((r =? half) && Z.odd q))%Z then (q + 1)%Z else q in
    if (2 ^ 1024 <=? q' * ulp)%Z then None else Some (q' * ulp)%Z.

Definition rounds_to (x c : Z) : bool :=
  match nearest_double c with
  | Some y => (y =? x)%Z
  | None => false
  end.

(** Among the integers of at most [k] digits followed by zeros up to the
    [d] digits of the double [x], the one that rounds to [x] and is the
    nearest to it (with an even last digit when two are as near), if there
    is one: it is the one just below [x] or the one just above. *)
Definition with_digits (x d k : Z) : option Z :=
  let step := (10 ^ (d - k))%Z in
  let below := (x / step * step)%Z in
  let above := (below + step)%Z in
  match rounds_to x below, rounds_to x above with
  | true, true =>
      if (x - below <? above - x)%Z then Some below
      else if (above - x <? x - below)%Z then Some above
      else if Z.even (x / step) then Some below else Some above
  | true, false => Some below
  | false, true => Some above
  | false, false => None
  end.

(** The integer of the fewest digits that denotes the double [x]: what
    [Number::toString] prints the digits of. *)
Fixpoint fewest_digits (tries : nat) (x d k : Z) : Z :=
  match tries with
  | O => x
  | S tries' =>
      match with_digits x d k with
      | Some c => c
      | None => fewest_digits tries' x d (k + 1)%Z
      end
  end.

Fixpoint without_leading_zeros (digits : jsstring) : jsstring :=
  match digits with
  | c :: rest => if (c =? 48)%N then without_leading_zeros rest else digits
  | [] => []
  end.

(** The notation of [Number::toString] for a positive integer [c] of [n]
    digits, [k] of them before its last zeros: the digits themselves up to
    [n = 21], and beyond the first digit, a point and the other [k - 1]
    digits if there are any, then [e+] and [n - 1]. *)
Definition notation (c : Z) : jsstring :=
  let digits := decimal c in
  let n := Z.of_nat (length digits) in
  if (n <=? 21)%Z then digits
  else
    match rev (without_leading_zeros (rev digits)) with
    | [] => []
    | [first] => [first] ++ [101; 43]%N ++ decimal (n - 1)
    | first :: others => [first] ++ [46]%N ++ others ++ [101; 43]%N ++ decimal (n - 1)
    end.

Definition positive_toString (v : Z) : jsstring :=
  match nearest_double v with
  | None => js "Infinity"
  | Some x =>
      let d := Z.of_nat (length (decimal x)) in
      notation (fewest_digits (Z.to_nat d) x d 1)
  end.

(** [Number::toString] on the number that an integer numeral denotes: an
    integer below 2^53 in absolute value prints as its decimal digits; a
    larger one is first the double nearest to it, and prints as the fewest
    digits that denote this double, in exponent notation from 10^21 on. *)
Definition Number_toString (n : Z) : jsstring :=
  if (Z.abs n <? 2 ^ 53)%Z then decimal n
  else if (n <? 0)%Z then [45%N] ++ positive_toString (- n)
  else positive_toString n.

(** ** Completions

    A JavaScript operation either returns a value or throws.  The engine's
    own failures in the code below (reading a property of [null] or
    [undefined], calling what is not a function, a failed conversion to a
    primitive) are all [TypeError]s; [new Error(message)] is [Error];
    [Thrown] stands for any other value a promise rejects with or a
    callback throws. *)
Inductive Exn : Type :=
| TypeError
| Error (message : jsstring)
| Thrown (what : N).

Inductive Completion (A : Type) : Type :=
| Normal (value : A)
| Throw (e : Exn).
Arguments Throw {A} e.

Definition bind {A B : Type} (c : Completion A) (k : A -> Completion B) : Completion B :=
  match c with
  | Normal a => k a
  | Throw e => Throw e
  end.

Declare Scope completion_scope.
Delimit Scope completion_scope with completion.
Notation "x <- c ;; k" := (bind c (fun x => k))
  (at level 61, c at next level, right associativity) : completion_scope.
Local Open Scope completion_scope.

(** [items.map((item, index) => f(item, index))] when [f] may throw: the
    callback runs on the items from the left, the first failure ends the
    call.  [index] is the position of the head of [items]. *)
Fixpoint Array_map_from {A B : Type} (f : A -> nat -> Completion B) (index : nat)
    (items : list A) : Completion (list B) :=
  match items with
  | [] => Normal []
  | item :: rest =>
      b <- f item index ;;
      bs <- Array_map_from f (S index) rest ;;
      Normal (b :: bs)
  end.

Definition Array_map {A B : Type} (f : A -> nat -> Completion B) (items : list A) :=
  Array_map_from f 0 items.

(** ** Values

    What [JSON.parse] builds, and [undefined] for what is absent.  A number
    is an integer here: the payload's numbers are counts and percentages,
    and the arithmetic of the code is on array lengths.  [JNum n] is the
    number that the numeral [n] denotes, which past 2^53 is the double
    nearest to [n]; its sign and whether it is zero are those of [n].  An
    object is the
    list of its own properties; [own_property] reads the first entry of a
    name. *)
#[warnings="-register-all"] Inductive JsValue : Type :=
| JUndefined
| JNull
| JBool (b : bool)
| JNum (n : Z)
| JStr (s : jsstring)
| JArr (items : list JsValue)
| JObj (props : list (jsstring * JsValue)).

Fixpoint own_property (props : list (jsstring * JsValue)) (name : jsstring) : option JsValue :=
  match props with
  | [] => None
  | (k, v) :: rest => if jsstring_eqb k name then Some v else own_property rest name
  end.

(** [ToBoolean]: [undefined], [null], [false], [0] and [""] are falsy. *)
Definition ToBoolean (v : JsValue) : bool :=
  match v with
  | JUndefined | JNull => false
  | JBool b => b
  | JNum n => negb (n =? 0)%Z
  | JStr s => match s with [] => false | _ :: _ => true end
  | JArr _ | JObj _ => true
  end.

(** [a || b]. *)
Definition or_else (a b : JsValue) : JsValue := if ToBoolean a then a else b.
Infix "|||" := or_else (at level 50, left associativity).

Definition is_nullish (v : JsValue) : bool :=
  match v with JUndefined | JNull => true | _ => false end.

(** [typeof v === 'string'] and [Array.isArray(v)]. *)
Definition is_string (v : JsValue) : bool :=
  match v with JStr _ => true | _ => false end.
Definition isArray (v : JsValue) : bool :=
  match v with JArr _ => true | _ => false end.

(** [v.name] on a value that is neither [null] nor [undefined], for the
    names the normalizer reads this way ([audit], [verdict], [label],
    [icon], [point], [source] and the like): an own property of an object,
    and [undefined] on anything else, none of these names being a property
    of the built-in prototypes. *)
Definition property (v : JsValue) (name : jsstring) : JsValue :=
  match v with
  | JObj props => match own_property props name with Some x => x | None => JUndefined end
  | _ => JUndefined
  end.

(** [v.name]: a TypeError on [null] and [undefined]. *)
Definition Get (v : JsValue) (name : jsstring) : Completion JsValue :=
  if is_nullish v then Throw TypeError else Normal (property v name).

(** [v?.name]. *)
Definition OptGet (v : JsValue) (name : jsstring) : JsValue :=
  if is_nullish v then JUndefined else property v name.

Definition has_own (props : list (jsstring * JsValue)) (name : jsstring) : bool :=
  match own_property props name with Some _ => true | None => false end.

(** [ToString], as a template literal applies it.  An array is joined with
    commas, [null] and [undefined] items giving the empty string.  A parsed
    object has no callable property of its own: with an own [toString] the
    conversion to a primitive finds no method that returns one (the
    inherited [valueOf] returns the object) and raises; without, the
    inherited [toString] answers. *)
Fixpoint ToString (v : JsValue) : Completion jsstring :=
  match v with
  | JUndefined => Normal (js "undefined")
  | JNull => Normal (js "null")
  | JBool b => Normal (if b then js "true" else js "false")
  | JNum n => Normal (Number_toString n)
  | JStr s => Normal s
  | JArr items =>
      (fix join (l : list JsValue) : Completion jsstring :=
         match l with
         | [] => Normal []
         | item :: rest =>
             s <- (if is_nullish item then Normal [] else ToString item) ;;
             match rest with
             | [] => Normal s
             | _ :: _ => t <- join rest ;; Normal (s ++ js "," ++ t)
             end
         end) items
  | JObj props =>
      if has_own props (js "toString") then Throw TypeError
      else Normal (js "[object Object]")
  end.

(** ** The result normalizer: [transformBackendResult]

    [Result], as far as the properties below speak of it.  The interface
    types are erased at run time: a field the code fills with a value of the
    payload holds whatever the payload held.  [deep_report] and [audit] are
    left out: they are built by [JSON.stringify] and an object spread over
    parsed JSON, which neither branch nor raise. *)
Record Breakdown : Type := {
  factChecks : Z;
  sourceCredibility : Z;
  modelConsensus : JsValue;
  technicalFeasibility : Z;
  crossMedia : Z
}.

Record Verdict : Type := {
  label : JsValue;
  confidence : JsValue;
  breakdown : Breakdown
}.

Record QuickItem : Type := { icon : JsValue; text : JsValue }.

Record EvidenceItem : Type := { title : JsValue; url : JsValue; note : JsValue }.

Record Result : Type := {
  id : JsValue;
  input : JsValue;
  domain : JsValue;
  language : jsstring;
  verdict : Verdict;
  quick_analysis : list QuickItem;
  evidence : list EvidenceItem;
  education_checklist : list JsValue;
  simple_explanation : jsstring
}.

(** [items.map((item, index) => f(item, index))] for a callback that
    cannot throw. *)
Fixpoint map_indexed_from {A B : Type} (f : A -> nat -> B) (index : nat) (items : list A) : list B :=
  match items with
  | [] => []
  | item :: rest => f item index :: map_indexed_from f (S index) rest
  end.

(** The array literal of icons of lines 175 and 181. *)
Definition icons : list jsstring := [js "🎭"; js "🌍"; js "🧬"; js "🔍"; js "⚡"].

(** [["🎭", "🌍", "🧬", "🔍", "⚡"][index] || "🔍"]: an index past the
    array reads [undefined]. *)
Definition icon_at (index : nat) : JsValue :=
  match nth_error icons index with
  | Some i => JStr i
  | None => JUndefined
  end ||| JStr (js "🔍").

(** The class [[-•*]] of the regular expression of line 176. *)
Definition is_bullet (c : code_unit) : bool :=
  ((c =? 45) || (c =? 0x2022) || (c =? 42))%N.

(** [line.replace(/^[-•*]\s*/, '')]: one bullet at the very start and the
    white space after it. *)
Definition strip_bullet (line : jsstring) : jsstring :=
  match line with
  | c :: rest => if is_bullet c then trimStart rest else line
  | [] => []
  end.

(** [quick_analysis.split('\n').filter((line) => line.trim())]: a string is
    truthy when it is not empty. *)
Definition kept_lines (quick_analysis : jsstring) : list jsstring :=
  filter (fun line => ToBoolean (JStr (trim line))) (split quick_analysis [LF]).

(** Lines 173-177, the string case. *)
Definition quick_analysis_of_string (quick_analysis : jsstring) : list QuickItem :=
  map_indexed_from
    (fun line index => {| icon := icon_at index; text := JStr (trim (strip_bullet line)) |})
    0 (kept_lines quick_analysis).

(** Lines 180-183, the array case: [item.icon] and [item.text] raise on a
    [null] item. *)
Definition quick_analysis_of_array (items : list JsValue) : Completion (list QuickItem) :=
  Array_map
    (fun item index =>
       item_icon <- Get item (js "icon") ;;
       item_text <- Get item (js "text") ;;
       Normal {| icon := item_icon ||| icon_at index;
                 text := item_text ||| (if is_string item then item
                                        else JStr (js "Analysis point")) |})
    items.

(** Lines 168-185. *)
Definition quickAnalysisArray (quick_analysis : JsValue) : Completion (list QuickItem) :=
  if ToBoolean quick_analysis then
    match quick_analysis with
    | JStr s => Normal (quick_analysis_of_string s)
    | JArr items => quick_analysis_of_array items
    | _ => Normal []
    end
  else Normal [].

(** Lines 189-202, the fallback findings. *)
Definition fallback_findings (factChecksFound verdict_summary : JsValue)
  : Completion (list QuickItem) :=
  found <- ToString factChecksFound ;;
  Normal
    [ {| icon := JStr (js "🎭");
         text := JStr (js "Found " ++ found
                       ++ js " professional fact-check sources confirming this analysis.") |};
      {| icon := JStr (js "🌍");
         text := JStr (js "Cross-referenced with international fact-checking databases and expert verification systems.") |};
      {| icon := JStr (js "🧬");
         text := verdict_summary
                 ||| JStr (js "AI analysis completed with high confidence based on available evidence.") |} ].

(** Line 212: a string stays, anything else is printed as
    [`${item.point}: ${item.explanation}`]. *)
Definition checklist_entry (item : JsValue) : Completion JsValue :=
  if is_string item then Normal item
  else
    point <- Get item (js "point") ;;
    point_text <- ToString point ;;
    explanation <- Get item (js "explanation") ;;
    explanation_text <- ToString explanation ;;
    Normal (JStr (point_text ++ js ": " ++ explanation_text)).

Definition fallback_checklist : list JsValue :=
  [ JStr (js "Source credibility verified through professional fact-checking databases");
    JStr (js "Cross-referenced with multiple international verification systems");
    JStr (js "AI consensus analysis completed with high confidence metrics") ].

(** Lines 206-221. *)
Definition educationChecklistArray (education_checklist checklist : JsValue)
  : Completion (list JsValue) :=
  match education_checklist, checklist with
  | JArr items, _ => Normal items
  | _, JArr items => Array_map (fun item _ => checklist_entry item) items
  | _, _ => Normal fallback_checklist
  end.

(** [(backendResult.evidence || []).map(...)] of line 240 walks an array;
    any other truthy value has no [map] to call.  Line 165 reads
    [evidence?.length || 0] from the same value: for the values with which
    the function goes on to return, an array or a falsy value, it is the
    number of items walked. *)
Definition evidence_items (evidence : JsValue) : Completion (list JsValue) :=
  match evidence ||| JArr [] with
  | JArr items => Normal items
  | _ => Throw TypeError
  end.

(** Lines 240-244. *)
Definition evidence_entry (item : JsValue) : Completion EvidenceItem :=
  source <- Get item (js "source") ;;
  item_title <- Get item (js "title") ;;
  item_url <- Get item (js "url") ;;
  snippet <- Get item (js "snippet") ;;
  item_note <- Get item (js "note") ;;
  Normal {| title := source ||| item_title ||| JStr (js "Professional Source");
            url := item_url ||| JStr (js "#");
            note := snippet ||| item_note ||| JStr (js "Evidence snippet") |}.

Section Normalizer.

(** Whether [StringToNumber] of a string is greater than 0, which is how
    [>] compares a string with a number. *)
Variable StringToNumber_gt0 : jsstring -> bool.

(** [v > 0]: [undefined] is NaN, [null] is 0, [true] is 1, and an object
    or array is compared through its conversion to a string. *)
Definition greater_than_zero (v : JsValue) : Completion bool :=
  match v with
  | JUndefined | JNull => Normal false
  | JBool b => Normal b
  | JNum n => Normal (0 <? n)%Z
  | JStr s => Normal (StringToNumber_gt0 s)
  | JArr _ | JObj _ => s <- ToString v ;; Normal (StringToNumber_gt0 s)
  end.

Definition transformBackendResult (backendResult : JsValue) : Completion Result :=
  audit <- Get backendResult (js "audit") ;;
  let factChecksFound := OptGet audit (js "fact_checks_found") ||| JNum 0 in
  items <- evidence_items (property backendResult (js "evidence")) ;;
  let evidenceCount := Z.of_nat (length items) in
  let verdict_in := property backendResult (js "verdict") in
  found_array <- quickAnalysisArray (property backendResult (js "quick_analysis")) ;;
  quick <- match found_array with
           | [] => fallback_findings factChecksFound (OptGet verdict_in (js "summary"))
           | _ :: _ => Normal found_array
           end ;;
  checklist <- educationChecklistArray
                 (property backendResult (js "education_checklist"))
                 (property backendResult (js "checklist")) ;;
  any_fact_check <- greater_than_zero factChecksFound ;;
  entries <- Array_map (fun item _ => evidence_entry item) items ;;
  rated <- ToString (OptGet verdict_in (js "label") ||| JStr (js "unknown")) ;;
  percent <- ToString (OptGet verdict_in (js "confidence") ||| JNum 0) ;;
  found <- ToString factChecksFound ;;
  Normal
    {| id := property backendResult (js "id") ||| JStr (js "live-analysis");
       input := property backendResult (js "input") ||| JStr (js "Analysis input");
       domain := property backendResult (js "domain") ||| JStr (js "General");
       language := js "en";
       verdict :=
         {| label := OptGet verdict_in (js "label") ||| JStr (js "⚠️ Caution");
            confidence := OptGet verdict_in (js "confidence") ||| JNum 50;
            breakdown :=
              {| factChecks := if any_fact_check then 90 else 75;
                 sourceCredibility := if (0 <? evidenceCount)%Z then 85 else 70;
                 modelConsensus := OptGet verdict_in (js "confidence") ||| JNum 50;
                 technicalFeasibility := 75;
                 crossMedia := Z.min 90 (evidenceCount * 20 + 50) |} |};
       quick_analysis := quick;
       evidence := entries;
       education_checklist := checklist;
       simple_explanation :=
         js "This claim was rated as " ++ rated ++ js " with " ++ percent
         ++ js "% confidence based on " ++ found
         ++ js " professional fact-check sources and AI analysis." |}.

End Normalizer.

(** ** The streaming ingestor: [streamAnalysis]

    One [reader.read()]: a chunk of bytes, or a rejection.  The end of the
    list of reads is [done]. *)
Inductive Read : Type :=
| Chunk (value : list byte)
| Failed (e : Exn).

(** The response of [fetch]: [body_text] is what [res.text()] resolves
    with, [None] when it rejects; [body] is [None] for a [null] body. *)
Record Response : Type := {
  ok : bool;
  status : Z;
  body_text : option jsstring;
  body : option (list Read)
}.

(** Line 41: [JSON.stringify(body)] or [fetch] raises, or a response
    arrives. *)
Inductive Fetched : Type :=
| Rejected (e : Exn)
| Responded (res : Response).

(** The separator of line 58, ["\n\n"]. *)
Definition blank_line : jsstring := [LF; LF].

(** Lines 47-48: [new Error(`HTTP ${res.status} ${msg}`.trim())], where
    [msg] is the text of the body, or [""] when reading it fails. *)
Definition http_error (res : Response) : Exn :=
  let msg := match body_text res with Some t => t | None => [] end in
  Error (trim (js "HTTP " ++ Number_toString (status res) ++ js " " ++ msg)).

(** [part.replace(/^data:\s*/, "").trim()] on a part that starts with
    ["data:"]. *)
Definition payload_of (part : jsstring) : jsstring :=
  trim (trimStart (skipn 5 part)).

Section Ingestor.

(** [JSON.parse]: the parsed value, or [None] for a SyntaxError. *)
Variable Parsed : Type.
Variable JSON_parse : jsstring -> option Parsed.

(** [new TextDecoder("utf-8")] and [decoder.decode(value, { stream: true })]:
    the decoder returns the text of a chunk and keeps the bytes of an
    unfinished code point for the next call; it never raises. *)
Variable Decoder : Type.
Variable new_TextDecoder : Decoder.
Variable decode : Decoder -> list byte -> Decoder * jsstring.

(** The caller's callbacks act on a state of the caller's and may throw. *)
Variable World : Type.

Definition Callback : Type := World -> World * Completion unit.

Record Callbacks : Type := {
  onMessage : Parsed -> Callback;
  onError : Exn -> Callback;
  onComplete : option Callback
}.

(** The calls made to the callbacks, in the order they are made. *)
Inductive Call : Type :=
| MessageCall (data : Parsed)
| ErrorCall (err : Exn)
| CompleteCall.

Record Run : Type := { world : World; calls : list Call }.

Definition invoke (c : Call) (f : Callback) (r : Run) : Run * Completion unit :=
  let (w, completion) := f (world r) in
  ({| world := w; calls := calls r ++ [c] |}, completion).

Variable cb : Callbacks.

(** The variables of the loop, and the run so far. *)
Record Loop : Type := { decoder : Decoder; buffer : jsstring; run : Run }.

(** Lines 61-69: the inner [try] drops what [JSON.parse] or [onMessage]
    throws. *)
Definition on_part (r : Run) (part : jsstring) : Run :=
  if startsWith part (js "data:") then
    match JSON_parse (payload_of part) with
    | Some parsed => fst (invoke (MessageCall parsed) (onMessage cb parsed) r)
    | None => r
    end
  else r.

(** Lines 57-70, the loop body on a chunk. *)
Definition on_chunk (st : Loop) (value : list byte) : Loop :=
  let (d, decoded) := decode (decoder st) value in
  let parts := split (buffer st ++ decoded) blank_line in
  {| decoder := d;
     buffer := last parts [];
     run := fold_left on_part (removelast parts) (run st) |}.

(** Lines 54-71: the state at the exit of the loop and how it exits. *)
Fixpoint read_loop (reads : list Read) (st : Loop) : Loop * Completion unit :=
  match reads with
  | [] => (st, Normal tt)
  | Failed e :: _ => (st, Throw e)
  | Chunk value :: rest => read_loop rest (on_chunk st value)
  end.

(** Lines 41-72, the body of the outer [try]. *)
Definition try_block (fetched : Fetched) (r : Run) : Run * Completion unit :=
  match fetched with
  | Rejected e => (r, Throw e)
  | Responded res =>
      match ok res, body res with
      | true, Some reads =>
          let (st, completion) :=
            read_loop reads {| decoder := new_TextDecoder; buffer := []; run := r |} in
          match completion with
          | Throw e => (run st, Throw e)
          | Normal _ =>
              match onComplete cb with
              | Some f => invoke CompleteCall f (run st)
              | None => (run st, Normal tt)
              end
          end
      | _, _ => (r, Throw (http_error res))
      end
  end.

(** The calls made and the way the call ends: [Throw] is a rejected
    promise. *)
Definition streamAnalysis (fetched : Fetched) (w : World) : Run * Completion unit :=
  let (r, completion) := try_block fetched {| world := w; calls := [] |} in
  match completion with
  | Normal _ => (r, Normal tt)
  | Throw err => invoke (ErrorCall err) (onError cb err) r
  end.

End Ingestor.

Arguments ErrorCall {Parsed} err.
Arguments CompleteCall {Parsed}.

(** ** Vocabulary of the properties *)

(** The fact-check count of line 164, [audit?.fact_checks_found || 0]. *)
Definition fact_check_count (backendResult : JsValue) : JsValue :=
  OptGet (property backendResult (js "audit")) (js "fact_checks_found") ||| JNum 0.

(** The evidence count of line 165 on a payload whose evidence is an array
    or absent. *)
Definition evidence_count (backendResult : JsValue) : Z :=
  match property backendResult (js "evidence") with
  | JArr items => Z.of_nat (length items)
  | _ => 0
  end.

(** [backendResult.verdict?.name]. *)
Definition verdict_field (backendResult : JsValue) (name : jsstring) : JsValue :=
  OptGet (property backendResult (js "verdict")) name.

(** The object literal of lines 231-237 as a value. *)
Definition breakdown_value (b : Breakdown) : JsValue :=
  JObj [ (js "factChecks", JNum (factChecks b));
         (js "sourceCredibility", JNum (sourceCredibility b));
         (js "modelConsensus", modelConsensus b);
         (js "technicalFeasibility", JNum (technicalFeasibility b));
         (js "crossMedia", JNum (crossMedia b)) ].

(** The own properties after the assignment [o.name = v]. *)
Fixpoint set_property (props : list (jsstring * JsValue)) (name : jsstring) (v : JsValue)
  : list (jsstring * JsValue) :=
  match props with
  | [] => [(name, v)]
  | (k, x) :: rest =>
      if jsstring_eqb k name then (k, v) :: rest
      else (k, x) :: set_property rest name v
  end.

(** The payload after [payload.verdict.breakdown = b], when its verdict is
    an object. *)
Definition with_verdict_breakdown (payload b : JsValue) : JsValue :=
  match payload with
  | JObj props =>
      match own_property props (js "verdict") with
      | Some (JObj verdict_props) =>
          JObj (set_property props (js "verdict")
                  (JObj (set_property verdict_props (js "breakdown") b)))
      | _ => payload
      end
  | _ => payload
  end.

(** The icon of the specification's words, "cycling through the fixed
    5-icon palette by index". *)
Definition cycling_icon (index : nat) : JsValue :=
  match nth_error icons (index mod 5) with
  | Some i => JStr i
  | None => JUndefined
  end.

(** The lines of the specification's words, "N non-empty lines". *)
Definition nonempty_lines (quick_analysis : jsstring) : list jsstring :=
  filter (fun line => match line with [] => false | _ :: _ => true end)
    (split quick_analysis [LF]).

(** A line without the bullet it starts with, if it starts with one. *)
Definition without_bullet (line : jsstring) : jsstring :=
  match line with
  | c :: rest => if is_bullet c then rest else line
  | [] => []
  end.

(** Whether a completion is normal. *)
Definition returns {A : Type} (c : Completion A) : bool :=
  match c with
  | Normal _ => true
  | Throw _ => false
  end.

(** A value that a template literal can print: anything but an object with
    an own [toString], alone or in an array. *)
Definition printable (v : JsValue) : bool := returns (ToString v).

Definition not_null (v : JsValue) : bool := negb (is_nullish v).

(** A checklist item that line 212 can turn into a string. *)
Definition checklist_item_ok (item : JsValue) : bool :=
  is_string item
  || (not_null item
      && printable (property item (js "point"))
      && printable (property item (js "explanation"))).

(** The payloads the normalizer has a default for: the payload is not
    [null]; evidence is falsy or an array without [null]; quick_analysis, if
    an array, has no [null]; the checklist that gets mapped has items that
    can be turned into strings; the fact-check count, the verdict's label
    and its confidence can be printed. *)
Definition well_shaped (p : JsValue) : bool :=
  not_null p
  && match property p (js "evidence") ||| JArr [] with
     | JArr items => forallb not_null items
     | _ => false
     end
  && match property p (js "quick_analysis") with
     | JArr items => forallb not_null items
     | _ => true
     end
  && match property p (js "education_checklist"), property p (js "checklist") with
     | JArr _, _ => true
     | _, JArr items => forallb checklist_item_ok items
     | _, _ => true
     end
  && printable (fact_check_count p)
  && printable (verdict_field p (js "label") ||| JStr (js "unknown"))
  && printable (verdict_field p (js "confidence") ||| JNum 0).

(** A computation that raises nothing but a TypeError. *)
Definition only_TypeError {A : Type} (c : Completion A) : Prop :=
  forall e, c = Throw e -> e = TypeError.

(** An evaluator of [StringToNumber(s) > 0] for the strings of decimal
    digits, on which the examples are run. *)
Definition digits_gt0 (s : jsstring) : bool :=
  match s with
  | [] => false
  | _ :: _ => forallb (fun c => (48 <=? c) && (c <=? 57))%N s
              && existsb (fun c => negb (c =? 48))%N s
  end.

Section IngestorVocabulary.

Variable Parsed : Type.
Variable JSON_parse : jsstring -> option Parsed.
Variable Decoder : Type.
Variable decode : Decoder -> list byte -> Decoder * jsstring.

(** What the parts of a split carry for [onMessage], in their order: the
    parsed payload of each part that starts with ["data:"] and parses. *)
Definition messages (parts : list jsstring) : list Parsed :=
  flat_map
    (fun part =>
       if startsWith part (js "data:") then
         match JSON_parse (payload_of part) with
         | Some parsed => [parsed]
         | None => []
         end
       else [])
    parts.

(** The decoder after some chunks, and the text it has returned for
    them. *)
Fixpoint received (d : Decoder) (values : list (list byte)) : Decoder * jsstring :=
  match values with
  | [] => (d, [])
  | value :: rest =>
      let (d1, decoded) := decode d value in
      let (d2, more) := received d1 rest in
      (d2, decoded ++ more)
  end.

End IngestorVocabulary.

(** ** Sample inputs *)

(** The scenario of the specification: a verdict with confidence 82, two
    evidence items, three fact checks found. *)
Definition vaccine_payload : JsValue :=
  JObj [ (js "input", JStr (js "Vaccines cause infertility"));
         (js "verdict", JObj [ (js "label", JStr (js "False")); (js "confidence", JNum 82) ]);
         (js "evidence",
          JArr [ JObj [ (js "source", JStr (js "WHO")); (js "url", JStr (js "https://who.int")) ];
                 JObj [ (js "title", JStr (js "CDC")); (js "note", JStr (js "No link found")) ] ]);
         (js "audit", JObj [ (js "fact_checks_found", JNum 3) ]) ].

Definition vaccine_result : Result :=
  {| id := JStr (js "live-analysis");
     input := JStr (js "Vaccines cause infertility");
     domain := JStr (js "General");
     language := js "en";
     verdict :=
       {| label := JStr (js "False");
          confidence := JNum 82;
          breakdown :=
            {| factChecks := 90;
               sourceCredibility := 85;
               modelConsensus := JNum 82;
               technicalFeasibility := 75;
               crossMedia := 90 |} |};
     quick_analysis :=
       [ {| icon := JStr (js "🎭");
            text := JStr (js "Found 3 professional fact-check sources confirming this analysis.") |};
         {| icon := JStr (js "🌍");
            text := JStr (js "Cross-referenced with international fact-checking databases and expert verification systems.") |};
         {| icon := JStr (js "🧬");
            text := JStr (js "AI analysis completed with high confidence based on available evidence.") |} ];
     evidence :=
       [ {| title := JStr (js "WHO"); url := JStr (js "https://who.int");
            note := JStr (js "Evidence snippet") |};
         {| title := JStr (js "CDC"); url := JStr (js "#");
            note := JStr (js "No link found") |} ];
     education_checklist := fallback_checklist;
     simple_explanation :=
       js "This claim was rated as False with 82% confidence based on 3 professional fact-check sources and AI analysis." |}.

(** A verdict that comes with a breakdown of its own. *)
Definition provided_breakdown : Breakdown :=
  {| factChecks := 10;
     sourceCredibility := 20;
     modelConsensus := JNum 30;
     technicalFeasibility := 40;
     crossMedia := 60 |}.

Definition payload_with_breakdown : JsValue :=
  JObj [ (js "verdict",
          JObj [ (js "label", JStr (js "False"));
                 (js "confidence", JNum 82);
                 (js "breakdown", breakdown_value provided_breakdown) ]) ].

Definition zero_confidence_payload : JsValue :=
  JObj [ (js "verdict", JObj [ (js "label", JStr (js "True")); (js "confidence", JNum 0) ]) ].

Definition empty_checklist_payload : JsValue :=
  JObj [ (js "education_checklist", JArr []) ].

(** Six bulleted lines, one line more than there are icons. *)
Definition six_lines : jsstring :=
  js "- a" ++ [LF] ++ js "• b" ++ [LF] ++ js "* c" ++ [LF] ++ js "- d" ++ [LF]
  ++ js "- e" ++ [LF] ++ js "- f".

(** A line of one space between two lines. *)
Definition blank_between : jsstring := js "a" ++ [LF] ++ js " " ++ [LF] ++ js "b".

(** Items of several shapes in quick_analysis and in checklist. *)
Definition mixed_items_payload : JsValue :=
  JObj [ (js "quick_analysis",
          JArr [ JObj [ (js "icon", JStr (js "✅")); (js "text", JStr (js "Checked")) ];
                 JStr (js "plain");
                 JObj [];
                 JNum 5 ]);
         (js "checklist",
          JArr [ JStr (js "Read the source");
                 JObj [ (js "point", JStr (js "Date")); (js "explanation", JStr (js "is it recent")) ];
                 JNum 5 ]);
         (js "audit", JObj [ (js "fact_checks_found", JStr (js "3")) ]) ].

Definition quick_analysis_payload (quick_analysis : JsValue) : JsValue :=
  JObj [ (js "quick_analysis", quick_analysis) ].

(** A stand-in for [JSON.parse] on the streams of the examples, whose
    payloads are unsigned integers or no JSON at all: it reads the JSON
    texts that are unsigned integers and refuses every other text. *)
Definition digit_value (c : code_unit) : option Z :=
  if ((48 <=? c) && (c <=? 57))%N then Some (Z.of_N c - 48)%Z else None.

Fixpoint unsigned_from (acc : Z) (s : jsstring) : option Z :=
  match s with
  | [] => Some acc
  | c :: rest =>
      match digit_value c with
      | Some d => unsigned_from (acc * 10 + d) rest
      | None => None
      end
  end.

Definition parse_unsigned (s : jsstring) : option JsValue :=
  match s with
  | [] => None
  | [c] => option_map JNum (digit_value c)
  | c :: _ :: _ => if (c =? 48)%N then None else option_map JNum (unsigned_from 0 s)
  end.

(** The decoder on the streams of the examples, which are ASCII: an ASCII
    byte is its code unit, and nothing is kept between two calls; U+FFFD
    stands for any other byte. *)
Definition ascii_decode (d : unit) (value : list byte) : unit * jsstring :=
  (d, map (fun b => if (Byte.to_N b <? 0x80)%N then Byte.to_N b else 0xFFFD%N) value).

(** Callbacks that keep the messages received, and return. *)
Definition recording : Callbacks JsValue (list JsValue) :=
  {| onMessage := fun parsed received => (received ++ [parsed], Normal tt);
     onError := fun _ received => (received, Normal tt);
     onComplete := Some (fun received => (received, Normal tt)) |}.

(** Callbacks whose [onError] throws the error it is given. *)
Definition rethrowing : Callbacks JsValue (list JsValue) :=
  {| onMessage := fun parsed received => (received ++ [parsed], Normal tt);
     onError := fun err received => (received, Throw err);
     onComplete := Some (fun received => (received, Normal tt)) |}.

(** Callbacks whose [onMessage] throws after taking the message. *)
Definition failing_onMessage : Callbacks JsValue (list JsValue) :=
  {| onMessage := fun parsed received => (received ++ [parsed], Throw (Thrown 2));
     onError := fun _ received => (received, Normal tt);
     onComplete := Some (fun received => (received, Normal tt)) |}.

(** Callbacks whose [onComplete] throws. *)
Definition failing_onComplete : Callbacks JsValue (list JsValue) :=
  {| onMessage := fun parsed received => (received ++ [parsed], Normal tt);
     onError := fun _ received => (received, Normal tt);
     onComplete := Some (fun received => (received, Throw (Thrown 1))) |}.

(** The bytes of an ASCII literal, and of the blank line. *)
Definition bytes (s : string) : list byte := list_byte_of_string s.
Definition blank_line_bytes : list byte := [Byte.x0a; Byte.x0a].

(** The stream of the specification's example, with numbers as payloads,
    and a heartbeat. *)
Definition two_frames_and_a_rest : list (list byte) :=
  [ bytes "data: 1" ++ blank_line_bytes;
    bytes "data: 2" ++ blank_line_bytes ++ bytes "extra" ].

Definition heartbeat : jsstring := js "data: :heartbeat".

Definition server_error : Response :=
  {| ok := false;
     status := 500;
     body_text := Some (js "Internal Server Error");
     body := None |}.

(** ** The one-shot calls: [postJson], [analyzeText], [analyzeImage],
    [translateText], [getResult]

    A call of [fetch]: [fetch(url)] of line 297 is a GET without a body;
    lines 8-12 are a POST whose body is [JSON.stringify] of a value, sent
    with the JSON content type. *)
Inductive Method : Type := GET | POST.

Record Request : Type := {
  method : Method;
  target : jsstring;
  sent : option JsValue
}.

(** A response, and what [res.json()] resolves or rejects with. *)
Record Reply : Type := { head : Response; json : Completion JsValue }.

(** [fetch] rejects, or resolves with a response. *)
Inductive Answer : Type :=
| Unanswered (e : Exn)
| Answered (reply : Reply).

(** What [getResult] resolves with: the normalized [Result] of a text
    analysis, or the stored data of line 300, returned [as Result] without
    a look at its shape. *)
Inductive Outcome : Type :=
| Normalized (r : Result)
| Stored (data : JsValue).

(** [items.join(sep)] on strings. *)
Fixpoint Array_join (sep : jsstring) (items : list jsstring) : jsstring :=
  match items with
  | [] => []
  | [item] => item
  | item :: (_ :: _) as rest => item ++ sep ++ Array_join sep rest
  end.

(** Results.tsx line 125, [quick_analysis.map((p) => `- ${p.text}`).join("\n")],
    on the texts of the findings. *)
Definition bulleted (texts : list jsstring) : jsstring :=
  Array_join [LF] (map (fun t => js "- " ++ t) texts).

Section OneShot.

Variable StringToNumber_gt0 : jsstring -> bool.

(** [import.meta.env.VITE_API_BASE_URL || "http://localhost:8000"]. *)
Variable API_BASE : jsstring.

(** [decodeURIComponent]: the decoded text, or a URIError. *)
Variable decodeURIComponent : jsstring -> Completion jsstring.

(** The network: the answer to a request, given the requests made before. *)
Variable network : list Request -> Request -> Answer.

(** Lines 5-25.  The calls take the requests made so far and return them
    with their own. *)
Definition postJson (path : jsstring) (body : JsValue) (log : list Request)
  : Completion JsValue * list Request :=
  let request := {| method := POST; target := API_BASE ++ path; sent := Some body |} in
  (match network log request with
   | Unanswered e => Throw e
   | Answered reply =>
       if ok (head reply) then json reply else Throw (http_error (head reply))
   end,
   log ++ [request]).

(** Lines 151-158. *)
Definition analyzeText (text language : jsstring) : list Request -> Completion JsValue * list Request :=
  postJson (js "/api/v1/analyze")
    (JObj [ (js "content_type", JStr (js "text"));
            (js "content", JStr text);
            (js "language", JStr language) ]).

(** Lines 81-92. *)
Definition analyzeImage (imageBase64 : jsstring) : list Request -> Completion JsValue * list Request :=
  postJson (js "/api/v1/verify-image")
    (JObj [ (js "content_type", JStr (js "image"));
            (js "content", JStr imageBase64);
            (js "language", JStr (js "en")) ]).

(** Line 318, the value of the [catch]. *)
Definition placeholder_translation (text target : jsstring) : JsValue :=
  JObj [ (js "translated", JStr (js "[Translated to " ++ target ++ js "] " ++ text)) ].

(** Lines 310-320. *)
Definition translateText (text target : jsstring) (log : list Request)
  : Completion JsValue * list Request :=
  let (posted, log') :=
    postJson (js "/api/translate")
      (JObj [ (js "text", JStr text); (js "target", JStr target) ]) log in
  (match posted with
   | Normal res => Normal res
   | Throw _ => Normal (placeholder_translation text target)
   end,
   log').

(** Line 306. *)
Definition unsupported (resultId : jsstring) : Exn :=
  Error (js "Unsupported result ID: " ++ resultId).

(** Lines 276-307.  [resultId] is [None] for [undefined] and [null].  On an
    id that starts with ['text:'], [resultId.replace('text:', '')] removes
    these five code units. *)
Definition getResult (resultId : option jsstring) (log : list Request)
  : Completion Outcome * list Request :=
  match resultId with
  | None | Some [] => (Throw (Error (js "No result ID provided")), log)
  | Some ((_ :: _) as id) =>
      if startsWith id (js "text:") then
        match decodeURIComponent (skipn 5 id) with
        | Throw e => (Throw e, log)
        | Normal text =>
            let (analyzed, log') := analyzeText text (js "en") log in
            (backendResult <- analyzed ;;
             transformed <- transformBackendResult StringToNumber_gt0 backendResult ;;
             Normal (Normalized transformed),
             log')
        end
      else
        let request :=
          {| method := GET; target := API_BASE ++ js "/api/v1/results/" ++ id; sent := None |} in
        (match network log request with
         | Unanswered _ => Throw (unsupported id)
         | Answered reply =>
             if ok (head reply) then
               match json reply with
               | Normal data => Normal (Stored data)
               | Throw _ => Throw (unsupported id)
               end
             else Throw (unsupported id)
         end,
         log ++ [request])
  end.

End OneShot.

(** ** The pages that call the client

    [err.message] in a [catch]: the message of an [Error]; for a TypeError
    the message the engine gave it, and for any other value thrown what
    reading its [message] gives, which raises on [null] and [undefined]. *)
Definition message_of (other : Exn -> Completion JsValue) (err : Exn) : Completion JsValue :=
  match err with
  | Error message => Normal (JStr message)
  | _ => other err
  end.

(** Results.tsx. *)
Module Results.

(** Lines 18-20, the state of the page: [null] is [None]. *)
Record Page : Type := {
  data : option Outcome;
  loading : bool;
  error : option JsValue
}.

(** [setData(result)]: a result that is [null], the stored data of a body
    that parsed to [null], leaves [null] in the state. *)
Definition held (result : Outcome) : option Outcome :=
  match result with
  | Stored JNull => None
  | _ => Some result
  end.

(** [!data]: [null] and the stored data that are falsy. *)
Definition no_data (held_data : option Outcome) : bool :=
  match held_data with
  | None => true
  | Some (Normalized _) => false
  | Some (Stored v) => negb (ToBoolean v)
  end.

(** Lines 50-94, what the page renders: the spinner while loading, the
    failure screen with [{error}] when [error || !data], and the report of
    the data otherwise. *)
Inductive View : Type :=
| Waiting
| Failure (message : option JsValue)
| Report (shown : Outcome).

Definition view (page : Page) : View :=
  if loading page then Waiting
  else
    let error_set := match error page with
                     | Some message => ToBoolean message
                     | None => false
                     end in
    match data page with
    | Some shown => if error_set || no_data (data page) then Failure (error page)
                    else Report shown
    | None => Failure (error page)
    end.

Section FetchResult.

Variable StringToNumber_gt0 : jsstring -> bool.
Variable API_BASE : jsstring.
Variable decodeURIComponent : jsstring -> Completion jsstring.
Variable network : list Request -> Request -> Answer.
Variable other_message : Exn -> Completion JsValue.

(** Lines 26-46, on [searchParams.get("id")]: the page when the effect has
    run, how the call ends, and the requests made.  When reading
    [err.message] raises in the [catch], neither setter of the [catch] is
    called; [finally] runs on every path. *)
Definition fetchResult (resultId : option jsstring) (page : Page) (log : list Request)
  : Page * Completion unit * list Request :=
  let (got, log') :=
    match resultId with
    | None | Some [] => (Throw (Error (js "No result ID provided")), log)
    | Some (_ :: _) =>
        getResult StringToNumber_gt0 API_BASE decodeURIComponent network resultId log
    end in
  match got with
  | Normal result =>
      ({| data := held result; loading := false; error := None |}, Normal tt, log')
  | Throw err =>
      match message_of other_message err with
      | Normal message =>
          ({| data := None;
              loading := false;
              error := Some (message ||| JStr (js "Failed to analyze content")) |},
           Normal tt, log')
      | Throw e =>
          ({| data := data page; loading := false; error := error page |}, Throw e, log')
      end
  end.

End FetchResult.

(** Line 21, and the alerts the window has shown. *)
Record Shown : Type := { translated : bool; alerts : list jsstring }.

(** [data.verdict.label] and [data.verdict.confidence] on what getResult
    returned: fields of a normalized Result, or reads of stored data, which
    raise where the data has not the shape of a Result. *)
Definition verdict_part (data : Outcome) (name : jsstring) (part : Verdict -> JsValue)
  : Completion JsValue :=
  match data with
  | Normalized r => Normal (part (verdict r))
  | Stored v => stored_verdict <- Get v (js "verdict") ;; Get stored_verdict name
  end.

(** [`- ${p.text}`]. *)
Definition printed_finding (finding_text : Completion JsValue) : Completion jsstring :=
  p_text <- finding_text ;;
  printed <- ToString p_text ;;
  Normal (js "- " ++ printed).

(** Line 125, [data.quick_analysis.map((p) => `- ${p.text}`).join("\n")]:
    stored data that holds no array there has no [map] to call. *)
Definition printed_findings (data : Outcome) : Completion jsstring :=
  lines <- match data with
           | Normalized r =>
               Array_map (fun p _ => printed_finding (Normal (text p))) (quick_analysis r)
           | Stored v =>
               found <- Get v (js "quick_analysis") ;;
               match found with
               | JArr items =>
                   Array_map (fun p _ => printed_finding (Get p (js "text"))) items
               | _ => Throw TypeError
               end
           end ;;
  Normal (Array_join [LF] lines).

(** [`${res.translated}`] on what translateText returned. *)
Definition translated_text (res : JsValue) : Completion jsstring :=
  res_translated <- Get res (js "translated") ;;
  ToString res_translated.

Section HandleTranslate.

Variable API_BASE : jsstring.
Variable network : list Request -> Request -> Answer.

(** Lines 119-131, the body of the [if]: the text of the alert, or what
    was raised, and the requests made. *)
Definition translation_alert (data : Outcome) (log : list Request)
  : Completion jsstring * list Request :=
  match (data_label <- verdict_part data (js "label") label ;;
         rated <- ToString data_label ;;
         data_confidence <- verdict_part data (js "confidence") confidence ;;
         percent <- ToString data_confidence ;;
         Normal (js "Verdict: " ++ rated ++ js " (" ++ percent ++ js "%)")) with
  | Throw e => (Throw e, log)
  | Normal verdict_line =>
      let (first, log1) := translateText API_BASE network verdict_line (js "hi") log in
      match first with
      | Throw e => (Throw e, log1)
      | Normal verdictTranslated =>
          match printed_findings data with
          | Throw e => (Throw e, log1)
          | Normal findings =>
              let (second, log2) := translateText API_BASE network findings (js "hi") log1 in
              (qaTranslated <- second ;;
               verdict_shown <- translated_text verdictTranslated ;;
               findings_shown <- translated_text qaTranslated ;;
               Normal (js "🔄 Translation (Hindi):" ++ [LF; LF] ++ verdict_shown
                       ++ [LF; LF] ++ findings_shown),
               log2)
          end
      end
  end.

(** Lines 117-137, for the [data] the page is rendered with. *)
Definition handleTranslate (data : Outcome) (shown : Shown) (log : list Request)
  : Shown * list Request :=
  if translated shown then ({| translated := false; alerts := alerts shown |}, log)
  else
    let (alert, log') := translation_alert data log in
    match alert with
    | Normal message =>
        ({| translated := true; alerts := alerts shown ++ [message] |}, log')
    | Throw _ =>
        ({| translated := false;
            alerts := alerts shown ++ [js "Translation not available right now."] |},
         log')
    end.

End HandleTranslate.

End Results.

(** The image results page (ImageResults, in the file of the pages). *)
Module ImageResults.

(** The object of lines 731-736. *)
Record Findings : Type := {
  forensic : JsValue;
  extracted_text : JsValue;
  fact_check : JsValue;
  education : JsValue
}.

(** Lines 706-713, the state that [handleAnalyze] sets. *)
Record Page : Type := {
  isAnalyzing : bool;
  error : option jsstring;
  results : option Findings
}.

Section HandleAnalyze.

Variable API_BASE : jsstring.
Variable network : list Request -> Request -> Answer.

(** Lines 724-743.  [file] is [None] without [state.file]; otherwise it is
    how [fileToBase64] ends, with the data URL of the file or with what the
    reader raised.  [res.forensic] raises on a body that parsed to [null]. *)
Definition handleAnalyze (file : option (Completion jsstring)) (page : Page)
    (log : list Request) : Page * list Request :=
  match file with
  | None => (page, log)
  | Some read =>
      let (found, log') :=
        match read with
        | Throw e => (Throw e, log)
        | Normal imageBase64 =>
            let (posted, log') := analyzeImage API_BASE network imageBase64 log in
            (res <- posted ;;
             res_forensic <- Get res (js "forensic") ;;
             res_ocr_text <- Get res (js "ocr_text") ;;
             res_fact_check <- Get res (js "fact_check") ;;
             res_education <- Get res (js "education") ;;
             Normal {| forensic := res_forensic;
                       extracted_text := res_ocr_text;
                       fact_check := res_fact_check;
                       education := res_education |},
             log')
        end in
      match found with
      | Normal findings =>
          ({| isAnalyzing := false; error := None; results := Some findings |}, log')
      | Throw _ =>
          ({| isAnalyzing := false;
              error := Some (js "Image could not be analyzed. Please try again.");
              results := results page |},
           log')
      end
  end.

End HandleAnalyze.

End ImageResults.

(** ** Sample network

    A stand-in for [decodeURIComponent] on the ids of the examples, which
    hold no escape: a text without a percent sign is its own decoding; the
    stand-in refuses every other text. *)
Definition decode_without_escapes (s : jsstring) : Completion jsstring :=
  if existsb (fun c => (c =? 37)%N) s then Throw (Thrown 0) else Normal s.

(** The default of [API_BASE]. *)
Definition localhost : jsstring := js "http://localhost:8000".

Definition ok_response : Response :=
  {| ok := true; status := 200; body_text := None; body := None |}.

(** A server that answers an analysis with the vaccine payload and
    everything else with the status 500. *)
Definition analysis_server (log : list Request) (request : Request) : Answer :=
  match method request with
  | POST =>
      if jsstring_eqb (target request) (localhost ++ js "/api/v1/analyze")
      then Answered {| head := ok_response; json := Normal vaccine_payload |}
      else Answered {| head := server_error; json := Throw (Thrown 0) |}
  | GET => Answered {| head := server_error; json := Throw (Thrown 0) |}
  end.

(** A server whose stored results are all [null]. *)
Definition null_result_server (log : list Request) (request : Request) : Answer :=
  Answered {| head := ok_response; json := Normal JNull |}.

(** A payload whose fact-check count is 10^21. *)
Definition huge_count_payload : JsValue :=
  JObj [ (js "audit", JObj [ (js "fact_checks_found", JNum (10 ^ 21)) ]) ].

(** No network: [fetch] rejects with a TypeError. *)
Definition offline (log : list Request) (request : Request) : Answer :=
  Unanswered TypeError.

(** The text of the two frames and a rest, cut into other chunks. *)
Definition same_text_cut_elsewhere : list (list byte) :=
  [ bytes "da";
    bytes "ta: 1" ++ [Byte.x0a];
    [Byte.x0a] ++ bytes "data: 2" ++ blank_line_bytes ++ bytes "ex";
    bytes "tra" ].

Definition printed_texts : list jsstring :=
  [ js "The claim is false"; js "Two sources agree" ].

(** ** Properties of the normalizer *)

Arguments js : simpl never.
Arguments Number_toString : simpl never.

Lemma bind_Normal (A B : Type) (c : Completion A) (k : A -> Completion B) (b : B) :
  bind c k = Normal b -> exists a, c = Normal a /\ k a = Normal b.
Proof.
  destruct c as [a | e]; simpl; intros H; [exists a; auto | discriminate].
Qed.

(** Splits a hypothesis [x <- c ;; k = Normal b] into its two steps. *)
Ltac unbind H :=
  let a := fresh "a" in
  let Ha := fresh "Step" in
  apply bind_Normal in H; destruct H as (a & Ha & H).

Section NormalizerProperties.

Variable StringToNumber_gt0 : jsstring -> bool.
Local Abbreviation transform := (transformBackendResult StringToNumber_gt0).

(** A normal completion of the normalizer, step by step. *)
Lemma transform_Normal (p : JsValue) (r : Result) :
  transform p = Normal r ->
  is_nullish p = false /\
  exists items found_array quick checklist any_fact_check entries rated percent found,
    evidence_items (property p (js "evidence")) = Normal items /\
    quickAnalysisArray (property p (js "quick_analysis")) = Normal found_array /\
    match found_array with
    | [] => fallback_findings (fact_check_count p) (verdict_field p (js "summary"))
    | _ :: _ => Normal found_array
    end = Normal quick /\
    educationChecklistArray (property p (js "education_checklist"))
      (property p (js "checklist")) = Normal checklist /\
    greater_than_zero StringToNumber_gt0 (fact_check_count p) = Normal any_fact_check /\
    Array_map (fun item _ => evidence_entry item) items = Normal entries /\
    ToString (verdict_field p (js "label") ||| JStr (js "unknown")) = Normal rated /\
    ToString (verdict_field p (js "confidence") ||| JNum 0) = Normal percent /\
    ToString (fact_check_count p) = Normal found /\
    verdict r =
      {| label := verdict_field p (js "label") ||| JStr (js "⚠️ Caution");
         confidence := verdict_field p (js "confidence") ||| JNum 50;
         breakdown :=
           {| factChecks := if any_fact_check then 90 else 75;
              sourceCredibility := if (0 <? Z.of_nat (length items))%Z then 85 else 70;
              modelConsensus := verdict_field p (js "confidence") ||| JNum 50;
              technicalFeasibility := 75;
              crossMedia := Z.min 90 (Z.of_nat (length items) * 20 + 50) |} |} /\
    quick_analysis r = quick /\
    evidence r = entries /\
    education_checklist r = checklist /\
    simple_explanation r =
      js "This claim was rated as " ++ rated ++ js " with " ++ percent
      ++ js "% confidence based on " ++ found
      ++ js " professional fact-check sources and AI analysis.".
Proof.
  unfold transformBackendResult, Get. intros H.
  destruct (is_nullish p) eqn:Hp; [discriminate |]. simpl bind in H.
  fold (fact_check_count p) in H.
  split; [reflexivity |].
  unbind H. rename a into items.
  unbind H. rename a into found_array.
  unbind H. rename a into quick.
  unbind H. rename a into checklist.
  unbind H. rename a into any_fact_check.
  unbind H. rename a into entries.
  unbind H. rename a into rated.
  unbind H. rename a into percent.
  unbind H. rename a into found.
  injection H as <-.
  exists items, found_array, quick, checklist, any_fact_check, entries, rated, percent, found.
  simpl. repeat split; assumption.
Qed.

(** On a payload that passes, the items walked are those counted. *)
Lemma evidence_items_count (p : JsValue) (items : list JsValue) :
  evidence_items (property p (js "evidence")) = Normal items ->
  Z.of_nat (length items) = evidence_count p.
Proof.
  unfold evidence_items, evidence_count, or_else.
  destruct (property p (js "evidence")) as [| | b | n | s | l | o]; simpl;
    try discriminate; try (intros [= <-]; reflexivity).
  - destruct b; [discriminate | intros [= <-]; reflexivity].
  - destruct (negb (n =? 0)%Z); [discriminate | intros [= <-]; reflexivity].
  - destruct s; [intros [= <-]; reflexivity | discriminate].
Qed.

Lemma Array_map_from_length (A B : Type) (f : A -> nat -> Completion B)
    (items : list A) (index : nat) (out : list B) :
  Array_map_from f index items = Normal out -> length out = length items.
Proof.
  revert index out.
  induction items as [| item rest IH]; simpl; intros index out H.
  - injection H as <-. reflexivity.
  - unbind H. unbind H. injection H as <-. simpl. f_equal. eauto.
Qed.

(** C4: the breakdown of a Result is the synthetic one: 90 or 75 by
    whether the fact-check count is positive, 85 or 70 by whether there is
    evidence, the constant 75, and min(90, evidenceCount * 20 + 50), which
    never exceeds 90; without evidence and fact checks it is
    75, 70, raw confidence or 50, 75, 50. *)
Theorem breakdown_is_synthetic (p : JsValue) (r : Result) :
  transform p = Normal r ->
  (exists any_fact_check,
     greater_than_zero StringToNumber_gt0 (fact_check_count p) = Normal any_fact_check /\
     factChecks (breakdown (verdict r)) = if any_fact_check then 90%Z else 75%Z) /\
  (forall n, fact_check_count p = JNum n ->
             factChecks (breakdown (verdict r)) = if (0 <? n)%Z then 90%Z else 75%Z) /\
  sourceCredibility (breakdown (verdict r))
    = (if (0 <? evidence_count p)%Z then 85 else 70)%Z /\
  technicalFeasibility (breakdown (verdict r)) = 75%Z /\
  crossMedia (breakdown (verdict r)) = Z.min 90 (evidence_count p * 20 + 50) /\
  (crossMedia (breakdown (verdict r)) <= 90)%Z /\
  (fact_check_count p = JNum 0 -> evidence_count p = 0%Z ->
   breakdown (verdict r) =
     {| factChecks := 75;
        sourceCredibility := 70;
        modelConsensus := verdict_field p (js "confidence") ||| JNum 50;
        technicalFeasibility := 75;
        crossMedia := 50 |}).
Proof.
  intros H. apply transform_Normal in H.
  destruct H as (_ & items & found_array & quick & checklist & any & entries
                 & rated & percent & found & Hitems & _ & _ & _ & Hany & _ & _ & _ & _
                 & Hverdict & _).
  apply evidence_items_count in Hitems.
  rewrite Hverdict. simpl. rewrite Hitems.
  split; [exists any; split; [exact Hany | reflexivity] |].
  repeat split.
  - intros n Hn. rewrite Hn in Hany. simpl in Hany. injection Hany as <-. reflexivity.
  - apply Z.le_min_l.
  - intros Hfc Hev. rewrite Hfc in Hany. simpl in Hany. injection Hany as <-.
    rewrite Hev. reflexivity.
Qed.

(** C10: an upstream confidence of 0 is falsy and gives way to the
    default: the Result holds confidence 50 and modelConsensus 50.  When
    the payload has no verdict.confidence, the Result holds 50 while the
    sentence of simple_explanation prints 0%. *)
Theorem zero_confidence_is_defaulted (p : JsValue) (r : Result) :
  transform p = Normal r ->
  (verdict_field p (js "confidence") = JNum 0 ->
   confidence (verdict r) = JNum 50 /\
   modelConsensus (breakdown (verdict r)) = JNum 50) /\
  (verdict_field p (js "confidence") = JUndefined ->
   confidence (verdict r) = JNum 50 /\
   exists rated found,
     ToString (verdict_field p (js "label") ||| JStr (js "unknown")) = Normal rated /\
     ToString (fact_check_count p) = Normal found /\
     simple_explanation r =
       js "This claim was rated as " ++ rated ++ js " with " ++ js "0"
       ++ js "% confidence based on " ++ found
       ++ js " professional fact-check sources and AI analysis.").
Proof.
  intros H. apply transform_Normal in H.
  destruct H as (_ & items & found_array & quick & checklist & any & entries
                 & rated & percent & found & _ & _ & _ & _ & _ & _ & Hrated & Hpercent
                 & Hfound & Hverdict & _ & _ & _ & Hexplanation).
  rewrite Hverdict. simpl. split.
  - intros ->. split; reflexivity.
  - intros Hc. rewrite Hc in *. split; [reflexivity |].
    exists rated, found. repeat split; try assumption.
    simpl in Hpercent. injection Hpercent as <-. exact Hexplanation.
Qed.

(** C5: a payload without quick_analysis gets exactly the three fallback
    findings, the first of which prints the fact-check count
    (audit.fact_checks_found, or 0) as a template literal prints it: a
    numeric count by Number::toString, which for a count below 2^53 is its
    decimal digits and from 10^21 on is in exponent notation. *)
Theorem missing_quick_analysis_gets_fallback (p : JsValue) (r : Result) :
  transform p = Normal r ->
  property p (js "quick_analysis") = JUndefined ->
  exists found,
    ToString (fact_check_count p) = Normal found /\
    (forall n, fact_check_count p = JNum n -> found = Number_toString n) /\
    (forall n, fact_check_count p = JNum n -> (Z.abs n < 2 ^ 53)%Z -> found = decimal n) /\
    (fact_check_count p = JNum (10 ^ 21) -> found = js "1e+21") /\
    (ToBoolean (OptGet (property p (js "audit")) (js "fact_checks_found")) = false ->
     found = js "0") /\
    length (quick_analysis r) = 3 /\
    quick_analysis r =
      [ {| icon := JStr (js "🎭");
           text := JStr (js "Found " ++ found
                         ++ js " professional fact-check sources confirming this analysis.") |};
        {| icon := JStr (js "🌍");
           text := JStr (js "Cross-referenced with international fact-checking databases and expert verification systems.") |};
        {| icon := JStr (js "🧬");
           text := verdict_field p (js "summary")
                   ||| JStr (js "AI analysis completed with high confidence based on available evidence.") |} ].
Proof.
  intros H Hmissing. apply transform_Normal in H.
  destruct H as (_ & items & found_array & quick & checklist & any & entries
                 & rated & percent & found & _ & Harray & Hquick & _ & _ & _ & _ & _
                 & Hfound & _ & Hq & _).
  rewrite Hmissing in Harray. simpl in Harray. injection Harray as <-.
  unfold fallback_findings in Hquick. rewrite Hfound in Hquick. simpl in Hquick.
  injection Hquick as <-.
  exists found. rewrite Hq. repeat split; try assumption.
  - intros n Hn. rewrite Hn in Hfound. simpl in Hfound. injection Hfound as <-. reflexivity.
  - intros n Hn Hsafe. rewrite Hn in Hfound. simpl in Hfound. injection Hfound as <-.
    unfold Number_toString. apply Z.ltb_lt in Hsafe. rewrite Hsafe. reflexivity.
  - intros Hn. rewrite Hn in Hfound. cbn [ToString] in Hfound.
    transitivity (Number_toString (10 ^ 21)); [congruence | vm_compute; reflexivity].
  - intros Hfalsy. unfold fact_check_count, or_else in Hfound. rewrite Hfalsy in Hfound.
    injection Hfound as <-. reflexivity.
Qed.

(** C2, amended: quick_analysis of a Result is never empty;
    education_checklist is empty exactly when the upstream
    education_checklist is an empty array, or is no array while the
    upstream checklist is an empty array: an upstream array is taken as it
    is, the fallback fills in only when neither is an array. *)
Theorem quick_analysis_never_empty (p : JsValue) (r : Result) :
  transform p = Normal r ->
  quick_analysis r <> [] /\
  (education_checklist r = [] <->
   property p (js "education_checklist") = JArr []
   \/ (isArray (property p (js "education_checklist")) = false
       /\ property p (js "checklist") = JArr [])) /\
  (isArray (property p (js "education_checklist")) = false ->
   isArray (property p (js "checklist")) = false ->
   education_checklist r = fallback_checklist).
Proof.
  intros H. apply transform_Normal in H.
  destruct H as (_ & items & found_array & quick & checklist & any & entries
                 & rated & percent & found & _ & _ & Hquick & Hchecklist & _ & _ & _ & _
                 & _ & _ & Hq & _ & Hc & _).
  rewrite Hq, Hc. split; [| split].
  - destruct found_array as [| item rest].
    + unfold fallback_findings in Hquick. unbind Hquick.
      injection Hquick as <-. discriminate.
    + injection Hquick as <-. discriminate.
  - unfold educationChecklistArray in Hchecklist.
    destruct (property p (js "education_checklist")) as [| | b | n | s | l | o];
      try (destruct (property p (js "checklist")) as [| | b' | n' | s' | l' | o'];
           try (injection Hchecklist as <-;
                split; [discriminate | intros [HF | [_ HF]]; discriminate]);
           apply Array_map_from_length in Hchecklist;
           split;
           [ intros ->; destruct l'; [right; split; reflexivity | discriminate]
           | intros [HF | [_ HF]]; [discriminate |];
             injection HF as ->; destruct checklist; [reflexivity | discriminate] ]).
    injection Hchecklist as <-. split.
    + intros ->. left; reflexivity.
    + intros [HF | [HF _]]; [injection HF as ->; reflexivity | discriminate].
  - intros Hec Hcl. unfold educationChecklistArray in Hchecklist.
    destruct (property p (js "education_checklist")); try discriminate;
      destruct (property p (js "checklist")); try discriminate;
      injection Hchecklist as <-; reflexivity.
Qed.

Lemma jsstring_eqb_eq (a b : jsstring) : jsstring_eqb a b = true <-> a = b.
Proof.
  revert b. induction a as [| x a IH]; destruct b as [| y b]; simpl;
    try (split; [discriminate | discriminate]); [split; reflexivity |].
  unfold unit_eqb. rewrite andb_true_iff, N.eqb_eq, IH.
  split; [intros [-> ->]; reflexivity | intros [= -> ->]; auto].
Qed.

Lemma own_property_set_same (props : list (jsstring * JsValue)) (k : jsstring) (v : JsValue) :
  own_property (set_property props k v) k = Some v.
Proof.
  assert (Hk : jsstring_eqb k k = true) by (apply jsstring_eqb_eq; reflexivity).
  induction props as [| [x y] rest IH]; simpl.
  - rewrite Hk. reflexivity.
  - destruct (jsstring_eqb x k) eqn:Hx; simpl; rewrite Hx; auto.
Qed.

Lemma own_property_set_other (props : list (jsstring * JsValue)) (k k' : jsstring)
    (v : JsValue) :
  jsstring_eqb k k' = false ->
  own_property (set_property props k v) k' = own_property props k'.
Proof.
  intros Hk. induction props as [| [x y] rest IH]; simpl.
  - rewrite Hk. reflexivity.
  - destruct (jsstring_eqb x k) eqn:Hx; simpl.
    + apply jsstring_eqb_eq in Hx. subst x. rewrite Hk. reflexivity.
    + rewrite IH. reflexivity.
Qed.

Lemma is_nullish_with_verdict_breakdown (p b : JsValue) :
  is_nullish (with_verdict_breakdown p b) = is_nullish p.
Proof.
  destruct p as [| | ? | ? | ? | ? | props]; try reflexivity. simpl.
  destruct (own_property props (js "verdict")) as [[| | ? | ? | ? | ? | ?] |]; reflexivity.
Qed.

(** A property other than [verdict] is read as before. *)
Lemma property_with_verdict_breakdown (p b : JsValue) (name : jsstring) :
  jsstring_eqb (js "verdict") name = false ->
  property (with_verdict_breakdown p b) name = property p name.
Proof.
  intros Hname. destruct p as [| | ? | ? | ? | ? | props]; try reflexivity. simpl.
  destruct (own_property props (js "verdict")) as [[| | ? | ? | ? | ? | ?] |];
    try reflexivity.
  simpl. rewrite own_property_set_other by exact Hname. reflexivity.
Qed.

(** A field of the verdict other than [breakdown] is read as before. *)
Lemma verdict_field_with_verdict_breakdown (p b : JsValue) (name : jsstring) :
  jsstring_eqb (js "breakdown") name = false ->
  verdict_field (with_verdict_breakdown p b) name = verdict_field p name.
Proof.
  intros Hname. unfold verdict_field.
  destruct p as [| | ? | ? | ? | ? | props]; try reflexivity. simpl.
  destruct (own_property props (js "verdict")) as [[| | ? | ? | ? | ? | vprops] |] eqn:Hv;
    simpl; rewrite ?Hv; try reflexivity.
  rewrite own_property_set_same. unfold OptGet, property. simpl.
  rewrite own_property_set_other by exact Hname. reflexivity.
Qed.

(** C1, amended: the breakdown of a Result is always the synthetic one.
    The normalizer never reads verdict.breakdown of the payload: setting
    it to any value changes nothing in the outcome, and the breakdown
    returned is computed from the fact-check count, the evidence count and
    verdict.confidence alone. *)
Theorem provided_breakdown_is_ignored (p b : JsValue) :
  transform (with_verdict_breakdown p b) = transform p /\
  (forall r, transform (with_verdict_breakdown p b) = Normal r ->
     exists any_fact_check,
       greater_than_zero StringToNumber_gt0 (fact_check_count p) = Normal any_fact_check /\
       breakdown (verdict r) =
         {| factChecks := if any_fact_check then 90 else 75;
            sourceCredibility := if (0 <? evidence_count p)%Z then 85 else 70;
            modelConsensus := verdict_field p (js "confidence") ||| JNum 50;
            technicalFeasibility := 75;
            crossMedia := Z.min 90 (evidence_count p * 20 + 50) |}) /\
  (forall props verdict_props,
     p = JObj props ->
     own_property props (js "verdict") = Some (JObj verdict_props) ->
     verdict_field (with_verdict_breakdown p b) (js "breakdown") = b).
Proof.
  assert (Hsame : transform (with_verdict_breakdown p b) = transform p).
  { unfold transformBackendResult, Get. cbv zeta.
    rewrite is_nullish_with_verdict_breakdown.
    fold (verdict_field (with_verdict_breakdown p b) (js "summary")).
    fold (verdict_field (with_verdict_breakdown p b) (js "label")).
    fold (verdict_field (with_verdict_breakdown p b) (js "confidence")).
    rewrite !verdict_field_with_verdict_breakdown by reflexivity.
    rewrite !property_with_verdict_breakdown by reflexivity.
    reflexivity. }
  split; [exact Hsame | split].
  - intros r H. rewrite Hsame in H. apply transform_Normal in H.
    destruct H as (_ & items & found_array & quick & checklist & any & entries
                   & rated & percent & found & Hitems & _ & _ & _ & Hany & _ & _ & _ & _
                   & Hverdict & _).
    apply evidence_items_count in Hitems.
    exists any. split; [exact Hany |].
    rewrite Hverdict. simpl. rewrite Hitems. reflexivity.
  - intros props vprops -> Hv. unfold verdict_field, with_verdict_breakdown.
    rewrite Hv. unfold property at 1. rewrite own_property_set_same.
    unfold OptGet, property. simpl. rewrite own_property_set_same. reflexivity.
Qed.

Lemma length_map_indexed_from (A B : Type) (f : A -> nat -> B) (items : list A) (index : nat) :
  length (map_indexed_from f index items) = length items.
Proof.
  revert index. induction items as [| item rest IH]; simpl; intros index;
    [reflexivity | f_equal; apply IH].
Qed.

Lemma nth_error_map_indexed_from (A B : Type) (f : A -> nat -> B) (items : list A)
    (index n : nat) (item : A) :
  nth_error items n = Some item ->
  nth_error (map_indexed_from f index items) n = Some (f item (index + n)).
Proof.
  revert index n. induction items as [| x rest IH]; intros index n H.
  - destruct n; discriminate.
  - destruct n as [| n]; simpl in *.
    + injection H as ->. rewrite Nat.add_0_r. reflexivity.
    + rewrite (IH (S index) n H). rewrite Nat.add_succ_r. reflexivity.
Qed.

Lemma trimStart_idempotent (s : jsstring) : trimStart (trimStart s) = trimStart s.
Proof.
  induction s as [| c rest IH]; simpl; [reflexivity |].
  destruct (is_whitespace c) eqn:Hc; [exact IH | simpl; rewrite Hc; reflexivity].
Qed.

(** Trimming after the regular expression of line 176: the bullet goes,
    and the white space around what is left. *)
Lemma trim_strip_bullet (line : jsstring) :
  trim (strip_bullet line) = trim (without_bullet line).
Proof.
  destruct line as [| c rest]; simpl; [reflexivity |].
  destruct (is_bullet c); [| reflexivity].
  unfold trim. rewrite trimStart_idempotent. reflexivity.
Qed.

(** The icon of a line: the array's for the first five, then the default. *)
Lemma icon_at_index (index : nat) :
  icon_at index = JStr (if index <? 5 then nth index icons [] else js "🔍").
Proof.
  do 5 (destruct index as [| index]; [reflexivity |]).
  destruct index; reflexivity.
Qed.

(** C3, amended: for a quick_analysis string, N counts the lines that are
    not empty once trimmed; when N is at least 1 the Result has exactly N
    entries, in the order of the lines; the text of an entry is its line
    without the bullet it starts with (a hyphen, • or an asterisk), trimmed; its icon is
    the icon of the line's index in the array of five for the first five
    lines, and the default icon for every later line. *)
Theorem string_quick_analysis_entries (p : JsValue) (s : jsstring) (r : Result) :
  transform p = Normal r ->
  property p (js "quick_analysis") = JStr s ->
  kept_lines s <> [] ->
  kept_lines s
    = filter (fun line => match trim line with [] => false | _ :: _ => true end)
        (split s [LF]) /\
  length (quick_analysis r) = length (kept_lines s) /\
  (forall index line,
     nth_error (kept_lines s) index = Some line ->
     nth_error (quick_analysis r) index =
       Some {| icon := JStr (if index <? 5 then nth index icons [] else js "🔍");
               text := JStr (trim (without_bullet line)) |}).
Proof.
  intros H Hs Hlines. apply transform_Normal in H.
  destruct H as (_ & items & found_array & quick & checklist & any & entries
                 & rated & percent & found & _ & Harray & Hquick & _ & _ & _ & _ & _
                 & _ & _ & Hq & _).
  rewrite Hs in Harray. unfold quickAnalysisArray in Harray.
  assert (Htruthy : ToBoolean (JStr s) = true).
  { destruct s as [| c rest]; [| reflexivity].
    exfalso. apply Hlines. reflexivity. }
  rewrite Htruthy in Harray. injection Harray as <-.
  assert (Hfound : quick = quick_analysis_of_string s).
  { unfold quick_analysis_of_string in *.
    destruct (kept_lines s) as [| line rest]; [contradiction |].
    simpl in Hquick. injection Hquick as <-. reflexivity. }
  rewrite Hq, Hfound. unfold quick_analysis_of_string.
  split; [reflexivity | split].
  - apply length_map_indexed_from.
  - intros index line Hline.
    rewrite (nth_error_map_indexed_from _ _ 0 _ Hline). simpl.
    rewrite icon_at_index, trim_strip_bullet. reflexivity.
Qed.

Lemma returns_Get (v : JsValue) (name : jsstring) : returns (Get v name) = not_null v.
Proof. unfold Get, not_null. destruct (is_nullish v); reflexivity. Qed.

Lemma returns_Array_map_from (A B : Type) (f : A -> nat -> Completion B) (ok : A -> bool)
    (items : list A) (index : nat) :
  (forall item i, returns (f item i) = ok item) ->
  returns (Array_map_from f index items) = forallb ok items.
Proof.
  intros Hf. revert index. induction items as [| item rest IH]; intros index; simpl.
  - reflexivity.
  - rewrite <- (Hf item index), <- (IH (S index)).
    destruct (f item index); simpl; [| reflexivity].
    destruct (Array_map_from f (S index) rest); reflexivity.
Qed.

Lemma returns_evidence_entry (item : JsValue) :
  returns (evidence_entry item) = not_null item.
Proof.
  unfold evidence_entry, Get, not_null. destruct (is_nullish item); reflexivity.
Qed.

Lemma returns_checklist_entry (item : JsValue) :
  returns (checklist_entry item) = checklist_item_ok item.
Proof.
  unfold checklist_entry, checklist_item_ok, Get, not_null, printable.
  destruct (is_string item); [reflexivity |].
  destruct (is_nullish item); [reflexivity |]. simpl.
  destruct (ToString (property item (js "point"))); simpl; [| reflexivity].
  destruct (ToString (property item (js "explanation"))); reflexivity.
Qed.

Lemma returns_quick_analysis_of_array (items : list JsValue) :
  returns (quick_analysis_of_array items) = forallb not_null items.
Proof.
  apply returns_Array_map_from. intros item i.
  unfold Get, not_null. destruct (is_nullish item); reflexivity.
Qed.

Lemma returns_greater_than_zero (v : JsValue) :
  printable v = true -> returns (greater_than_zero StringToNumber_gt0 v) = true.
Proof.
  unfold printable. destruct v; try reflexivity; unfold greater_than_zero; intros H.
  - destruct (ToString (JArr items)); [reflexivity | discriminate].
  - destruct (ToString (JObj props)); [reflexivity | discriminate].
Qed.

Lemma returns_true (A : Type) (c : Completion A) :
  returns c = true -> exists a, c = Normal a.
Proof. destruct c as [a | e]; [exists a; reflexivity | discriminate]. Qed.

Lemma evidence_items_Normal (ev : JsValue) (items : list JsValue) :
  evidence_items ev = Normal items <-> ev ||| JArr [] = JArr items.
Proof.
  unfold evidence_items. destruct (ev ||| JArr []); split; intros H;
    try discriminate; congruence.
Qed.

Lemma returns_quickAnalysisArray (qa : JsValue) :
  returns (quickAnalysisArray qa)
  = match qa with JArr items => forallb not_null items | _ => true end.
Proof.
  unfold quickAnalysisArray.
  destruct qa as [| | b | n | s | items | props]; try reflexivity.
  - destruct (ToBoolean (JBool b)); reflexivity.
  - destruct (ToBoolean (JNum n)); reflexivity.
  - destruct (ToBoolean (JStr s)); reflexivity.
  - apply returns_quick_analysis_of_array.
Qed.

Lemma returns_educationChecklistArray (ec cl : JsValue) :
  returns (educationChecklistArray ec cl)
  = match ec, cl with
    | JArr _, _ => true
    | _, JArr items => forallb checklist_item_ok items
    | _, _ => true
    end.
Proof.
  unfold educationChecklistArray.
  destruct ec; try reflexivity;
    destruct cl; try reflexivity;
    apply returns_Array_map_from; intros item i; apply returns_checklist_entry.
Qed.

(** The normalizer returns on a well shaped payload. *)
Lemma well_shaped_returns (p : JsValue) :
  well_shaped p = true -> exists r, transform p = Normal r.
Proof.
  unfold well_shaped. rewrite !andb_true_iff.
  intros [[[[[[Hp Hev] Hqa] Hcl] Hfc] Hlabel] Hconf].
  unfold not_null in Hp. apply negb_true_iff in Hp.
  destruct (property p (js "evidence") ||| JArr []) as [| | | | | items |] eqn:Hitems;
    try discriminate.
  apply evidence_items_Normal in Hitems.
  rewrite <- returns_quickAnalysisArray in Hqa.
  apply returns_true in Hqa. destruct Hqa as [found_array Hqa].
  rewrite <- returns_educationChecklistArray in Hcl.
  apply returns_true in Hcl. destruct Hcl as [checklist Hcl].
  pose proof (returns_greater_than_zero _ Hfc) as Hany.
  apply returns_true in Hany. destruct Hany as [any Hany].
  rewrite <- (returns_Array_map_from (fun item (_ : nat) => evidence_entry item)
                not_null items 0 (fun item _ => returns_evidence_entry item)) in Hev.
  apply returns_true in Hev. destruct Hev as [entries Hev].
  apply returns_true in Hfc. destruct Hfc as [found Hfc].
  apply returns_true in Hlabel. destruct Hlabel as [rated Hlabel].
  apply returns_true in Hconf. destruct Hconf as [percent Hconf].
  assert (Hquick : exists quick,
             match found_array with
             | [] => fallback_findings (fact_check_count p) (verdict_field p (js "summary"))
             | _ :: _ => Normal found_array
             end = Normal quick).
  { destruct found_array; [| eexists; reflexivity].
    unfold fallback_findings. rewrite Hfc. eexists; reflexivity. }
  destruct Hquick as [quick Hquick].
  unfold transformBackendResult, Get. cbv zeta.
  rewrite Hp. cbn [bind].
  fold (fact_check_count p).
  fold (verdict_field p (js "summary")).
  fold (verdict_field p (js "label")).
  fold (verdict_field p (js "confidence")).
  rewrite Hitems. cbn [bind].
  rewrite Hqa. cbn [bind].
  rewrite Hquick. cbn [bind].
  rewrite Hcl. cbn [bind].
  rewrite Hany. cbn [bind].
  unfold Array_map in Hev |- *. rewrite Hev. cbn [bind].
  rewrite Hlabel. cbn [bind].
  rewrite Hconf. cbn [bind].
  rewrite Hfc. cbn [bind].
  eexists; reflexivity.
Qed.

(** It returns on no other payload. *)
Lemma returns_well_shaped (p : JsValue) (r : Result) :
  transform p = Normal r -> well_shaped p = true.
Proof.
  intros H. apply transform_Normal in H.
  destruct H as (Hp & items & found_array & quick & checklist & any & entries
                 & rated & percent & found & Hitems & Harray & _ & Hchecklist & _
                 & Hentries & Hrated & Hpercent & Hfound & _).
  assert (Hnot_null : not_null p = true) by (unfold not_null; rewrite Hp; reflexivity).
  unfold well_shaped, printable.
  rewrite Hnot_null, Hrated, Hpercent, Hfound.
  apply evidence_items_Normal in Hitems. rewrite Hitems.
  rewrite <- returns_quickAnalysisArray, Harray.
  rewrite <- returns_educationChecklistArray, Hchecklist.
  rewrite <- (returns_Array_map_from (fun item (_ : nat) => evidence_entry item)
                not_null items 0 (fun item _ => returns_evidence_entry item)).
  unfold Array_map in Hentries. rewrite Hentries. reflexivity.
Qed.

Lemma only_TypeError_Normal (A : Type) (a : A) : only_TypeError (Normal a).
Proof. intros e H; discriminate. Qed.

Lemma only_TypeError_Throw (A : Type) : only_TypeError (@Throw A TypeError).
Proof. intros e [= <-]; reflexivity. Qed.

Lemma only_TypeError_bind (A B : Type) (c : Completion A) (k : A -> Completion B) :
  only_TypeError c -> (forall a, only_TypeError (k a)) -> only_TypeError (bind c k).
Proof.
  intros Hc Hk e. destruct c as [a | e']; simpl.
  - apply Hk.
  - intros [= <-]. apply Hc. reflexivity.
Qed.

Lemma only_TypeError_Array_map_from (A B : Type) (f : A -> nat -> Completion B)
    (items : list A) (index : nat) :
  (forall item i, only_TypeError (f item i)) ->
  only_TypeError (Array_map_from f index items).
Proof.
  intros Hf. revert index. induction items as [| item rest IH]; intros index; simpl.
  - apply only_TypeError_Normal.
  - apply only_TypeError_bind; [apply Hf | intros b].
    apply only_TypeError_bind; [apply IH | intros bs; apply only_TypeError_Normal].
Qed.

Lemma only_TypeError_Get (v : JsValue) (name : jsstring) : only_TypeError (Get v name).
Proof.
  unfold Get. destruct (is_nullish v);
    [apply only_TypeError_Throw | apply only_TypeError_Normal].
Qed.

Lemma only_TypeError_ToString : forall v : JsValue, only_TypeError (ToString v).
Proof.
  fix IH 1. intros v. destruct v as [| | b | n | s | items | props].
  - apply only_TypeError_Normal.
  - apply only_TypeError_Normal.
  - apply only_TypeError_Normal.
  - apply only_TypeError_Normal.
  - apply only_TypeError_Normal.
  - simpl. induction items as [| item rest IHrest].
    + apply only_TypeError_Normal.
    + apply only_TypeError_bind.
      * destruct (is_nullish item); [apply only_TypeError_Normal | apply IH].
      * intros s. destruct rest as [| item' rest']; [apply only_TypeError_Normal |].
        apply only_TypeError_bind; [exact IHrest | intros t; apply only_TypeError_Normal].
  - simpl. destruct (has_own props (js "toString"));
      [apply only_TypeError_Throw | apply only_TypeError_Normal].
Qed.

(** Goes through a computation step by step: each step raises a
    TypeError or nothing. *)
Ltac raises_TypeError :=
  repeat first
    [ apply only_TypeError_Normal
    | apply only_TypeError_Throw
    | apply only_TypeError_Get
    | apply only_TypeError_ToString
    | apply only_TypeError_Array_map_from; intros
    | apply only_TypeError_bind; [| intros]
    | match goal with
      | |- only_TypeError (if ?b then _ else _) => destruct b
      | |- only_TypeError (match ?x with _ => _ end) => destruct x
      end ].

Lemma only_TypeError_transform (p : JsValue) : only_TypeError (transform p).
Proof.
  unfold transformBackendResult, evidence_items, quickAnalysisArray,
    quick_analysis_of_array, fallback_findings, educationChecklistArray,
    checklist_entry, greater_than_zero, evidence_entry, Array_map.
  cbv zeta. raises_TypeError.
Qed.

(** C9, amended: the normalizer returns a Result exactly on the well
    shaped payloads: not [null], evidence falsy or an array without
    [null], no [null] in an array quick_analysis, printable items in the
    checklist that gets mapped, a printable fact-check count, label and
    confidence.  On every other payload it raises a TypeError.  A payload
    whose evidence, audit and verdict are absent and whose quick_analysis
    and checklist are no arrays is well shaped: there the defaults fill
    in. *)
Theorem normalizer_returns_on_well_shaped (p : JsValue) :
  (well_shaped p = true -> exists r, transform p = Normal r) /\
  (well_shaped p = false -> transform p = Throw TypeError) /\
  (not_null p = true ->
   property p (js "evidence") = JUndefined ->
   property p (js "audit") = JUndefined ->
   property p (js "verdict") = JUndefined ->
   isArray (property p (js "quick_analysis")) = false ->
   isArray (property p (js "checklist")) = false ->
   well_shaped p = true).
Proof.
  split; [| split].
  - apply well_shaped_returns.
  - intros H. destruct (transform p) as [r | e] eqn:Hr.
    + apply returns_well_shaped in Hr. congruence.
    + f_equal. apply (only_TypeError_transform p). exact Hr.
  - intros Hp Hev Haudit Hverdict Hqa Hcl.
    unfold well_shaped, fact_check_count, verdict_field.
    rewrite Hp, Hev, Haudit, Hverdict.
    destruct (property p (js "quick_analysis")); try discriminate;
      destruct (property p (js "checklist")); try discriminate;
      destruct (property p (js "education_checklist")); reflexivity.
Qed.

End NormalizerProperties.

(** ** Properties of the ingestor *)

Lemma split_from_nonempty (sep : jsstring) (s : jsstring) (skip : nat) :
  split_from sep skip s <> [].
Proof.
  revert skip. induction s as [| c rest IH]; intros skip; cbn [split_from]; [discriminate |].
  destruct skip as [| k]; [| apply IH].
  destruct (startsWith (c :: rest) sep); [discriminate |].
  specialize (IH 0). destruct (split_from sep 0 rest); [contradiction | simpl; discriminate].
Qed.

Lemma split_nonempty (s sep : jsstring) : split s sep <> [].
Proof. apply split_from_nonempty. Qed.

(** [split] on the blank line, two code units at a time. *)
Lemma split_blank_line_step (c d : code_unit) (rest : jsstring) :
  split (c :: d :: rest) blank_line
  = if unit_eqb c LF && unit_eqb d LF then [] :: split rest blank_line
    else push_front c (split (d :: rest) blank_line).
Proof.
  unfold split, blank_line. cbn [split_from startsWith length Nat.sub].
  rewrite andb_true_r.
  destruct (unit_eqb c LF && unit_eqb d LF); reflexivity.
Qed.

Lemma split_blank_line_one (c : code_unit) : split [c] blank_line = [[c]].
Proof.
  unfold split, blank_line. cbn [split_from startsWith].
  rewrite andb_false_r. reflexivity.
Qed.

(** A text without a blank line is the only part of its split. *)
Lemma split_blank_line_single (n : nat) :
  forall (s h : jsstring), length s <= n -> split s blank_line = [h] -> h = s.
Proof.
  induction n as [| n IH]; intros s h Hlen H.
  - destruct s; [| simpl in Hlen; lia]. injection H as <-. reflexivity.
  - destruct s as [| c [| d rest]].
    + injection H as <-. reflexivity.
    + rewrite split_blank_line_one in H. injection H as <-. reflexivity.
    + rewrite split_blank_line_step in H.
      destruct (unit_eqb c LF && unit_eqb d LF).
      * pose proof (split_nonempty rest blank_line) as Hne.
        destruct (split rest blank_line); [contradiction | discriminate].
      * destruct (split (d :: rest) blank_line) as [| h' t] eqn:Hsplit;
          [exfalso; exact (split_nonempty _ _ Hsplit) |].
        simpl in H. injection H as <- ->.
        f_equal. apply (IH (d :: rest)); [simpl in *; lia | exact Hsplit].
Qed.

(** Splitting a text that grows: the complete parts found so far stay, and
    the rest is found by splitting the last part with what came after. *)
Lemma split_blank_line_app (n : nat) :
  forall (a b : jsstring), length a <= n ->
    split (a ++ b) blank_line
    = removelast (split a blank_line)
      ++ split (last (split a blank_line) [] ++ b) blank_line.
Proof.
  induction n as [| n IH]; intros a b Hlen.
  - destruct a; [reflexivity | simpl in Hlen; lia].
  - destruct a as [| c [| d rest]].
    + reflexivity.
    + rewrite split_blank_line_one. reflexivity.
    + change ((c :: d :: rest) ++ b) with (c :: d :: (rest ++ b)).
      rewrite !split_blank_line_step.
      destruct (unit_eqb c LF && unit_eqb d LF) eqn:Hblank.
      * rewrite (IH rest b) by (simpl in *; lia).
        pose proof (split_nonempty rest blank_line) as Hne.
        destruct (split rest blank_line) as [| h t]; [contradiction |]. reflexivity.
      * change (d :: (rest ++ b)) with ((d :: rest) ++ b).
        destruct (split (d :: rest) blank_line) as [| h t] eqn:Hsplit.
        { exfalso. exact (split_nonempty _ _ Hsplit). }
        destruct t as [| h2 t].
        -- apply (split_blank_line_single (n := n)) in Hsplit; [| simpl in *; lia].
           subst h. simpl.
           change (c :: d :: rest ++ b) with (c :: d :: (rest ++ b)).
           rewrite split_blank_line_step, Hblank. reflexivity.
        -- rewrite (IH (d :: rest) b) by (simpl in *; lia).
           rewrite Hsplit. reflexivity.
Qed.

Lemma split_blank_line_grows (a b : jsstring) :
  split (a ++ b) blank_line
  = removelast (split a blank_line)
    ++ split (last (split a blank_line) [] ++ b) blank_line.
Proof. apply (split_blank_line_app (n := length a)). lia. Qed.

Lemma last_app_nonempty (A : Type) (l l' : list A) (d : A) :
  l' <> [] -> last (l ++ l') d = last l' d.
Proof.
  intros Hne. induction l as [| x l IH]; [reflexivity |].
  simpl. rewrite IH. destruct (l ++ l') eqn:Happ; [| reflexivity].
  apply app_eq_nil in Happ. destruct Happ as [_ ->]. contradiction.
Qed.

Section IngestorProperties.

Variable Parsed : Type.
Variable JSON_parse : jsstring -> option Parsed.
Variable Decoder : Type.
Variable new_TextDecoder : Decoder.
Variable decode : Decoder -> list byte -> Decoder * jsstring.
Variable World : Type.
Variable cb : Callbacks Parsed World.

Lemma calls_invoke (c : Call Parsed) (f : Callback World) (r : Run Parsed World) :
  calls (fst (invoke c f r)) = calls r ++ [c].
Proof. unfold invoke. destruct (f (world r)). reflexivity. Qed.

Lemma calls_on_parts (parts : list jsstring) (r : Run Parsed World) :
  calls (fold_left (on_part JSON_parse cb) parts r)
  = calls r ++ map (@MessageCall Parsed) (messages JSON_parse parts).
Proof.
  revert r. induction parts as [| part rest IH]; intros r;
    cbn [fold_left messages flat_map map].
  - rewrite app_nil_r. reflexivity.
  - rewrite IH. unfold on_part.
    destruct (startsWith part (js "data:")); [| reflexivity].
    destruct (JSON_parse (payload_of part)) as [parsed |]; [| reflexivity].
    rewrite calls_invoke, <- app_assoc. reflexivity.
Qed.

Lemma world_on_parts (parts : list jsstring) (r : Run Parsed World) :
  world (fold_left (on_part JSON_parse cb) parts r)
  = fold_left (fun w parsed => fst (onMessage cb parsed w))
      (messages JSON_parse parts) (world r).
Proof.
  revert r. induction parts as [| part rest IH]; intros r;
    cbn [fold_left messages flat_map]; [reflexivity |].
  rewrite IH, fold_left_app. f_equal. unfold on_part.
  destruct (startsWith part (js "data:")); [| reflexivity].
  destruct (JSON_parse (payload_of part)) as [parsed |]; [| reflexivity].
  unfold invoke. cbn [fold_left]. destruct (onMessage cb parsed (world r)). reflexivity.
Qed.

(** The loop state after some chunks, by the text decoded so far. *)
Lemma on_chunks (values : list (list byte)) :
  forall (d : Decoder) (text : jsstring) (r : Run Parsed World),
    fold_left (on_chunk JSON_parse decode cb) values
      {| decoder := d;
         buffer := last (split text blank_line) [];
         run := fold_left (on_part JSON_parse cb) (removelast (split text blank_line)) r |}
    = {| decoder := fst (received decode d values);
         buffer := last (split (text ++ snd (received decode d values)) blank_line) [];
         run := fold_left (on_part JSON_parse cb)
                  (removelast (split (text ++ snd (received decode d values)) blank_line))
                  r |}.
Proof.
  induction values as [| value rest IH]; intros d text r; cbn [fold_left received].
  - cbn [fst snd]. rewrite app_nil_r. reflexivity.
  - unfold on_chunk at 2. cbn [decoder buffer run].
    destruct (decode d value) as [d1 decoded].
    destruct (received decode d1 rest) as [d2 more] eqn:Hrest.
    cbn [fst snd]. rewrite app_assoc.
    replace d2 with (fst (received decode d1 rest)) by (rewrite Hrest; reflexivity).
    replace more with (snd (received decode d1 rest)) by (rewrite Hrest; reflexivity).
    rewrite <- IH. f_equal.
    rewrite (split_blank_line_grows text decoded).
    pose proof (split_nonempty (last (split text blank_line) [] ++ decoded) blank_line)
      as Hne.
    rewrite last_app_nonempty by exact Hne.
    rewrite removelast_app by exact Hne.
    rewrite fold_left_app. reflexivity.
Qed.

Lemma read_loop_chunks (values : list (list byte)) (rest : list Read) :
  forall st, read_loop JSON_parse decode cb (map Chunk values ++ rest) st
             = read_loop JSON_parse decode cb rest
                 (fold_left (on_chunk JSON_parse decode cb) values st).
Proof.
  induction values as [| value more IH]; intros st; simpl; [reflexivity | apply IH].
Qed.

(** The loop after the chunks read from the start: the buffer is the last
    part of the text received, the parts before it have been handled. *)
Lemma read_loop_after_chunks (values : list (list byte)) (rest : list Read)
    (d : Decoder) (r : Run Parsed World) :
  read_loop JSON_parse decode cb (map Chunk values ++ rest)
    {| decoder := d; buffer := []; run := r |}
  = read_loop JSON_parse decode cb rest
      {| decoder := fst (received decode d values);
         buffer := last (split (snd (received decode d values)) blank_line) [];
         run := fold_left (on_part JSON_parse cb)
                  (removelast (split (snd (received decode d values)) blank_line)) r |}.
Proof.
  rewrite read_loop_chunks. f_equal. exact (on_chunks values d [] r).
Qed.

Lemma received_snoc (values : list (list byte)) (value : list byte) (d : Decoder) :
  received decode d (values ++ [value])
  = (fst (decode (fst (received decode d values)) value),
     snd (received decode d values)
     ++ snd (decode (fst (received decode d values)) value)).
Proof.
  revert d. induction values as [| first more IH]; intros d; cbn [app received fst snd].
  - destruct (decode d value) as [d1 decoded]. cbn [fst snd].
    rewrite app_nil_r. reflexivity.
  - destruct (decode d first) as [d1 decoded]. rewrite IH.
    destruct (received decode d1 more) as [d2 text]. cbn [fst snd].
    destruct (decode d2 value) as [d3 last_decoded]. cbn [fst snd].
    rewrite app_assoc. reflexivity.
Qed.

(** The complete parts of a text that grows: those found so far, then
    those of the last part with what came after. *)
Lemma complete_parts_grow (text more : jsstring) :
  removelast (split (text ++ more) blank_line)
  = removelast (split text blank_line)
    ++ removelast (split (last (split text blank_line) [] ++ more) blank_line).
Proof.
  rewrite split_blank_line_grows. apply removelast_app. apply split_nonempty.
Qed.

Lemma messages_app (a b : list jsstring) :
  messages JSON_parse (a ++ b) = messages JSON_parse a ++ messages JSON_parse b.
Proof. unfold messages. apply flat_map_app. Qed.

(** The calls of the ingestor on a response that is ok and has a body:
    the messages of the complete parts of the text read, in their order,
    and after them no other message. *)
Lemma streamAnalysis_calls (res : Response) (values : list (list byte)) (rest : list Read)
    (w : World) :
  ok res = true ->
  body res = Some (map Chunk values ++ rest) ->
  rest = [] \/ (exists e more, rest = Failed e :: more) ->
  exists ending,
    calls (fst (streamAnalysis JSON_parse new_TextDecoder decode cb (Responded res) w))
    = map (@MessageCall Parsed)
        (messages JSON_parse
           (removelast (split (snd (received decode new_TextDecoder values)) blank_line)))
      ++ ending
    /\ forall parsed, ~ In (MessageCall parsed) ending.
Proof.
  intros Hok Hbody Hrest. unfold streamAnalysis, try_block.
  rewrite Hok, Hbody, read_loop_after_chunks.
  destruct Hrest as [-> | (e & more & ->)]; cbn [read_loop].
  - destruct (onComplete cb) as [f |].
    + unfold invoke at 1. cbn [run].
      destruct (f (world _)) as [w' [[] | e]].
      * exists [CompleteCall]. cbn [fst calls]. rewrite calls_on_parts.
        split; [reflexivity |]. intros parsed [Hin | []]; discriminate.
      * exists [CompleteCall; ErrorCall e]. rewrite calls_invoke. cbn [calls].
        rewrite calls_on_parts, <- app_assoc.
        split; [reflexivity |]. intros parsed [Hin | [Hin | []]]; discriminate.
    + exists []. cbn [fst run]. rewrite calls_on_parts, app_nil_r.
      split; [reflexivity |]. intros parsed [].
  - exists [ErrorCall e]. rewrite calls_invoke. cbn [run]. rewrite calls_on_parts.
    split; [reflexivity |]. intros parsed [Hin | []]; discriminate.
Qed.

(** C6: at each chunk the buffer and the text decoded from the chunk are
    split on the blank line, the last part is the next buffer and the
    parts before it are handled from the left.  Over any number of chunks
    this adds up to the split of the whole text received.  For the
    ingestor itself, on a response that is ok and has a body: after the
    chunks read, onMessage has been called on the parsed payloads of the
    complete parts of the text that start with the data marker, in their
    order in the text and one call after the other on the caller's state,
    and no message is delivered after the loop.  One more chunk leaves the
    messages of the chunks before it as they were and adds those of the
    parts completed by the buffer and the chunk's text.  When the stream
    ends, the part left in the buffer is dropped and onComplete, if given,
    is called; when a read fails, onError is. *)
Theorem frames_dispatched_in_arrival_order
    (values : list (list byte)) (rest : list Read) (d : Decoder) (r : Run Parsed World) :
  (forall st value,
     on_chunk JSON_parse decode cb st value
     = {| decoder := fst (decode (decoder st) value);
          buffer := last (split (buffer st ++ snd (decode (decoder st) value)) blank_line) [];
          run := fold_left (on_part JSON_parse cb)
                   (removelast
                      (split (buffer st ++ snd (decode (decoder st) value)) blank_line))
                   (run st) |}) /\
  read_loop JSON_parse decode cb (map Chunk values ++ rest)
    {| decoder := d; buffer := []; run := r |}
  = read_loop JSON_parse decode cb rest
      {| decoder := fst (received decode d values);
         buffer := last (split (snd (received decode d values)) blank_line) [];
         run := fold_left (on_part JSON_parse cb)
                  (removelast (split (snd (received decode d values)) blank_line)) r |} /\
  calls (fold_left (on_part JSON_parse cb)
           (removelast (split (snd (received decode d values)) blank_line)) r)
  = calls r
    ++ map (@MessageCall Parsed)
         (messages JSON_parse
            (removelast (split (snd (received decode d values)) blank_line))) /\
  world (fold_left (on_part JSON_parse cb)
           (removelast (split (snd (received decode d values)) blank_line)) r)
  = fold_left (fun w parsed => fst (onMessage cb parsed w))
      (messages JSON_parse
         (removelast (split (snd (received decode d values)) blank_line)))
      (world r) /\
  (forall res w,
     ok res = true ->
     body res = Some (map Chunk values) ->
     try_block JSON_parse new_TextDecoder decode cb (Responded res)
       {| world := w; calls := [] |}
     = match onComplete cb with
       | Some f =>
           invoke CompleteCall f
             (fold_left (on_part JSON_parse cb)
                (removelast
                   (split (snd (received decode new_TextDecoder values)) blank_line))
                {| world := w; calls := [] |})
       | None =>
           (fold_left (on_part JSON_parse cb)
              (removelast
                 (split (snd (received decode new_TextDecoder values)) blank_line))
              {| world := w; calls := [] |},
            Normal tt)
       end) /\
  (forall res w,
     ok res = true ->
     body res = Some (map Chunk values ++ rest) ->
     rest = [] \/ (exists e more, rest = Failed e :: more) ->
     exists ending,
       calls (fst (streamAnalysis JSON_parse new_TextDecoder decode cb (Responded res) w))
       = map (@MessageCall Parsed)
           (messages JSON_parse
              (removelast (split (snd (received decode new_TextDecoder values)) blank_line)))
         ++ ending
       /\ forall parsed, ~ In (MessageCall parsed) ending) /\
  (forall res w value,
     ok res = true ->
     body res = Some (map Chunk (values ++ [value]) ++ rest) ->
     rest = [] \/ (exists e more, rest = Failed e :: more) ->
     exists ending,
       calls (fst (streamAnalysis JSON_parse new_TextDecoder decode cb (Responded res) w))
       = map (@MessageCall Parsed)
           (messages JSON_parse
              (removelast (split (snd (received decode new_TextDecoder values)) blank_line)))
         ++ map (@MessageCall Parsed)
              (messages JSON_parse
                 (removelast
                    (split
                       (last (split (snd (received decode new_TextDecoder values))
                                blank_line) []
                        ++ snd (decode (fst (received decode new_TextDecoder values)) value))
                       blank_line)))
         ++ ending
       /\ forall parsed, ~ In (MessageCall parsed) ending) /\
  (forall res w,
     ok res = true ->
     body res = Some (map Chunk values) ->
     streamAnalysis JSON_parse new_TextDecoder decode cb (Responded res) w
     = match onComplete cb with
       | Some f =>
           let (done, completion) :=
             invoke CompleteCall f
               (fold_left (on_part JSON_parse cb)
                  (removelast
                     (split (snd (received decode new_TextDecoder values)) blank_line))
                  {| world := w; calls := [] |}) in
           match completion with
           | Normal _ => (done, Normal tt)
           | Throw err => invoke (ErrorCall err) (onError cb err) done
           end
       | None =>
           (fold_left (on_part JSON_parse cb)
              (removelast
                 (split (snd (received decode new_TextDecoder values)) blank_line))
              {| world := w; calls := [] |},
            Normal tt)
       end) /\
  (forall res w e more,
     ok res = true ->
     body res = Some (map Chunk values ++ Failed e :: more) ->
     streamAnalysis JSON_parse new_TextDecoder decode cb (Responded res) w
     = invoke (ErrorCall e) (onError cb e)
         (fold_left (on_part JSON_parse cb)
            (removelast (split (snd (received decode new_TextDecoder values)) blank_line))
            {| world := w; calls := [] |})).
Proof.
  split; [| split; [| split; [| split; [| split; [| split; [| split; [| split]]]]]]].
  - intros st value. unfold on_chunk. destruct (decode (decoder st) value). reflexivity.
  - apply read_loop_after_chunks.
  - apply calls_on_parts.
  - apply world_on_parts.
  - intros res w Hok Hbody. unfold try_block. rewrite Hok, Hbody.
    rewrite <- (app_nil_r (map Chunk values)), read_loop_after_chunks.
    reflexivity.
  - intros res w Hok Hbody Hrest. exact (@streamAnalysis_calls res values rest w Hok Hbody Hrest).
  - intros res w value Hok Hbody Hrest.
    destruct (@streamAnalysis_calls res (values ++ [value]) rest w Hok Hbody Hrest)
      as (ending & Hcalls & Hending).
    exists ending. split; [| exact Hending].
    rewrite Hcalls, received_snoc. cbn [snd].
    rewrite complete_parts_grow, messages_app, map_app, <- app_assoc. reflexivity.
  - intros res w Hok Hbody. unfold streamAnalysis, try_block. rewrite Hok, Hbody.
    rewrite <- (app_nil_r (map Chunk values)), read_loop_after_chunks.
    cbn [read_loop]. destruct (onComplete cb) as [f |]; reflexivity.
  - intros res w e more Hok Hbody. unfold streamAnalysis, try_block. rewrite Hok, Hbody.
    rewrite read_loop_after_chunks. reflexivity.
Qed.

(** C8: a frame whose payload does not parse changes nothing: no callback
    is called for it, neither onMessage nor onError, and among other
    parts the run goes as if the frame were not there.  (A part without
    the data marker is not parsed at all, and changes nothing either.) *)
Theorem unparsable_frame_is_ignored (part : jsstring) :
  JSON_parse (payload_of part) = None ->
  (forall r, on_part JSON_parse cb r part = r) /\
  (forall before after r,
     fold_left (on_part JSON_parse cb) (before ++ part :: after) r
     = fold_left (on_part JSON_parse cb) (before ++ after) r) /\
  messages JSON_parse [part] = [].
Proof.
  intros Hparse.
  assert (Hpart : forall r, on_part JSON_parse cb r part = r).
  { intros r. unfold on_part. rewrite Hparse.
    destruct (startsWith part (js "data:")); reflexivity. }
  split; [exact Hpart | split].
  - intros before after r. rewrite !fold_left_app. cbn [fold_left].
    rewrite Hpart. reflexivity.
  - cbn [messages flat_map]. rewrite Hparse.
    destruct (startsWith part (js "data:")); reflexivity.
Qed.

(** The ingestor when the body of the outer [try] throws. *)
Lemma streamAnalysis_catches (fetched : Fetched) (w : World) (r : Run Parsed World)
    (e : Exn) :
  try_block JSON_parse new_TextDecoder decode cb fetched {| world := w; calls := [] |}
  = (r, Throw e) ->
  streamAnalysis JSON_parse new_TextDecoder decode cb fetched w
  = invoke (ErrorCall e) (onError cb e) r.
Proof. unfold streamAnalysis. intros ->. reflexivity. Qed.

(** C7, amended: when the first response is not ok or has no body, the
    only call made is one call of onError, with the error whose message
    is the status and the body text, and the ingestor ends as that call
    ends; onComplete is not called.  A rejected fetch and a failed read
    end in the same way, one call of onError with what was thrown, after
    the messages of the chunks read.  What JSON.parse or onMessage throws
    in the loop is dropped there: a stream that ends without a failed read
    makes no call of onError.  The ingestor raises nothing of its own: when
    onError returns, the call returns; what onError itself throws is not
    caught and reaches the caller. *)
Theorem failures_are_routed_to_onError (fetched : Fetched) (w : World) :
  (forall res,
     fetched = Responded res ->
     ok res = false \/ body res = None ->
     streamAnalysis JSON_parse new_TextDecoder decode cb fetched w
     = invoke (ErrorCall (http_error res)) (onError cb (http_error res))
         {| world := w; calls := [] |}
     /\ calls (fst (streamAnalysis JSON_parse new_TextDecoder decode cb fetched w))
        = [ErrorCall (http_error res)]
     /\ snd (streamAnalysis JSON_parse new_TextDecoder decode cb fetched w)
        = snd (onError cb (http_error res) w)) /\
  (forall e,
     fetched = Rejected e ->
     streamAnalysis JSON_parse new_TextDecoder decode cb fetched w
     = invoke (ErrorCall e) (onError cb e) {| world := w; calls := [] |}) /\
  (forall res values e rest,
     fetched = Responded res ->
     ok res = true ->
     body res = Some (map Chunk values ++ Failed e :: rest) ->
     streamAnalysis JSON_parse new_TextDecoder decode cb fetched w
     = invoke (ErrorCall e) (onError cb e)
         (fold_left (on_part JSON_parse cb)
            (removelast
               (split (snd (received decode new_TextDecoder values)) blank_line))
            {| world := w; calls := [] |})) /\
  (forall res values,
     fetched = Responded res ->
     ok res = true ->
     body res = Some (map Chunk values) ->
     onComplete cb = None ->
     streamAnalysis JSON_parse new_TextDecoder decode cb fetched w
     = (fold_left (on_part JSON_parse cb)
          (removelast (split (snd (received decode new_TextDecoder values)) blank_line))
          {| world := w; calls := [] |},
        Normal tt)) /\
  ((forall err w', snd (onError cb err w') = Normal tt) ->
   snd (streamAnalysis JSON_parse new_TextDecoder decode cb fetched w) = Normal tt).
Proof.
  split; [| split; [| split; [| split]]].
  - intros res -> Hfail.
    assert (Htry : try_block JSON_parse new_TextDecoder decode cb (Responded res)
                     {| world := w; calls := [] |}
                   = ({| world := w; calls := [] |}, Throw (http_error res))).
    { unfold try_block.
      destruct Hfail as [Hok | Hbody]; [rewrite Hok; reflexivity |].
      rewrite Hbody. destruct (ok res); reflexivity. }
    rewrite (streamAnalysis_catches _ _ Htry).
    split; [reflexivity | split].
    + rewrite calls_invoke. reflexivity.
    + unfold invoke. cbn [world]. destruct (onError cb (http_error res) w). reflexivity.
  - intros e ->. apply streamAnalysis_catches. reflexivity.
  - intros res values e rest -> Hok Hbody.
    apply streamAnalysis_catches. unfold try_block. rewrite Hok, Hbody.
    rewrite read_loop_after_chunks. reflexivity.
  - intros res values -> Hok Hbody Hnone.
    unfold streamAnalysis, try_block. rewrite Hok, Hbody, Hnone.
    rewrite <- (app_nil_r (map Chunk values)), read_loop_after_chunks.
    reflexivity.
  - intros Hreturns. unfold streamAnalysis.
    destruct (try_block JSON_parse new_TextDecoder decode cb fetched
                {| world := w; calls := [] |})
      as [r [[] | e]]; [reflexivity |].
    unfold invoke. specialize (Hreturns e (world r)).
    destruct (onError cb e (world r)). exact Hreturns.
Qed.

End IngestorProperties.

(** ** The functions on the sample inputs *)

Example js_literals :
  js "data:" = [100; 97; 116; 97; 58]%N /\ js "•" = [0x2022]%N
  /\ js "🎭🔍⚡" = [0xD83C; 0xDFAD; 0xD83D; 0xDD0D; 0x26A1]%N.
Proof. repeat split; reflexivity. Qed.

Example trim_removes_white_space :
  trim ([0x20; 9] ++ js "- a b" ++ [0xA0; 13; 10])%N = js "- a b".
Proof. reflexivity. Qed.

Example split_on_line_feed :
  split (js "a" ++ [LF] ++ js "b" ++ [LF; LF] ++ js "c" ++ [LF]) [LF]
  = [js "a"; js "b"; js ""; js "c"; js ""].
Proof. reflexivity. Qed.

Example split_on_blank_line :
  split (js "a" ++ [LF; LF; LF] ++ js "b" ++ [LF; LF]) blank_line
  = [js "a"; [LF] ++ js "b"; js ""].
Proof. reflexivity. Qed.

Example ToString_of_array :
  ToString (JArr [JNum 1; JNull; JArr [JNum 2; JNum (-3)]; JStr (js "x")])
  = Normal (js "1,,2,-3,x").
Proof. reflexivity. Qed.

Example vaccine_payload_normalized :
  transformBackendResult digits_gt0 vaccine_payload = Normal vaccine_result.
Proof. vm_compute. reflexivity. Qed.

Example empty_object_explained :
  option_map simple_explanation
    (match transformBackendResult digits_gt0 (JObj []) with
     | Normal r => Some r
     | Throw _ => None
     end)
  = Some (js "This claim was rated as unknown with 0% confidence based on 0 professional fact-check sources and AI analysis.").
Proof. vm_compute. reflexivity. Qed.

Example two_frames_then_done :
  streamAnalysis parse_unsigned tt ascii_decode recording
    (Responded {| ok := true; status := 200; body_text := None;
                  body := Some (map Chunk two_frames_and_a_rest) |}) []
  = ({| world := [JNum 1; JNum 2];
        calls := [MessageCall (JNum 1); MessageCall (JNum 2); CompleteCall] |},
     Normal tt).
Proof. vm_compute. reflexivity. Qed.

Example rest_is_kept_in_the_buffer :
  buffer (fst (read_loop parse_unsigned ascii_decode recording
                 (map Chunk two_frames_and_a_rest)
                 {| decoder := tt; buffer := []; run := {| world := []; calls := [] |} |}))
  = js "extra".
Proof. vm_compute. reflexivity. Qed.

Example heartbeat_makes_no_call :
  streamAnalysis parse_unsigned tt ascii_decode recording
    (Responded {| ok := true; status := 200; body_text := None;
                  body := Some [Chunk (bytes "data: :heartbeat" ++ blank_line_bytes)] |}) []
  = ({| world := []; calls := [CompleteCall] |}, Normal tt).
Proof. vm_compute. reflexivity. Qed.

Example server_error_reported_once :
  streamAnalysis parse_unsigned tt ascii_decode recording (Responded server_error) []
  = ({| world := [];
        calls := [ErrorCall (Error (js "HTTP 500 Internal Server Error"))] |},
     Normal tt).
Proof. vm_compute. reflexivity. Qed.

Example mixed_items_normalized :
  exists r,
    transformBackendResult digits_gt0 mixed_items_payload = Normal r
    /\ quick_analysis r
       = [ {| icon := JStr (js "✅"); text := JStr (js "Checked") |};
           {| icon := JStr (js "🌍"); text := JStr (js "plain") |};
           {| icon := JStr (js "🧬"); text := JStr (js "Analysis point") |};
           {| icon := JStr (js "🔍"); text := JStr (js "Analysis point") |} ]
    /\ education_checklist r
       = [ JStr (js "Read the source");
           JStr (js "Date: is it recent");
           JStr (js "undefined: undefined") ]
    /\ factChecks (breakdown (verdict r)) = 90%Z.
Proof. eexists. split; [vm_compute; reflexivity |]. repeat split; reflexivity. Qed.

Example failed_read_reported_after_the_messages :
  streamAnalysis parse_unsigned tt ascii_decode recording
    (Responded {| ok := true; status := 200; body_text := None;
                  body := Some [ Chunk (bytes "data: 1" ++ blank_line_bytes);
                                 Failed (Thrown 7);
                                 Chunk (bytes "data: 2" ++ blank_line_bytes) ] |}) []
  = ({| world := [JNum 1];
        calls := [MessageCall (JNum 1); ErrorCall (Thrown 7)] |},
     Normal tt).
Proof. vm_compute. reflexivity. Qed.

Example rejected_fetch_reported :
  streamAnalysis parse_unsigned tt ascii_decode recording (Rejected TypeError) []
  = ({| world := []; calls := [ErrorCall TypeError] |}, Normal tt).
Proof. vm_compute. reflexivity. Qed.

Example throwing_onComplete_reported :
  streamAnalysis parse_unsigned tt ascii_decode failing_onComplete
    (Responded {| ok := true; status := 200; body_text := None; body := Some [] |}) []
  = ({| world := []; calls := [CompleteCall; ErrorCall (Thrown 1)] |}, Normal tt).
Proof. vm_compute. reflexivity. Qed.

(** ** Where the properties apply, and where the specification departs *)

(** C1: the breakdown that the payload provides is not the one returned. *)
Lemma provided_breakdown_is_replaced :
  exists r,
    transformBackendResult digits_gt0 payload_with_breakdown = Normal r
    /\ verdict_field payload_with_breakdown (js "breakdown")
       = breakdown_value provided_breakdown
    /\ breakdown (verdict r)
       = {| factChecks := 75;
            sourceCredibility := 70;
            modelConsensus := JNum 82;
            technicalFeasibility := 75;
            crossMedia := 50 |}
    /\ breakdown (verdict r) <> provided_breakdown.
Proof.
  eexists. split; [vm_compute; reflexivity |].
  split; [reflexivity |]. split; [reflexivity | discriminate].
Qed.

(** C2: an empty upstream education_checklist comes out empty. *)
Lemma empty_checklist_stays_empty :
  exists r,
    transformBackendResult digits_gt0 empty_checklist_payload = Normal r
    /\ education_checklist r = [].
Proof. eexists. split; [vm_compute; reflexivity | reflexivity]. Qed.

(** C3: the sixth line gets the default icon, not the first icon again; a
    line of white space is not counted; without any line left the three
    fallback findings come. *)
Lemma sixth_icon_is_the_default :
  (exists r,
     transformBackendResult digits_gt0 (quick_analysis_payload (JStr six_lines)) = Normal r
     /\ length (nonempty_lines six_lines) = 6
     /\ map icon (quick_analysis r)
        = map JStr [js "🎭"; js "🌍"; js "🧬"; js "🔍"; js "⚡"; js "🔍"]
     /\ map cycling_icon [0; 1; 2; 3; 4; 5]
        = map JStr [js "🎭"; js "🌍"; js "🧬"; js "🔍"; js "⚡"; js "🎭"]
     /\ map icon (quick_analysis r) <> map cycling_icon [0; 1; 2; 3; 4; 5])
  /\ (exists r,
        transformBackendResult digits_gt0 (quick_analysis_payload (JStr blank_between))
        = Normal r
        /\ length (nonempty_lines blank_between) = 3
        /\ length (quick_analysis r) = 2)
  /\ (exists r,
        transformBackendResult digits_gt0 (quick_analysis_payload (JStr [LF])) = Normal r
        /\ length (nonempty_lines [LF]) = 0
        /\ length (quick_analysis r) = 3).
Proof.
  split; [| split].
  - eexists. split; [vm_compute; reflexivity |].
    split; [reflexivity |]. split; [reflexivity |]. split; [reflexivity | discriminate].
  - eexists. split; [vm_compute; reflexivity |]. split; reflexivity.
  - eexists. split; [vm_compute; reflexivity |]. split; reflexivity.
Qed.

(** C7: what onError throws reaches the caller; what onMessage throws in
    the loop does not reach onError. *)
Lemma throwing_onError_reaches_the_caller :
  streamAnalysis parse_unsigned tt ascii_decode rethrowing (Responded server_error) []
  = ({| world := [];
        calls := [ErrorCall (Error (js "HTTP 500 Internal Server Error"))] |},
     Throw (Error (js "HTTP 500 Internal Server Error")))
  /\ streamAnalysis parse_unsigned tt ascii_decode failing_onMessage
       (Responded {| ok := true; status := 200; body_text := None;
                     body := Some [Chunk (bytes "data: 1" ++ blank_line_bytes)] |}) []
     = ({| world := [JNum 1]; calls := [MessageCall (JNum 1); CompleteCall] |},
        Normal tt).
Proof. split; vm_compute; reflexivity. Qed.

(** C9: a [null] item in quick_analysis, or evidence that is a string,
    makes the normalizer throw. *)
Lemma null_item_makes_the_normalizer_throw :
  transformBackendResult digits_gt0 (quick_analysis_payload (JArr [JNull])) = Throw TypeError
  /\ transformBackendResult digits_gt0 (JObj [ (js "evidence", JStr (js "abc")) ])
     = Throw TypeError.
Proof. split; vm_compute; reflexivity. Qed.

(** C4 on the vaccine payload: two evidence items give crossMedia 90. *)
Lemma breakdown_is_synthetic_on_vaccine :
  transformBackendResult digits_gt0 vaccine_payload = Normal vaccine_result
  /\ factChecks (breakdown (verdict vaccine_result)) = 90%Z
  /\ crossMedia (breakdown (verdict vaccine_result)) = Z.min 90 (2 * 20 + 50).
Proof.
  assert (H : transformBackendResult digits_gt0 vaccine_payload = Normal vaccine_result)
    by (vm_compute; reflexivity).
  split; [exact H |].
  destruct (breakdown_is_synthetic digits_gt0 vaccine_payload H)
    as (_ & Hfc & _ & _ & Hcm & _).
  split; [exact (Hfc 3%Z eq_refl) | exact Hcm].
Defined.

(** C10 on a verdict with confidence 0. *)
Lemma zero_confidence_is_defaulted_on_sample :
  exists r,
    transformBackendResult digits_gt0 zero_confidence_payload = Normal r
    /\ confidence (verdict r) = JNum 50
    /\ modelConsensus (breakdown (verdict r)) = JNum 50.
Proof.
  eexists. split; [vm_compute; reflexivity |].
  exact (proj1 (zero_confidence_is_defaulted digits_gt0 zero_confidence_payload eq_refl)
           eq_refl).
Defined.

(** C5 on the vaccine payload, which has no quick_analysis. *)
Lemma missing_quick_analysis_on_vaccine :
  transformBackendResult digits_gt0 vaccine_payload = Normal vaccine_result
  /\ property vaccine_payload (js "quick_analysis") = JUndefined
  /\ length (quick_analysis vaccine_result) = 3.
Proof.
  assert (H : transformBackendResult digits_gt0 vaccine_payload = Normal vaccine_result)
    by (vm_compute; reflexivity).
  split; [exact H |]. split; [reflexivity |].
  destruct (missing_quick_analysis_gets_fallback digits_gt0 vaccine_payload H eq_refl)
    as (found & _ & _ & _ & _ & _ & Hlength & _).
  exact Hlength.
Defined.

(** C2, amended, on the vaccine payload. *)
Lemma quick_analysis_never_empty_on_vaccine :
  transformBackendResult digits_gt0 vaccine_payload = Normal vaccine_result
  /\ quick_analysis vaccine_result <> [].
Proof.
  assert (H : transformBackendResult digits_gt0 vaccine_payload = Normal vaccine_result)
    by (vm_compute; reflexivity).
  split; [exact H |].
  exact (proj1 (quick_analysis_never_empty digits_gt0 vaccine_payload H)).
Defined.

(** C3, amended, on the six lines. *)
Lemma string_quick_analysis_on_six_lines :
  exists r,
    transformBackendResult digits_gt0 (quick_analysis_payload (JStr six_lines)) = Normal r
    /\ kept_lines six_lines <> []
    /\ length (quick_analysis r) = length (kept_lines six_lines).
Proof.
  eexists. split; [vm_compute; reflexivity |].
  assert (Hlines : kept_lines six_lines <> []) by (vm_compute; discriminate).
  split; [exact Hlines |].
  exact (proj1 (proj2 (string_quick_analysis_entries digits_gt0
                         (quick_analysis_payload (JStr six_lines)) eq_refl eq_refl Hlines))).
Defined.

(** C8 on the heartbeat. *)
Lemma heartbeat_is_ignored :
  startsWith heartbeat (js "data:") = true
  /\ parse_unsigned (payload_of heartbeat) = None
  /\ on_part parse_unsigned recording {| world := []; calls := [] |} heartbeat
     = {| world := []; calls := [] |}.
Proof.
  split; [reflexivity |]. split; [reflexivity |].
  exact (proj1 (unparsable_frame_is_ignored parse_unsigned recording heartbeat eq_refl)
           {| world := []; calls := [] |}).
Defined.

(** C1, amended, on the payload with a breakdown: without it the outcome is
    the same. *)
Lemma provided_breakdown_is_ignored_on_sample :
  transformBackendResult digits_gt0 (with_verdict_breakdown payload_with_breakdown JUndefined)
  = transformBackendResult digits_gt0 payload_with_breakdown.
Proof.
  exact (proj1 (provided_breakdown_is_ignored digits_gt0 payload_with_breakdown JUndefined)).
Defined.

(** C6 on the two frames and a rest: the ingestor delivers the two
    messages in their order, then completes. *)
Lemma two_frames_in_arrival_order :
  calls (fst (streamAnalysis parse_unsigned tt ascii_decode recording
                (Responded {| ok := true; status := 200; body_text := None;
                              body := Some (map Chunk two_frames_and_a_rest) |}) []))
  = [MessageCall (JNum 1); MessageCall (JNum 2); CompleteCall]
  /\ world (fst (streamAnalysis parse_unsigned tt ascii_decode recording
                   (Responded {| ok := true; status := 200; body_text := None;
                                 body := Some (map Chunk two_frames_and_a_rest) |}) []))
     = [JNum 1; JNum 2].
Proof.
  destruct (frames_dispatched_in_arrival_order parse_unsigned tt ascii_decode recording
              two_frames_and_a_rest [] tt {| world := []; calls := [] |})
    as (_ & _ & _ & _ & _ & _ & _ & Hdone & _).
  rewrite (Hdone {| ok := true; status := 200; body_text := None;
                    body := Some (map Chunk two_frames_and_a_rest) |} [] eq_refl eq_refl).
  split; vm_compute; reflexivity.
Defined.

(** C7, amended, on the response with status 500. *)
Lemma server_error_is_routed_to_onError :
  ok server_error = false
  /\ calls (fst (streamAnalysis parse_unsigned tt ascii_decode recording
                  (Responded server_error) []))
     = [ErrorCall (http_error server_error)].
Proof.
  split; [reflexivity |].
  destruct (failures_are_routed_to_onError parse_unsigned tt ascii_decode recording
              (Responded server_error) []) as (Hfailed & _).
  destruct (Hfailed server_error eq_refl (or_introl eq_refl)) as (_ & Hcalls & _).
  exact Hcalls.
Defined.

(** C9, amended, on the vaccine payload. *)
Lemma normalizer_returns_on_vaccine :
  well_shaped vaccine_payload = true
  /\ exists r, transformBackendResult digits_gt0 vaccine_payload = Normal r.
Proof.
  split; [reflexivity |].
  exact (proj1 (normalizer_returns_on_well_shaped digits_gt0 vaccine_payload) eq_refl).
Defined.

(** ** More of the normalizer: what a Result always holds *)

Lemma or_else_truthy (a b : JsValue) : ToBoolean b = true -> ToBoolean (a ||| b) = true.
Proof. intros Hb. unfold or_else. destruct (ToBoolean a) eqn:Ha; assumption. Qed.

Lemma or_else_kept (a b : JsValue) : ToBoolean a = true -> a ||| b = a.
Proof. intros Ha. unfold or_else. rewrite Ha. reflexivity. Qed.

Lemma or_else_default (a b : JsValue) : ToBoolean a = false -> a ||| b = b.
Proof. intros Ha. unfold or_else. rewrite Ha. reflexivity. Qed.

(** What [map] returns, item by item. *)
Lemma Array_map_from_nth_error (A B : Type) (f : A -> nat -> Completion B)
    (items : list A) (index : nat) (out : list B) (n : nat) (item : A) :
  Array_map_from f index items = Normal out ->
  nth_error items n = Some item ->
  exists b, f item (index + n) = Normal b /\ nth_error out n = Some b.
Proof.
  revert index out n.
  induction items as [| x rest IH]; intros index out n H Hn.
  - destruct n; discriminate.
  - cbn [Array_map_from] in H. unbind H. rename a into b. unbind H. injection H as <-.
    destruct n as [| n]; cbn [nth_error] in *.
    + injection Hn as ->. exists b. rewrite Nat.add_0_r. split; [assumption | reflexivity].
    + rewrite Nat.add_succ_r. exact (IH (S index) a n Step0 Hn).
Qed.

Lemma Array_map_from_Forall (A B : Type) (f : A -> nat -> Completion B) (P : B -> Prop)
    (items : list A) (index : nat) (out : list B) :
  (forall item i b, f item i = Normal b -> P b) ->
  Array_map_from f index items = Normal out -> Forall P out.
Proof.
  intros Hf. revert index out.
  induction items as [| x rest IH]; intros index out H; cbn [Array_map_from] in H.
  - injection H as <-. constructor.
  - unbind H. rename a into b. unbind H. injection H as <-.
    constructor; [exact (Hf _ _ _ Step) | exact (IH _ _ Step0)].
Qed.

Lemma Forall_map_indexed_from (A B : Type) (f : A -> nat -> B) (P : B -> Prop)
    (items : list A) (index : nat) :
  (forall item i, P (f item i)) -> Forall P (map_indexed_from f index items).
Proof.
  intros Hf. revert index.
  induction items as [| x rest IH]; intros index; cbn [map_indexed_from]; constructor; auto.
Qed.

Lemma icon_at_truthy (index : nat) : ToBoolean (icon_at index) = true.
Proof.
  do 5 (destruct index as [| index]; [reflexivity |]).
  destruct index; reflexivity.
Qed.

Lemma evidence_entry_Normal (item : JsValue) (e : EvidenceItem) :
  evidence_entry item = Normal e ->
  e = {| title := property item (js "source") ||| property item (js "title")
                  ||| JStr (js "Professional Source");
         url := property item (js "url") ||| JStr (js "#");
         note := property item (js "snippet") ||| property item (js "note")
                 ||| JStr (js "Evidence snippet") |}.
Proof.
  unfold evidence_entry, Get. destruct (is_nullish item); [discriminate |].
  cbn [bind]. intros [= <-]. reflexivity.
Qed.

Lemma checklist_entry_Normal (item out : JsValue) :
  checklist_entry item = Normal out ->
  is_string out = true /\
  (is_string item = true -> out = item) /\
  (is_string item = false ->
   exists point_text explanation_text,
     ToString (property item (js "point")) = Normal point_text /\
     ToString (property item (js "explanation")) = Normal explanation_text /\
     out = JStr (point_text ++ js ": " ++ explanation_text)).
Proof.
  unfold checklist_entry, Get. destruct (is_string item) eqn:Hitem.
  - intros [= <-]. repeat split; [assumption | discriminate].
  - destruct (is_nullish item); [discriminate |]. cbn [bind]. intros H.
    unbind H. rename a into point_text. unbind H. rename a into explanation_text.
    injection H as <-. repeat split; [discriminate |].
    intros _. exists point_text, explanation_text. repeat split; assumption.
Qed.

Section NormalizerInvariants.

Variable StringToNumber_gt0 : jsstring -> bool.
Local Abbreviation transform := (transformBackendResult StringToNumber_gt0).

(** The fields of a Result that are copied or defaulted from the top of
    the payload. *)
Lemma transform_Normal_top (p : JsValue) (r : Result) :
  transform p = Normal r ->
  id r = property p (js "id") ||| JStr (js "live-analysis") /\
  input r = property p (js "input") ||| JStr (js "Analysis input") /\
  domain r = property p (js "domain") ||| JStr (js "General") /\
  language r = js "en".
Proof.
  unfold transformBackendResult. intros H.
  do 10 unbind H. injection H as <-. repeat split.
Qed.

(** X1: the evidence of a Result follows the evidence array of the
    payload, item by item and in its order: as many entries as items (none
    when the payload has no evidence), the entry at an index built from the
    item at that index, with title = source, else title, else the default
    title, url = url or the default, note = snippet, else note, else the default
    note.  No entry has an empty or missing title, url or note. *)
Theorem evidence_follows_the_payload (p : JsValue) (r : Result) :
  transform p = Normal r ->
  Z.of_nat (length (evidence r)) = evidence_count p /\
  (forall items index item,
     property p (js "evidence") = JArr items ->
     nth_error items index = Some item ->
     nth_error (evidence r) index
     = Some {| title := property item (js "source") ||| property item (js "title")
                        ||| JStr (js "Professional Source");
               url := property item (js "url") ||| JStr (js "#");
               note := property item (js "snippet") ||| property item (js "note")
                       ||| JStr (js "Evidence snippet") |}) /\
  Forall (fun e => ToBoolean (title e) = true
                   /\ ToBoolean (url e) = true
                   /\ ToBoolean (note e) = true)
    (evidence r).
Proof.
  intros H. apply transform_Normal in H.
  destruct H as (_ & items & found_array & quick & checklist & any & entries
                 & rated & percent & found & Hitems & _ & _ & _ & _ & Hentries & _ & _
                 & _ & _ & _ & He & _).
  rewrite He. unfold Array_map in Hentries. split; [| split].
  - rewrite (Array_map_from_length _ _ _ Hentries). exact (evidence_items_count _ Hitems).
  - intros items' index item Hev Hitem. rewrite Hev in Hitems.
    injection Hitems as <-.
    destruct (Array_map_from_nth_error _ _ _ _ Hentries Hitem) as (e & Hentry & Hnth).
    rewrite Hnth. apply evidence_entry_Normal in Hentry. rewrite Hentry. reflexivity.
  - eapply Array_map_from_Forall; [| exact Hentries].
    intros item i e Hentry. apply evidence_entry_Normal in Hentry. subst e.
    cbn [title url note]. repeat split; apply or_else_truthy; reflexivity.
Qed.

(** X2: the id, the input, the domain, the verdict's label and its
    confidence of a Result are never missing or empty: a truthy value of the
    payload is kept as it is, and anything falsy (absent, null, false, 0, the
    empty string) gives way to the default ("live-analysis", "Analysis input",
    "General", the caution label, 50).  modelConsensus is the confidence, and
    the language is "en" whatever the payload says. *)
Theorem identifying_fields_are_never_empty (p : JsValue) (r : Result) :
  transform p = Normal r ->
  (ToBoolean (id r) = true /\ ToBoolean (input r) = true /\ ToBoolean (domain r) = true
   /\ ToBoolean (label (verdict r)) = true /\ ToBoolean (confidence (verdict r)) = true) /\
  (ToBoolean (property p (js "id")) = true -> id r = property p (js "id")) /\
  (ToBoolean (property p (js "input")) = true -> input r = property p (js "input")) /\
  (ToBoolean (property p (js "domain")) = true -> domain r = property p (js "domain")) /\
  (ToBoolean (verdict_field p (js "label")) = true ->
   label (verdict r) = verdict_field p (js "label")) /\
  (ToBoolean (verdict_field p (js "confidence")) = true ->
   confidence (verdict r) = verdict_field p (js "confidence")) /\
  (ToBoolean (property p (js "id")) = false -> id r = JStr (js "live-analysis")) /\
  (ToBoolean (property p (js "input")) = false -> input r = JStr (js "Analysis input")) /\
  (ToBoolean (property p (js "domain")) = false -> domain r = JStr (js "General")) /\
  (ToBoolean (verdict_field p (js "label")) = false ->
   label (verdict r) = JStr (js "⚠️ Caution")) /\
  (ToBoolean (verdict_field p (js "confidence")) = false ->
   confidence (verdict r) = JNum 50) /\
  modelConsensus (breakdown (verdict r)) = confidence (verdict r) /\
  language r = js "en".
Proof.
  intros H. destruct (transform_Normal_top _ H) as (Hid & Hinput & Hdomain & Hlanguage).
  apply transform_Normal in H.
  destruct H as (_ & items & found_array & quick & checklist & any & entries
                 & rated & percent & found & _ & _ & _ & _ & _ & _ & _ & _
                 & _ & Hverdict & _).
  rewrite Hid, Hinput, Hdomain, Hverdict, Hlanguage.
  cbn [label confidence verdict breakdown modelConsensus].
  split; [repeat split; apply or_else_truthy; reflexivity |].
  repeat split; try apply or_else_kept; apply or_else_default.
Qed.

Lemma quick_analysis_of_array_Normal (items : list JsValue) (out : list QuickItem)
    (index : nat) (item : JsValue) :
  quick_analysis_of_array items = Normal out ->
  nth_error items index = Some item ->
  nth_error out index
  = Some {| icon := property item (js "icon") ||| icon_at index;
            text := property item (js "text")
                    ||| (if is_string item then item else JStr (js "Analysis point")) |}.
Proof.
  unfold quick_analysis_of_array, Array_map. intros H Hitem.
  destruct (Array_map_from_nth_error _ _ _ _ H Hitem) as (q & Hq & Hnth).
  rewrite Hnth. unfold Get in Hq. destruct (is_nullish item); [discriminate |].
  cbn [bind] in Hq. injection Hq as <-. reflexivity.
Qed.

(** X3: every finding of a Result has an icon, whichever way the findings
    were made: from the lines of a string, from the items of an array (an
    item without an icon gets the icon of its index), or by the fallback.
    (The text of a finding can be empty: a line that is only a bullet, or an
    empty string among the items.) *)
Theorem every_finding_has_an_icon (p : JsValue) (r : Result) :
  transform p = Normal r ->
  Forall (fun finding => ToBoolean (icon finding) = true) (quick_analysis r).
Proof.
  intros H. apply transform_Normal in H.
  destruct H as (_ & items & found_array & quick & checklist & any & entries
                 & rated & percent & found & _ & Harray & Hquick & _ & _ & _ & _ & _
                 & _ & _ & Hq & _).
  rewrite Hq. destruct found_array as [| first more].
  - unfold fallback_findings in Hquick. unbind Hquick. injection Hquick as <-.
    repeat constructor.
  - injection Hquick as <-. unfold quickAnalysisArray in Harray.
    destruct (ToBoolean (property p (js "quick_analysis"))); [| discriminate].
    destruct (property p (js "quick_analysis")) as [| | b | n | s | l | o];
      try discriminate.
    + injection Harray as Harray. rewrite <- Harray.
      apply Forall_map_indexed_from. intros line i. apply icon_at_truthy.
    + unfold quick_analysis_of_array, Array_map in Harray.
      eapply Array_map_from_Forall; [| exact Harray].
      intros item i finding Hfinding. unfold Get in Hfinding.
      destruct (is_nullish item); [discriminate |]. cbn [bind] in Hfinding.
      injection Hfinding as <-. cbn [icon]. apply or_else_truthy, icon_at_truthy.
Qed.

(** X4: for a quick_analysis that is an array of N >= 1 items, the Result
    has exactly N findings, in the order of the items; the icon of a finding
    is the item's icon, or else the icon of its index among the five (the
    default icon from index 5 on); its text is the item's text, or else the
    item itself when it is a string, or else "Analysis point". *)
Theorem array_quick_analysis_entries (p : JsValue) (items : list JsValue) (r : Result) :
  transform p = Normal r ->
  property p (js "quick_analysis") = JArr items ->
  items <> [] ->
  length (quick_analysis r) = length items /\
  (forall index item,
     nth_error items index = Some item ->
     nth_error (quick_analysis r) index
     = Some {| icon := property item (js "icon")
                       ||| JStr (if index <? 5 then nth index icons [] else js "🔍");
               text := property item (js "text")
                       ||| (if is_string item then item else JStr (js "Analysis point")) |}).
Proof.
  intros H Hqa Hitems. apply transform_Normal in H.
  destruct H as (_ & items' & found_array & quick & checklist & any & entries
                 & rated & percent & found & _ & Harray & Hquick & _ & _ & _ & _ & _
                 & _ & _ & Hq & _).
  rewrite Hqa in Harray. unfold quickAnalysisArray in Harray. cbn [ToBoolean] in Harray.
  assert (Hlen : length found_array = length items).
  { unfold quick_analysis_of_array, Array_map in Harray.
    exact (Array_map_from_length _ _ _ Harray). }
  destruct found_array as [| first more].
  { destruct items; [contradiction | discriminate]. }
  injection Hquick as <-. rewrite Hq. split; [exact Hlen |].
  intros index item Hitem.
  rewrite (quick_analysis_of_array_Normal _ _ Harray Hitem), icon_at_index. reflexivity.
Qed.

(** X5: an education_checklist that is an array is the Result's checklist
    as it stands, whatever its items are.  Otherwise every entry of the
    Result's checklist is a string, and with a checklist array in the payload
    there is one entry per item, in order: a string item as it is, any other
    item as its point, a colon and a space, and its explanation. *)
Theorem checklist_entries (p : JsValue) (r : Result) :
  transform p = Normal r ->
  (forall items, property p (js "education_checklist") = JArr items ->
                 education_checklist r = items) /\
  (isArray (property p (js "education_checklist")) = false ->
   Forall (fun entry => is_string entry = true) (education_checklist r)) /\
  (isArray (property p (js "education_checklist")) = false ->
   forall items, property p (js "checklist") = JArr items ->
     length (education_checklist r) = length items /\
     forall index item, nth_error items index = Some item ->
       exists entry,
         nth_error (education_checklist r) index = Some entry /\
         (is_string item = true -> entry = item) /\
         (is_string item = false ->
          exists point_text explanation_text,
            ToString (property item (js "point")) = Normal point_text /\
            ToString (property item (js "explanation")) = Normal explanation_text /\
            entry = JStr (point_text ++ js ": " ++ explanation_text))).
Proof.
  intros H. apply transform_Normal in H.
  destruct H as (_ & items' & found_array & quick & checklist & any & entries
                 & rated & percent & found & _ & _ & _ & Hchecklist & _ & _ & _ & _
                 & _ & _ & _ & _ & Hc & _).
  rewrite Hc. unfold educationChecklistArray in Hchecklist. split; [| split].
  - intros items Hec. rewrite Hec in Hchecklist. injection Hchecklist as <-. reflexivity.
  - intros Hec.
    assert (Hfallback : Forall (fun entry => is_string entry = true) fallback_checklist)
      by (repeat constructor).
    destruct (property p (js "education_checklist")); try discriminate;
      destruct (property p (js "checklist"));
      try (injection Hchecklist as <-; exact Hfallback);
      (eapply Array_map_from_Forall; [| exact Hchecklist]);
      intros item i entry Hentry; exact (proj1 (checklist_entry_Normal _ Hentry)).
  - intros Hec items Hcl. rewrite Hcl in Hchecklist.
    assert (Hmap : Array_map_from (fun item (_ : nat) => checklist_entry item) 0 items
                   = Normal checklist).
    { destruct (property p (js "education_checklist")); try discriminate;
        exact Hchecklist. }
    split; [exact (Array_map_from_length _ _ _ Hmap) |].
    intros index item Hitem.
    destruct (Array_map_from_nth_error _ _ _ _ Hmap Hitem) as (entry & Hentry & Hnth).
    exists entry. split; [exact Hnth |].
    exact (proj2 (checklist_entry_Normal _ Hentry)).
Qed.

End NormalizerInvariants.

(** ** The findings as the Results page prints them, read back *)

Lemma split_LF_line (t rest : jsstring) :
  ~ In LF t -> split (t ++ LF :: rest) [LF] = t :: split rest [LF].
Proof.
  induction t as [| c t IH]; intros Hfree.
  - reflexivity.
  - assert (Hc : unit_eqb c LF = false).
    { apply N.eqb_neq. intros ->. apply Hfree. left; reflexivity. }
    change (split ((c :: t) ++ LF :: rest) [LF])
      with (if unit_eqb c LF && true then [] :: split (t ++ LF :: rest) [LF]
            else push_front c (split (t ++ LF :: rest) [LF])).
    rewrite Hc, IH by (intros Hin; apply Hfree; right; exact Hin). reflexivity.
Qed.

Lemma split_LF_last (t : jsstring) : ~ In LF t -> split t [LF] = [t].
Proof.
  induction t as [| c t IH]; intros Hfree.
  - reflexivity.
  - assert (Hc : unit_eqb c LF = false).
    { apply N.eqb_neq. intros ->. apply Hfree. left; reflexivity. }
    change (split (c :: t) [LF])
      with (if unit_eqb c LF && true then [] :: split t [LF]
            else push_front c (split t [LF])).
    rewrite Hc, IH by (intros Hin; apply Hfree; right; exact Hin). reflexivity.
Qed.

(** [split] undoes [join] on lines without a line feed. *)
Lemma split_LF_join (lines : list jsstring) :
  lines <> [] ->
  Forall (fun line => ~ In LF line) lines ->
  split (Array_join [LF] lines) [LF] = lines.
Proof.
  induction lines as [| line rest IH]; intros Hne Hfree; [contradiction |].
  inversion Hfree as [| ? ? Hline Hrest]; subst.
  destruct rest as [| next rest].
  - apply split_LF_last. exact Hline.
  - change (Array_join [LF] (line :: next :: rest))
      with (line ++ LF :: Array_join [LF] (next :: rest)).
    rewrite split_LF_line by exact Hline.
    rewrite IH; [reflexivity | discriminate | exact Hrest].
Qed.

Lemma trimStart_snoc (s : jsstring) (c : code_unit) :
  is_whitespace c = false -> trimStart (s ++ [c]) <> [].
Proof.
  intros Hc. induction s as [| a s IH]; cbn [app trimStart].
  - rewrite Hc. discriminate.
  - destruct (is_whitespace a); [exact IH | discriminate].
Qed.

(** A text that starts with a code unit that is no white space does not
    trim to the empty string. *)
Lemma trim_keeps_text (c : code_unit) (s : jsstring) :
  is_whitespace c = false -> trim (c :: s) <> [].
Proof.
  intros Hc. unfold trim, trimEnd. cbn [trimStart]. rewrite Hc.
  cbn [rev]. intros H.
  apply (f_equal (@rev code_unit)) in H. rewrite rev_involutive in H.
  exact (@trimStart_snoc (rev s) c Hc H).
Qed.

Lemma map_text_map_indexed_from (A : Type) (f : A -> nat -> QuickItem) (g : A -> JsValue)
    (items : list A) (index : nat) :
  (forall item i, text (f item i) = g item) ->
  map text (map_indexed_from f index items) = map g items.
Proof.
  intros Hf. revert index.
  induction items as [| item rest IH]; intros index; cbn [map_indexed_from map];
    [reflexivity | rewrite Hf, IH; reflexivity].
Qed.

(** The lines kept of the bulleted text: every one of them. *)
Lemma kept_lines_bulleted (texts : list jsstring) :
  texts <> [] ->
  Forall (fun t => ~ In LF t) texts ->
  kept_lines (bulleted texts) = map (fun t => js "- " ++ t) texts.
Proof.
  intros Hne Hfree. unfold kept_lines, bulleted.
  rewrite split_LF_join.
  - apply forallb_filter_id. apply forallb_forall. intros line Hline.
    apply in_map_iff in Hline. destruct Hline as (t & <- & _).
    change (js "- " ++ t) with (45 :: 32 :: t)%N.
    pose proof (@trim_keeps_text 45%N (32%N :: t) eq_refl) as Hkept.
    destruct (trim (45 :: 32 :: t)%N) eqn:Htrim; [exfalso; exact (Hkept Htrim) | reflexivity].
  - destruct texts; [contradiction | discriminate].
  - apply Forall_forall. intros line Hline.
    apply in_map_iff in Hline. destruct Hline as (t & <- & Ht).
    rewrite Forall_forall in Hfree. specialize (Hfree t Ht).
    change (js "- " ++ t) with (45 :: 32 :: t)%N.
    intros [Hin | [Hin | Hin]]; [discriminate | discriminate | exact (Hfree Hin)].
Qed.

Section ReadBack.

Variable StringToNumber_gt0 : jsstring -> bool.
Local Abbreviation transform := (transformBackendResult StringToNumber_gt0).

(** X6: the Results page prints the findings as one line each, a hyphen,
    a space and the text, joined by line feeds.  A payload whose
    quick_analysis is that string is normalized to as many findings, in the
    same order, each with the text it was printed from, trimmed; texts that
    have no white space at either end come back as they were.  (The texts
    hold no line feed, and there is at least one.) *)
Theorem printed_findings_are_read_back (p : JsValue) (texts : list jsstring) (r : Result) :
  transform p = Normal r ->
  property p (js "quick_analysis") = JStr (bulleted texts) ->
  texts <> [] ->
  Forall (fun t => ~ In LF t) texts ->
  length (quick_analysis r) = length texts /\
  map text (quick_analysis r) = map (fun t => JStr (trim t)) texts /\
  (Forall (fun t => trim t = t) texts -> map text (quick_analysis r) = map JStr texts).
Proof.
  intros H Hqa Hne Hfree. apply transform_Normal in H.
  destruct H as (_ & items & found_array & quick & checklist & any & entries
                 & rated & percent & found & _ & Harray & Hquick & _ & _ & _ & _ & _
                 & _ & _ & Hq & _).
  rewrite Hqa in Harray. unfold quickAnalysisArray in Harray.
  pose proof (kept_lines_bulleted Hne Hfree) as Hkept.
  assert (Htruthy : ToBoolean (JStr (bulleted texts)) = true).
  { destruct (bulleted texts) eqn:Hb; [| reflexivity].
    change (kept_lines []) with (@nil jsstring) in Hkept.
    destruct texts; [contradiction | discriminate]. }
  rewrite Htruthy in Harray. injection Harray as <-.
  unfold quick_analysis_of_string in Hquick. rewrite Hkept in Hquick.
  assert (Hfound : quick
                   = map_indexed_from
                       (fun line index =>
                          {| icon := icon_at index; text := JStr (trim (strip_bullet line)) |})
                       0 (map (fun t => js "- " ++ t) texts)).
  { destruct texts as [| t more]; [contradiction |].
    cbn [map map_indexed_from] in Hquick |- *. injection Hquick as <-. reflexivity. }
  rewrite Hq, Hfound.
  assert (Htexts : map text
                     (map_indexed_from
                        (fun line index =>
                           {| icon := icon_at index;
                              text := JStr (trim (strip_bullet line)) |})
                        0 (map (fun t => js "- " ++ t) texts))
                   = map (fun t => JStr (trim t)) texts).
  { rewrite (map_text_map_indexed_from _ (fun line => JStr (trim (strip_bullet line))))
      by reflexivity.
    rewrite map_map. apply map_ext. intros t.
    change (js "- " ++ t) with (45 :: 32 :: t)%N.
    change (strip_bullet (45 :: 32 :: t)%N) with (trimStart t).
    unfold trim. rewrite trimStart_idempotent. reflexivity. }
  split; [rewrite length_map_indexed_from, length_map; reflexivity |].
  split; [exact Htexts |].
  intros Htrimmed. rewrite Htexts. apply map_ext_in. intros t Ht.
  rewrite Forall_forall in Htrimmed. rewrite (Htrimmed t Ht). reflexivity.
Qed.

End ReadBack.

(** ** More of the ingestor: the calls of a whole run *)

(** The reads of a body: chunks, then the end of the stream or a failed
    read. *)
Lemma reads_chunks_then_end (reads : list Read) :
  exists values rest,
    reads = map Chunk values ++ rest
    /\ (rest = [] \/ exists e more, rest = Failed e :: more).
Proof.
  induction reads as [| read reads (values & rest & -> & Hrest)].
  - exists [], []. split; [reflexivity | left; reflexivity].
  - destruct read as [value | e].
    + exists (value :: values), rest. split; [reflexivity | exact Hrest].
    + exists [], (Failed e :: map Chunk values ++ rest).
      split; [reflexivity | right; eexists; eexists; reflexivity].
Qed.

Lemma app_one_more (A : Type) (l : list A) (x : A) : l ++ [x] <> l.
Proof.
  intros H. apply (f_equal (@length A)) in H. rewrite length_app in H. simpl in H. lia.
Qed.

Section IngestorRuns.

Variable Parsed : Type.
Variable JSON_parse : jsstring -> option Parsed.
Variable Decoder : Type.
Variable new_TextDecoder : Decoder.
Variable decode : Decoder -> list byte -> Decoder * jsstring.
Variable World : Type.
Variable cb : Callbacks Parsed World.

(** The run when the chunks are read, before what ends the loop. *)
Local Abbreviation after_chunks values w :=
  (fold_left (on_part JSON_parse cb)
     (removelast (split (snd (received decode new_TextDecoder values)) blank_line))
     {| world := w; calls := [] |}).

Lemma calls_after_chunks (values : list (list byte)) (w : World) :
  calls (after_chunks values w)
  = map (@MessageCall Parsed)
      (messages JSON_parse
         (removelast (split (snd (received decode new_TextDecoder values)) blank_line))).
Proof. rewrite calls_on_parts. reflexivity. Qed.

(** The body of the outer [try] on a response that is ok and has a body. *)
Lemma try_block_streaming (res : Response) (values : list (list byte)) (rest : list Read)
    (w : World) :
  ok res = true ->
  body res = Some (map Chunk values ++ rest) ->
  (rest = [] ->
   try_block JSON_parse new_TextDecoder decode cb (Responded res) {| world := w; calls := [] |}
   = match onComplete cb with
     | Some f => invoke CompleteCall f (after_chunks values w)
     | None => (after_chunks values w, Normal tt)
     end) /\
  (forall e more, rest = Failed e :: more ->
   try_block JSON_parse new_TextDecoder decode cb (Responded res) {| world := w; calls := [] |}
   = (after_chunks values w, Throw e)).
Proof.
  intros Hok Hbody. unfold try_block. rewrite Hok, Hbody, read_loop_after_chunks.
  split; [intros -> | intros e more ->]; reflexivity.
Qed.

(** The four ways a call log can end. *)
Lemma calls_of_streamAnalysis (fetched : Fetched) (w : World) :
  exists delivered ending,
    calls (fst (streamAnalysis JSON_parse new_TextDecoder decode cb fetched w))
    = map (@MessageCall Parsed) delivered ++ ending
    /\ ((ending = [] /\ onComplete cb = None)
        \/ (ending = [CompleteCall] /\ onComplete cb <> None)
        \/ (exists e, ending = [ErrorCall e])
        \/ (exists e, ending = [CompleteCall; ErrorCall e] /\ onComplete cb <> None))
    /\ (In CompleteCall ending ->
        exists res values,
          fetched = Responded res /\ ok res = true /\ body res = Some (map Chunk values)).
Proof.
  assert (Hfailed : forall r e,
            try_block JSON_parse new_TextDecoder decode cb fetched
              {| world := w; calls := [] |} = (r, Throw e) ->
            calls (fst (streamAnalysis JSON_parse new_TextDecoder decode cb fetched w))
            = calls r ++ [ErrorCall e]).
  { intros r e Htry. rewrite streamAnalysis_catches with (r := r) (e := e) by exact Htry.
    apply calls_invoke. }
  destruct fetched as [e | res].
  { exists [], [ErrorCall e]. split; [exact (Hfailed _ e eq_refl) |].
    split; [right; right; left; exists e; reflexivity |].
    intros [Hin | []]; discriminate. }
  assert (Hrefused : ok res = false \/ body res = None ->
            exists delivered ending,
              calls (fst (streamAnalysis JSON_parse new_TextDecoder decode cb
                            (Responded res) w))
              = map (@MessageCall Parsed) delivered ++ ending
              /\ ((ending = [] /\ onComplete cb = None)
                  \/ (ending = [CompleteCall] /\ onComplete cb <> None)
                  \/ (exists e, ending = [ErrorCall e])
                  \/ (exists e, ending = [CompleteCall; ErrorCall e]
                                 /\ onComplete cb <> None))
              /\ (In CompleteCall ending ->
                  exists res' values,
                    Responded res = Responded res' /\ ok res' = true
                    /\ body res' = Some (map Chunk values))).
  { intros Hrefused. exists [], [ErrorCall (http_error res)].
    split.
    - apply (Hfailed {| world := w; calls := [] |}). unfold try_block.
      destruct Hrefused as [Hok | Hbody]; [rewrite Hok; reflexivity |].
      rewrite Hbody. destruct (ok res); reflexivity.
    - split; [right; right; left; eexists; reflexivity |].
      intros [Hin | []]; discriminate. }
  destruct (ok res) eqn:Hok; [| apply Hrefused; left; reflexivity].
  destruct (body res) as [reads |] eqn:Hbody; [| apply Hrefused; right; reflexivity].
  clear Hrefused.
  destruct (reads_chunks_then_end reads) as (values & rest & -> & Hrest).
  destruct (try_block_streaming res values rest w Hok Hbody) as (Hdone & Hbroken).
  exists (messages JSON_parse
            (removelast (split (snd (received decode new_TextDecoder values)) blank_line))).
  destruct Hrest as [-> | (e & more & ->)].
  - specialize (Hdone eq_refl). rewrite app_nil_r in Hbody.
    unfold streamAnalysis. rewrite Hdone.
    destruct (onComplete cb) as [f |] eqn:Hf.
    + unfold invoke at 1. destruct (f (world (after_chunks values w))) as [w' [[] | e]].
      * exists [CompleteCall]. cbn [fst calls]. rewrite calls_after_chunks.
        split; [reflexivity |].
        split; [right; left; split; [reflexivity | discriminate] |].
        intros _. exists res, values. repeat split; assumption.
      * exists [CompleteCall; ErrorCall e]. rewrite calls_invoke. cbn [calls].
        rewrite calls_after_chunks, <- app_assoc.
        split; [reflexivity |].
        split; [right; right; right; exists e; split; [reflexivity | discriminate] |].
        intros _. exists res, values. repeat split; assumption.
    + exists []. cbn [fst]. rewrite calls_after_chunks, app_nil_r.
      split; [reflexivity |]. split; [left; split; reflexivity | intros []].
  - exists [ErrorCall e]. rewrite (Hfailed _ e (Hbroken e more eq_refl)).
    rewrite calls_after_chunks.
    split; [reflexivity |].
    split; [right; right; left; exists e; reflexivity |].
    intros [Hin | []]; discriminate.
Qed.

(** X7: the calls of a whole run, whatever the network and the callbacks
    do: first the calls of onMessage, then nothing more, or onComplete, or
    onError, or onComplete followed by onError (when onComplete itself
    throws).  So onComplete and onError are called at most once each, onError
    is never followed by another call, and no message is delivered after
    either of them. *)
Theorem calls_are_messages_then_the_ending (fetched : Fetched) (w : World) :
  exists delivered ending,
    calls (fst (streamAnalysis JSON_parse new_TextDecoder decode cb fetched w))
    = map (@MessageCall Parsed) delivered ++ ending
    /\ (ending = []
        \/ ending = [CompleteCall]
        \/ (exists e, ending = [ErrorCall e])
        \/ (exists e, ending = [CompleteCall; ErrorCall e]))
    /\ (ending = [] -> onComplete cb = None).
Proof.
  destruct (calls_of_streamAnalysis fetched w) as (delivered & ending & Hcalls & Hending & _).
  exists delivered, ending. split; [exact Hcalls |].
  destruct Hending as [[-> Hnone] | [[-> _] | [[e ->] | [e [-> _]]]]].
  - split; [left; reflexivity | intros _; exact Hnone].
  - split; [right; left; reflexivity | discriminate].
  - split; [right; right; left; exists e; reflexivity | discriminate].
  - split; [right; right; right; exists e; reflexivity | discriminate].
Qed.

(** X8: onComplete is called exactly when it was given, the response was
    ok with a body, and every read up to the end of the stream succeeded.
    Then it is called after all the messages of the stream; with a failed
    response, a rejected fetch or a failed read it is not called. *)
Theorem onComplete_marks_the_end_of_the_stream (fetched : Fetched) (w : World) :
  In CompleteCall (calls (fst (streamAnalysis JSON_parse new_TextDecoder decode cb fetched w)))
  <-> exists res values f,
        fetched = Responded res /\ ok res = true /\ body res = Some (map Chunk values)
        /\ onComplete cb = Some f.
Proof.
  split.
  - destruct (calls_of_streamAnalysis fetched w)
      as (delivered & ending & -> & Hending & Hstream).
    intros Hin. apply in_app_or in Hin. destruct Hin as [Hin | Hin].
    { apply in_map_iff in Hin. destruct Hin as (parsed & Habsurd & _). discriminate. }
    destruct (Hstream Hin) as (res & values & Hres & Hok & Hbody).
    exists res, values.
    destruct (onComplete cb) as [f |] eqn:Hf;
      [exists f; repeat split; assumption |].
    exfalso.
    destruct Hending as [[-> _] | [[_ Hsome] | [[e ->] | [e [_ Hsome]]]]];
      try (apply Hsome; reflexivity); try contradiction.
    destruct Hin as [Hin | []]; discriminate.
  - intros (res & values & f & -> & Hok & Hbody & Hf).
    rewrite <- (app_nil_r (map Chunk values)) in Hbody.
    destruct (try_block_streaming res values [] w Hok Hbody) as (Hdone & _).
    specialize (Hdone eq_refl). rewrite Hf in Hdone.
    unfold streamAnalysis. rewrite Hdone.
    unfold invoke at 1. destruct (f (world (after_chunks values w))) as [w' [[] | e]].
    + cbn [fst calls]. apply in_or_app. right. left. reflexivity.
    + rewrite calls_invoke. cbn [calls]. apply in_or_app. left.
      apply in_or_app. right. left. reflexivity.
Qed.

(** X9: the run depends on the text of the stream, not on the way the
    network cuts it into chunks: two bodies that decode to the same text,
    both read to their end or both to a read that fails with the same
    error, give the same calls, the same state of the caller and the same
    completion. *)
Theorem chunk_boundaries_do_not_matter
    (res1 res2 : Response) (values1 values2 : list (list byte)) (w : World) :
  ok res1 = true ->
  ok res2 = true ->
  snd (received decode new_TextDecoder values1)
  = snd (received decode new_TextDecoder values2) ->
  (body res1 = Some (map Chunk values1) ->
   body res2 = Some (map Chunk values2) ->
   streamAnalysis JSON_parse new_TextDecoder decode cb (Responded res1) w
   = streamAnalysis JSON_parse new_TextDecoder decode cb (Responded res2) w) /\
  (forall e more1 more2,
     body res1 = Some (map Chunk values1 ++ Failed e :: more1) ->
     body res2 = Some (map Chunk values2 ++ Failed e :: more2) ->
     streamAnalysis JSON_parse new_TextDecoder decode cb (Responded res1) w
     = streamAnalysis JSON_parse new_TextDecoder decode cb (Responded res2) w).
Proof.
  intros Hok1 Hok2 Htext. split.
  - intros Hbody1 Hbody2.
    rewrite <- (app_nil_r (map Chunk values1)) in Hbody1.
    rewrite <- (app_nil_r (map Chunk values2)) in Hbody2.
    destruct (try_block_streaming res1 values1 [] w Hok1 Hbody1) as (Hdone1 & _).
    destruct (try_block_streaming res2 values2 [] w Hok2 Hbody2) as (Hdone2 & _).
    unfold streamAnalysis.
    rewrite (Hdone1 eq_refl), (Hdone2 eq_refl), Htext. reflexivity.
  - intros e more1 more2 Hbody1 Hbody2.
    destruct (try_block_streaming res1 values1 _ w Hok1 Hbody1) as (_ & Hbroken1).
    destruct (try_block_streaming res2 values2 _ w Hok2 Hbody2) as (_ & Hbroken2).
    unfold streamAnalysis.
    rewrite (Hbroken1 e more1 eq_refl), (Hbroken2 e more2 eq_refl), Htext. reflexivity.
Qed.

End IngestorRuns.

(** ** Properties of the one-shot calls *)

Section OneShotProperties.

Variable StringToNumber_gt0 : jsstring -> bool.
Variable API_BASE : jsstring.
Variable decodeURIComponent : jsstring -> Completion jsstring.
Variable network : list Request -> Request -> Answer.

(** The outcome of a POST, by what the network answers. *)
Lemma postJson_outcome (path : jsstring) (body : JsValue) (log : list Request) :
  let request := {| method := POST; target := API_BASE ++ path; sent := Some body |} in
  snd (postJson API_BASE network path body log) = log ++ [request] /\
  (forall data,
     fst (postJson API_BASE network path body log) = Normal data
     <-> exists reply,
           network log request = Answered reply
           /\ ok (head reply) = true /\ json reply = Normal data) /\
  (forall e,
     fst (postJson API_BASE network path body log) = Throw e
     <-> network log request = Unanswered e
         \/ exists reply,
              network log request = Answered reply
              /\ ((ok (head reply) = false /\ e = http_error (head reply))
                  \/ (ok (head reply) = true /\ json reply = Throw e))).
Proof.
  intros request. unfold postJson. fold request. cbn [fst snd].
  split; [reflexivity |].
  destruct (network log request) as [e0 | reply].
  - split.
    + intros data. split; [discriminate | intros (reply & Habsurd & _); discriminate].
    + intros e. split.
      * intros [= ->]. left; reflexivity.
      * intros [[= ->] | (reply & Habsurd & _)]; [reflexivity | discriminate].
  - destruct (ok (head reply)) eqn:Hok.
    + split.
      * intros data. split.
        -- intros Hjson. exists reply. repeat split; assumption.
        -- intros (reply' & [= <-] & _ & Hjson). exact Hjson.
      * intros e. split.
        -- intros Hjson. right. exists reply. split; [reflexivity |].
           right. split; [exact Hok | exact Hjson].
        -- intros [Habsurd | (reply' & [= <-] & [[Habsurd _] | [_ Hjson]])];
             [discriminate | congruence | exact Hjson].
    + split.
      * intros data. split; [discriminate |].
        intros (reply' & [= <-] & Habsurd & _). congruence.
      * intros e. split.
        -- intros [= <-]. right. exists reply. split; [reflexivity |].
           left. split; [exact Hok | reflexivity].
        -- intros [Habsurd | (reply' & [= <-] & [[_ ->] | [Habsurd _]])];
             [discriminate | reflexivity | congruence].
Qed.

(** X10: a POST of postJson is exactly one request, to the path under the
    API base, carrying the body.  The parsed body of the response comes back
    exactly when the response is ok and its body parses; a response that is
    not ok is never read as data and raises the error made of its status and
    body text; a rejected fetch and a body that does not parse raise what
    they raise.  analyzeText and analyzeImage are such POSTs, of the content
    with its type and language, to the analyze and verify-image paths. *)
Theorem posts_return_data_or_raise (path : jsstring) (body : JsValue) (log : list Request) :
  snd (postJson API_BASE network path body log)
  = log ++ [{| method := POST; target := API_BASE ++ path; sent := Some body |}] /\
  (forall data,
     fst (postJson API_BASE network path body log) = Normal data
     <-> exists reply,
           network log {| method := POST; target := API_BASE ++ path; sent := Some body |}
           = Answered reply
           /\ ok (head reply) = true /\ json reply = Normal data) /\
  (forall e,
     fst (postJson API_BASE network path body log) = Throw e
     <-> network log {| method := POST; target := API_BASE ++ path; sent := Some body |}
         = Unanswered e
         \/ exists reply,
              network log {| method := POST; target := API_BASE ++ path; sent := Some body |}
              = Answered reply
              /\ ((ok (head reply) = false /\ e = http_error (head reply))
                  \/ (ok (head reply) = true /\ json reply = Throw e))) /\
  (forall text language,
     analyzeText API_BASE network text language
     = postJson API_BASE network (js "/api/v1/analyze")
         (JObj [ (js "content_type", JStr (js "text"));
                 (js "content", JStr text);
                 (js "language", JStr language) ])) /\
  (forall imageBase64,
     analyzeImage API_BASE network imageBase64
     = postJson API_BASE network (js "/api/v1/verify-image")
         (JObj [ (js "content_type", JStr (js "image"));
                 (js "content", JStr imageBase64);
                 (js "language", JStr (js "en")) ])).
Proof.
  destruct (postJson_outcome path body log) as (Hlog & Hdata & Hfailed).
  split; [exact Hlog |]. split; [exact Hdata |]. split; [exact Hfailed |].
  split; reflexivity.
Qed.

(** X11: translateText never throws and always makes exactly one request,
    a POST of the text and the target language to the translate endpoint.
    When the response is ok and its body parses, the parsed body is the
    result, whatever it holds; on any failure (a rejected fetch, a response
    that is not ok, a body that does not parse) the result is the
    placeholder whose translated text is the target in brackets followed by
    the text itself. *)
Theorem translateText_never_throws (text language : jsstring) (log : list Request) :
  let request :=
    {| method := POST;
       target := API_BASE ++ js "/api/translate";
       sent := Some (JObj [ (js "text", JStr text); (js "target", JStr language) ]) |} in
  snd (translateText API_BASE network text language log) = log ++ [request] /\
  (exists res, fst (translateText API_BASE network text language log) = Normal res) /\
  (forall reply data,
     network log request = Answered reply ->
     ok (head reply) = true ->
     json reply = Normal data ->
     fst (translateText API_BASE network text language log) = Normal data) /\
  ((forall reply data,
      network log request = Answered reply ->
      ok (head reply) = true ->
      json reply <> Normal data) ->
   fst (translateText API_BASE network text language log)
   = Normal (JObj [ (js "translated",
                     JStr (js "[Translated to " ++ language ++ js "] " ++ text)) ])).
Proof.
  intros request. unfold translateText.
  pose proof (postJson_outcome (js "/api/translate")
                (JObj [ (js "text", JStr text); (js "target", JStr language) ]) log)
    as (Hlog & Hdata & Hfailed).
  fold request in Hlog, Hdata, Hfailed.
  destruct (postJson API_BASE network (js "/api/translate")
              (JObj [ (js "text", JStr text); (js "target", JStr language) ]) log)
    as [posted log'].
  cbn [fst snd] in *. split; [exact Hlog |].
  split; [destruct posted; eexists; reflexivity |].
  split.
  - intros reply data Hreply Hok Hjson.
    assert (Hposted : posted = Normal data).
    { apply Hdata. exists reply. repeat split; assumption. }
    rewrite Hposted. reflexivity.
  - intros Hnone. destruct posted as [data | e]; [| reflexivity].
    exfalso. destruct (proj1 (Hdata data) eq_refl) as (reply & Hreply & Hok & Hjson).
    exact (Hnone reply data Hreply Hok Hjson).
Qed.

(** X12: getResult makes at most one request.  It makes none exactly when
    the id is missing or empty, or starts with the text marker and what
    follows cannot be decoded; it then throws, with the message "No result ID
    provided" in the first case and with what decodeURIComponent raised in the
    second. *)
Theorem getResult_asks_at_most_once (resultId : option jsstring) (log : list Request) :
  (snd (getResult StringToNumber_gt0 API_BASE decodeURIComponent network resultId log) = log
   \/ exists request,
        snd (getResult StringToNumber_gt0 API_BASE decodeURIComponent network resultId log)
        = log ++ [request]) /\
  (snd (getResult StringToNumber_gt0 API_BASE decodeURIComponent network resultId log) = log
   <-> (resultId = None \/ resultId = Some [])
       \/ exists id e,
            resultId = Some id /\ startsWith id (js "text:") = true
            /\ decodeURIComponent (skipn 5 id) = Throw e) /\
  (resultId = None \/ resultId = Some [] ->
   getResult StringToNumber_gt0 API_BASE decodeURIComponent network resultId log
   = (Throw (Error (js "No result ID provided")), log)) /\
  (forall id e,
     resultId = Some id -> startsWith id (js "text:") = true ->
     decodeURIComponent (skipn 5 id) = Throw e ->
     getResult StringToNumber_gt0 API_BASE decodeURIComponent network resultId log
     = (Throw e, log)).
Proof.
  destruct resultId as [[| c id] |].
  - split; [left; reflexivity |].
    split; [split; [intros _; left; right; reflexivity | reflexivity] |].
    split; [reflexivity |].
    intros id e [= <-] Habsurd. discriminate.
  - unfold getResult.
    destruct (startsWith (c :: id) (js "text:")) eqn:Htext.
    + destruct (decodeURIComponent (skipn 5 (c :: id))) as [text | e] eqn:Hdecode.
      * unfold analyzeText, postJson. cbn [snd].
        split; [right; eexists; reflexivity |].
        split; [split |].
        -- intros Habsurd. exfalso. exact (@app_one_more _ _ _ Habsurd).
        -- intros [[Habsurd | Habsurd] | (id' & e & [= <-] & _ & Habsurd)];
             [discriminate | discriminate | congruence].
        -- split; [intros [Habsurd | Habsurd]; discriminate |].
           intros id' e [= <-] _ Habsurd. congruence.
      * cbn [snd]. split; [left; reflexivity |].
        split; [split; [| reflexivity] |].
        -- intros _. right. exists (c :: id), e. repeat split; assumption.
        -- split; [intros [Habsurd | Habsurd]; discriminate |].
           intros id' e' [= <-] _ Hdecode'. congruence.
    + cbn [snd]. split; [right; eexists; reflexivity |].
      split; [split |].
      * intros Habsurd. exfalso. exact (@app_one_more _ _ _ Habsurd).
      * intros [[Habsurd | Habsurd] | (id' & e & [= <-] & Habsurd & _)];
          [discriminate | discriminate | congruence].
      * split; [intros [Habsurd | Habsurd]; discriminate |].
        intros id' e [= <-] Habsurd. congruence.
  - split; [left; reflexivity |].
    split; [split; [intros _; left; left; reflexivity | reflexivity] |].
    split; [reflexivity |].
    intros id e Habsurd. discriminate.
Qed.

(** X13: for an id that does not start with the text marker, getResult
    makes one GET of the results endpoint with the id appended.  The parsed
    body of an ok response is returned as it stands, without passing through
    the normalizer.  Every failure, whichever it is (a rejected fetch, a
    response that is not ok, a body that does not parse), is reported as the
    same error, "Unsupported result ID: " followed by the id. *)
Theorem stored_result_or_unsupported (id : jsstring) (log : list Request) :
  id <> [] ->
  startsWith id (js "text:") = false ->
  let request :=
    {| method := GET; target := API_BASE ++ js "/api/v1/results/" ++ id; sent := None |} in
  let got := getResult StringToNumber_gt0 API_BASE decodeURIComponent network (Some id) log in
  snd got = log ++ [request] /\
  (forall data,
     fst got = Normal (Stored data)
     <-> exists reply,
           network log request = Answered reply
           /\ ok (head reply) = true /\ json reply = Normal data) /\
  (forall r, fst got <> Normal (Normalized r)) /\
  ((exists data, fst got = Normal (Stored data))
   \/ fst got = Throw (Error (js "Unsupported result ID: " ++ id))).
Proof.
  intros Hid Htext request got. subst got. unfold getResult.
  destruct id as [| c id]; [contradiction |].
  rewrite Htext. fold request. cbn [fst snd].
  split; [reflexivity |].
  destruct (network log request) as [e | reply].
  { split.
    - intros data. split; [discriminate | intros (reply & Habsurd & _); discriminate].
    - split; [discriminate | right; reflexivity]. }
  destruct (ok (head reply)) eqn:Hok.
  - destruct (json reply) as [data | e] eqn:Hjson.
    + split.
      * intros data'. split.
        -- intros [= <-]. exists reply. repeat split; assumption.
        -- intros (reply' & [= <-] & _ & Hjson'). congruence.
      * split; [discriminate | left; exists data; reflexivity].
    + split.
      * intros data. split; [discriminate |].
        intros (reply' & [= <-] & _ & Hjson'). congruence.
      * split; [discriminate | right; reflexivity].
  - split.
    + intros data. split; [discriminate |].
      intros (reply' & [= <-] & Habsurd & _). congruence.
    + split; [discriminate | right; reflexivity].
Qed.

(** X14: for an id made of the text marker and an encoded text that
    decodes, getResult posts the decoded text for analysis, with the
    language "en", and normalizes the answer.  It returns exactly when the
    response is ok and its body parses to a well shaped payload, and the
    result is then the normalized payload; it never returns stored data.
    Failures are not masked: a response that is not ok raises the error of
    its status and body text, a rejected fetch raises what fetch raised, and
    a payload that is not well shaped raises the TypeError of the
    normalizer. *)
Theorem text_id_is_analyzed_and_normalized (encoded text : jsstring) (log : list Request) :
  decodeURIComponent encoded = Normal text ->
  let request :=
    {| method := POST;
       target := API_BASE ++ js "/api/v1/analyze";
       sent := Some (JObj [ (js "content_type", JStr (js "text"));
                            (js "content", JStr text);
                            (js "language", JStr (js "en")) ]) |} in
  let got := getResult StringToNumber_gt0 API_BASE decodeURIComponent network
               (Some (js "text:" ++ encoded)) log in
  snd got = log ++ [request] /\
  (forall r,
     fst got = Normal (Normalized r)
     <-> exists reply payload,
           network log request = Answered reply
           /\ ok (head reply) = true /\ json reply = Normal payload
           /\ transformBackendResult StringToNumber_gt0 payload = Normal r) /\
  ((exists r, fst got = Normal (Normalized r))
   <-> exists reply payload,
         network log request = Answered reply
         /\ ok (head reply) = true /\ json reply = Normal payload
         /\ well_shaped payload = true) /\
  (forall data, fst got <> Normal (Stored data)) /\
  (forall e, network log request = Unanswered e -> fst got = Throw e) /\
  (forall reply,
     network log request = Answered reply -> ok (head reply) = false ->
     fst got = Throw (http_error (head reply))) /\
  (forall reply payload,
     network log request = Answered reply -> ok (head reply) = true ->
     json reply = Normal payload -> well_shaped payload = false ->
     fst got = Throw TypeError).
Proof.
  intros Hdecode request got.
  assert (Hgot : got
                 = (backendResult <- fst (analyzeText API_BASE network text (js "en") log) ;;
                    transformed <- transformBackendResult StringToNumber_gt0 backendResult ;;
                    Normal (Normalized transformed),
                    snd (analyzeText API_BASE network text (js "en") log))).
  { subst got. unfold getResult.
    change (js "text:" ++ encoded) with (116 :: 101 :: 120 :: 116 :: 58 :: encoded)%N.
    change (startsWith (116 :: 101 :: 120 :: 116 :: 58 :: encoded)%N (js "text:")) with true.
    cbn [skipn]. rewrite Hdecode.
    destruct (analyzeText API_BASE network text (js "en") log). reflexivity. }
  rewrite Hgot. clear Hgot got. cbn [fst snd].
  unfold analyzeText.
  pose proof (postJson_outcome (js "/api/v1/analyze")
                (JObj [ (js "content_type", JStr (js "text"));
                        (js "content", JStr text);
                        (js "language", JStr (js "en")) ]) log)
    as (Hlog & Hdata & Hfailed).
  fold request in Hlog, Hdata, Hfailed.
  destruct (postJson API_BASE network (js "/api/v1/analyze")
              (JObj [ (js "content_type", JStr (js "text"));
                      (js "content", JStr text);
                      (js "language", JStr (js "en")) ]) log)
    as [posted log'].
  cbn [fst snd] in *.
  assert (Hnormalized : forall r,
            (backendResult <- posted ;;
             transformed <- transformBackendResult StringToNumber_gt0 backendResult ;;
             Normal (Normalized transformed)) = Normal (Normalized r)
            <-> exists reply payload,
                  network log request = Answered reply
                  /\ ok (head reply) = true /\ json reply = Normal payload
                  /\ transformBackendResult StringToNumber_gt0 payload = Normal r).
  { intros r. split.
    - intros H. unbind H. rename a into payload. unbind H. injection H as <-.
      destruct (proj1 (Hdata payload) Step) as (reply & Hreply & Hok & Hjson).
      exists reply, payload. repeat split; assumption.
    - intros (reply & payload & Hreply & Hok & Hjson & Htransform).
      assert (Hposted : posted = Normal payload).
      { apply Hdata. exists reply. repeat split; assumption. }
      rewrite Hposted. cbn [bind]. rewrite Htransform. reflexivity. }
  split; [exact Hlog |].
  split; [exact Hnormalized |].
  split; [split |].
  - intros (r & Hr). apply Hnormalized in Hr.
    destruct Hr as (reply & payload & Hreply & Hok & Hjson & Htransform).
    exists reply, payload. repeat split; try assumption.
    exact (returns_well_shaped _ _ Htransform).
  - intros (reply & payload & Hreply & Hok & Hjson & Hshaped).
    destruct (well_shaped_returns StringToNumber_gt0 _ Hshaped) as (r & Htransform).
    exists r. apply Hnormalized. exists reply, payload. repeat split; assumption.
  - split.
    { intros data H. unbind H. unbind H. discriminate. }
    split.
    { intros e Hreply.
      assert (Hposted : posted = Throw e) by (apply Hfailed; left; exact Hreply).
      rewrite Hposted. reflexivity. }
    split.
    { intros reply Hreply Hok.
      assert (Hposted : posted = Throw (http_error (head reply))).
      { apply Hfailed. right. exists reply. split; [exact Hreply |].
        left. split; [exact Hok | reflexivity]. }
      rewrite Hposted. reflexivity. }
    intros reply payload Hreply Hok Hjson Hshaped.
    assert (Hposted : posted = Normal payload).
    { apply Hdata. exists reply. repeat split; assumption. }
    rewrite Hposted. cbn [bind].
    destruct (transformBackendResult StringToNumber_gt0 payload) as [r | e] eqn:Htransform.
    + rewrite (returns_well_shaped _ _ Htransform) in Hshaped. discriminate.
    + rewrite (only_TypeError_transform StringToNumber_gt0 _ Htransform). reflexivity.
Qed.

End OneShotProperties.

(** ** Properties of the pages that call the client *)



Section PageProperties.

Variable StringToNumber_gt0 : jsstring -> bool.
Variable API_BASE : jsstring.
Variable decodeURIComponent : jsstring -> Completion jsstring.
Variable network : list Request -> Request -> Answer.
Variable other_message : Exn -> Completion JsValue.

Local Abbreviation getResult' :=
  (getResult StringToNumber_gt0 API_BASE decodeURIComponent network).
Local Abbreviation fetchResult' :=
  (Results.fetchResult StringToNumber_gt0 API_BASE decodeURIComponent network other_message).





(** The data held for a result are there to show exactly when the result
    is truthy. *)
Lemma no_data_held (result : Outcome) :
  Results.no_data (Results.held result)
  = match result with
    | Normalized _ => false
    | Stored v => negb (ToBoolean v)
    end.
Proof. destruct result as [r | []]; reflexivity. Qed.


(** X16: whatever happens, the image page stops analyzing.  It shows no
    error exactly when the file was read, the server answered ok and the
    body parsed to something other than null; the findings are then the four
    fields of the answer, ocr_text under the name extracted_text.  On every
    failure the error is the one fixed message and the findings of an earlier
    run stay on the page.  When the file cannot be read no request is
    made. *)
Theorem image_page_shows_findings_or_the_message
    (read : Completion jsstring) (page : ImageResults.Page) (log : list Request) :
  ImageResults.isAnalyzing
    (fst (ImageResults.handleAnalyze API_BASE network (Some read) page log)) = false /\
  (ImageResults.error
     (fst (ImageResults.handleAnalyze API_BASE network (Some read) page log)) = None
   <-> exists imageBase64 reply res,
         read = Normal imageBase64
         /\ network log
              {| method := POST;
                 target := API_BASE ++ js "/api/v1/verify-image";
                 sent := Some (JObj [ (js "content_type", JStr (js "image"));
                                      (js "content", JStr imageBase64);
                                      (js "language", JStr (js "en")) ]) |}
            = Answered reply
         /\ ok (head reply) = true /\ json reply = Normal res /\ is_nullish res = false
         /\ ImageResults.results
              (fst (ImageResults.handleAnalyze API_BASE network (Some read) page log))
            = Some {| ImageResults.forensic := property res (js "forensic");
                      ImageResults.extracted_text := property res (js "ocr_text");
                      ImageResults.fact_check := property res (js "fact_check");
                      ImageResults.education := property res (js "education") |}) /\
  (ImageResults.error
     (fst (ImageResults.handleAnalyze API_BASE network (Some read) page log)) <> None ->
   fst (ImageResults.handleAnalyze API_BASE network (Some read) page log)
   = {| ImageResults.isAnalyzing := false;
        ImageResults.error := Some (js "Image could not be analyzed. Please try again.");
        ImageResults.results := ImageResults.results page |}) /\
  (forall e, read = Throw e ->
             snd (ImageResults.handleAnalyze API_BASE network (Some read) page log) = log) /\
  ImageResults.handleAnalyze API_BASE network None page log = (page, log).
Proof.
  unfold ImageResults.handleAnalyze.
  destruct read as [imageBase64 | e0].
  2:{ cbn [fst snd ImageResults.isAnalyzing ImageResults.error].
      split; [reflexivity |].
      split; [split; [discriminate | intros (b & reply & res & Habsurd & _); discriminate] |].
      split; [reflexivity |]. split; reflexivity. }
  unfold analyzeImage, postJson.
  destruct (network log _) as [e | reply] eqn:Hreply.
  { cbn [bind fst snd ImageResults.isAnalyzing ImageResults.error].
    split; [reflexivity |].
    split; [split; [discriminate |] |].
    - intros (b & reply & res & [= <-] & Habsurd & _). congruence.
    - split; [reflexivity |]. split; [discriminate | reflexivity]. }
  destruct (ok (head reply)) eqn:Hok.
  2:{ cbn [bind fst snd ImageResults.isAnalyzing ImageResults.error].
      split; [reflexivity |].
      split; [split; [discriminate |] |].
      - intros (b & reply' & res & [= <-] & Hreply' & Habsurd & _). congruence.
      - split; [reflexivity |]. split; [discriminate | reflexivity]. }
  destruct (json reply) as [res | e] eqn:Hjson.
  2:{ cbn [bind fst snd ImageResults.isAnalyzing ImageResults.error].
      split; [reflexivity |].
      split; [split; [discriminate |] |].
      - intros (b & reply' & res & [= <-] & Hreply' & _ & Habsurd & _). congruence.
      - split; [reflexivity |]. split; [discriminate | reflexivity]. }
  cbn [bind]. unfold Get. destruct (is_nullish res) eqn:Hres;
    cbn [bind fst snd ImageResults.isAnalyzing ImageResults.error ImageResults.results].
  - split; [reflexivity |].
    split; [split; [discriminate |] |].
    + intros (b & reply' & res' & [= <-] & Hreply' & _ & Hjson' & Habsurd & _). congruence.
    + split; [reflexivity |]. split; [discriminate | reflexivity].
  - split; [reflexivity |].
    split; [split |].
    + intros _. exists imageBase64, reply, res. repeat split; assumption.
    + reflexivity.
    + split; [intros Habsurd; exfalso; apply Habsurd; reflexivity |].
      split; [discriminate | reflexivity].
Qed.

End PageProperties.

(** ** Properties of the translate button of the Results page *)

Lemma verdict_is_printable (StringToNumber_gt0 : jsstring -> bool) (p : JsValue) (r : Result) :
  transformBackendResult StringToNumber_gt0 p = Normal r ->
  exists rated percent,
    ToString (label (verdict r)) = Normal rated
    /\ ToString (confidence (verdict r)) = Normal percent.
Proof.
  intros H. apply transform_Normal in H.
  destruct H as (_ & items & found_array & quick & checklist & any & entries
                 & rated & percent & found & _ & _ & _ & _ & _ & _ & Hrated & Hpercent
                 & _ & Hverdict & _).
  rewrite Hverdict. cbn [label confidence].
  unfold or_else in *.
  destruct (ToBoolean (verdict_field p (js "label")));
    destruct (ToBoolean (verdict_field p (js "confidence")));
    eexists; eexists; split; first [eassumption | reflexivity].
Qed.

Lemma placeholder_translated (text language : jsstring) :
  Results.translated_text (placeholder_translation text language)
  = Normal (js "[Translated to " ++ language ++ js "] " ++ text).
Proof.
  unfold Results.translated_text, placeholder_translation, Get.
  cbn [is_nullish bind property own_property].
  rewrite (proj2 (jsstring_eqb_eq (js "translated") (js "translated")) eq_refl).
  reflexivity.
Qed.

Section TranslateProperties.

Variable API_BASE : jsstring.
Variable network : list Request -> Request -> Answer.

(** The request of a translation into Hindi. *)
Local Abbreviation translate_request text :=
  {| method := POST;
     target := API_BASE ++ js "/api/translate";
     sent := Some (JObj [ (js "text", JStr text); (js "target", JStr (js "hi")) ]) |}.

Lemma translateText_pair (text : jsstring) (log : list Request) :
  exists res,
    translateText API_BASE network text (js "hi") log
    = (Normal res, log ++ [translate_request text]).
Proof.
  unfold translateText, postJson.
  destruct (network log _) as [e | reply]; [eexists; reflexivity |].
  destruct (ok (head reply)); [| eexists; reflexivity].
  destruct (json reply); eexists; reflexivity.
Qed.

Lemma translateText_placeholder (text : jsstring) (log : list Request) :
  (forall reply data,
     network log (translate_request text) = Answered reply ->
     ok (head reply) = true -> json reply <> Normal data) ->
  translateText API_BASE network text (js "hi") log
  = (Normal (placeholder_translation text (js "hi")), log ++ [translate_request text]).
Proof.
  intros Hnone. unfold translateText, postJson.
  destruct (network log _) as [e | reply] eqn:Hreply; [reflexivity |].
  destruct (ok (head reply)) eqn:Hok; [| reflexivity].
  destruct (json reply) as [data | e] eqn:Hjson; [| reflexivity].
  exfalso. exact (Hnone reply data eq_refl Hok Hjson).
Qed.

(** The alert of a translation, by the requests it took. *)
Lemma translation_alert_cases (data : Outcome) (log : list Request) :
  (exists e, Results.translation_alert API_BASE network data log = (Throw e, log))
  \/ (exists e first,
        Results.translation_alert API_BASE network data log = (Throw e, log ++ [first]))
  \/ (exists e first second,
        Results.translation_alert API_BASE network data log
        = (Throw e, log ++ [first; second]))
  \/ (exists verdict_shown findings_shown first second,
        Results.translation_alert API_BASE network data log
        = (Normal (js "🔄 Translation (Hindi):" ++ [LF; LF] ++ verdict_shown
                   ++ [LF; LF] ++ findings_shown),
           log ++ [first; second])).
Proof.
  unfold Results.translation_alert.
  destruct (bind (Results.verdict_part data (js "label") label) _) as [verdict_line | e];
    [| left; exists e; reflexivity].
  destruct (translateText_pair verdict_line log) as (verdictTranslated & ->).
  destruct (Results.printed_findings data) as [findings | e];
    [| right; left; eexists; eexists; reflexivity].
  destruct (translateText_pair findings (log ++ [translate_request verdict_line]))
    as (qaTranslated & ->).
  rewrite <- app_assoc. cbn [app bind].
  destruct (Results.translated_text verdictTranslated) as [verdict_shown | e];
    [| right; right; left; eexists; eexists; eexists; reflexivity].
  cbn [bind].
  destruct (Results.translated_text qaTranslated) as [findings_shown | e];
    [| right; right; left; eexists; eexists; eexists; reflexivity].
  right; right; right. eexists; eexists; eexists; eexists. reflexivity.
Qed.

(** X17: the translate button.  When a translation is showing, the
    button only turns it off: no request, no alert.  Otherwise it shows
    exactly one alert and makes at most two requests: either the alert of
    the translation, after two requests, and the translation is on; or the
    alert "Translation not available right now." and the translation stays
    off. *)
Theorem translate_button_alerts_once (data : Outcome) (shown : Results.Shown)
    (log : list Request) :
  (Results.translated shown = true ->
   Results.handleTranslate API_BASE network data shown log
   = ({| Results.translated := false; Results.alerts := Results.alerts shown |}, log)) /\
  (Results.translated shown = false ->
   (exists verdict_shown findings_shown first second,
      Results.handleTranslate API_BASE network data shown log
      = ({| Results.translated := true;
            Results.alerts :=
              Results.alerts shown
              ++ [js "🔄 Translation (Hindi):" ++ [LF; LF] ++ verdict_shown
                  ++ [LF; LF] ++ findings_shown] |},
         log ++ [first; second]))
   \/ (fst (Results.handleTranslate API_BASE network data shown log)
       = {| Results.translated := false;
            Results.alerts :=
              Results.alerts shown ++ [js "Translation not available right now."] |}
       /\ (snd (Results.handleTranslate API_BASE network data shown log) = log
           \/ (exists first,
                 snd (Results.handleTranslate API_BASE network data shown log)
                 = log ++ [first])
           \/ (exists first second,
                 snd (Results.handleTranslate API_BASE network data shown log)
                 = log ++ [first; second])))).
Proof.
  unfold Results.handleTranslate. split; intros ->; [reflexivity |].
  destruct (translation_alert_cases data log)
    as [(e & ->) | [(e & first & ->) | [(e & first & second & ->)
        | (verdict_shown & findings_shown & first & second & ->)]]].
  - right. split; [reflexivity | left; reflexivity].
  - right. split; [reflexivity | right; left; exists first; reflexivity].
  - right. split; [reflexivity | right; right; exists first, second; reflexivity].
  - left. exists verdict_shown, findings_shown, first, second. reflexivity.
Qed.

(** X18: a failure of the network is not reported by the translate
    button.  For a normalized Result whose texts can be printed, when no
    request gets an ok answer that parses, the two requests are made all the
    same and the alert of the translation is shown, holding the placeholders:
    the verdict line and the findings, one "- text" line each, both after
    "[Translated to hi] "; the translation is on. *)
Theorem network_failure_shows_the_placeholders
    (StringToNumber_gt0 : jsstring -> bool) (p : JsValue) (r : Result)
    (shown : Results.Shown) (log : list Request) :
  transformBackendResult StringToNumber_gt0 p = Normal r ->
  Forall (fun finding => printable (text finding) = true) (quick_analysis r) ->
  (forall log' request reply data,
     network log' request = Answered reply ->
     ok (head reply) = true -> json reply <> Normal data) ->
  Results.translated shown = false ->
  exists rated percent findings,
    ToString (label (verdict r)) = Normal rated
    /\ ToString (confidence (verdict r)) = Normal percent
    /\ Results.printed_findings (Normalized r) = Normal findings
    /\ Results.handleTranslate API_BASE network (Normalized r) shown log
       = ({| Results.translated := true;
             Results.alerts :=
               Results.alerts shown
               ++ [js "🔄 Translation (Hindi):" ++ [LF; LF]
                   ++ (js "[Translated to " ++ js "hi" ++ js "] "
                       ++ (js "Verdict: " ++ rated ++ js " (" ++ percent ++ js "%)"))
                   ++ [LF; LF]
                   ++ (js "[Translated to " ++ js "hi" ++ js "] " ++ findings)] |},
          log ++ [translate_request (js "Verdict: " ++ rated ++ js " (" ++ percent ++ js "%)");
                  translate_request findings]).
Proof.
  intros Htransform Hprintable Hnone Hoff.
  destruct (verdict_is_printable _ _ Htransform) as (rated & percent & Hrated & Hpercent).
  assert (Hlines : exists lines,
             Array_map (fun finding (_ : nat) =>
                          Results.printed_finding (Normal (text finding)))
               (quick_analysis r) = Normal lines).
  { apply returns_true.
    unfold Array_map.
    rewrite (returns_Array_map_from
               (fun finding (_ : nat) => Results.printed_finding (Normal (text finding)))
               (fun finding => printable (text finding)) (quick_analysis r) 0).
    - apply forallb_forall. rewrite Forall_forall in Hprintable. exact Hprintable.
    - intros finding i. unfold Results.printed_finding, printable. cbn [bind].
      destruct (ToString (text finding)); reflexivity. }
  destruct Hlines as (lines & Hlines).
  assert (Hfindings : Results.printed_findings (Normalized r)
                      = Normal (Array_join [LF] lines)).
  { unfold Results.printed_findings. rewrite Hlines. reflexivity. }
  exists rated, percent, (Array_join [LF] lines).
  split; [exact Hrated |]. split; [exact Hpercent |]. split; [exact Hfindings |].
  unfold Results.handleTranslate. rewrite Hoff.
  unfold Results.translation_alert, Results.verdict_part. cbn [bind].
  rewrite Hrated. cbn [bind]. rewrite Hpercent. cbn [bind].
  rewrite translateText_placeholder by (intros reply data; apply Hnone).
  rewrite Hfindings.
  rewrite translateText_placeholder by (intros reply data; apply Hnone).
  cbn [bind]. rewrite !placeholder_translated. cbn [bind].
  f_equal. rewrite <- app_assoc. reflexivity.
Qed.

End TranslateProperties.

(** ** The further properties on the sample inputs *)

Lemma no_line_feed (texts : list jsstring) :
  forallb (fun t => negb (existsb (unit_eqb LF) t)) texts = true ->
  Forall (fun t => ~ In LF t) texts.
Proof.
  intros H. apply Forall_forall. intros t Ht Hin.
  rewrite forallb_forall in H. specialize (H t Ht). apply negb_true_iff in H.
  assert (Hfound : existsb (unit_eqb LF) t = true).
  { apply existsb_exists. exists LF. split; [exact Hin | apply N.eqb_refl]. }
  congruence.
Qed.

Example bulleted_texts :
  bulleted printed_texts = js "- The claim is false" ++ [LF] ++ js "- Two sources agree".
Proof. vm_compute. reflexivity. Qed.

Example translation_offline :
  translateText localhost offline (js "False") (js "hi") []
  = (Normal (JObj [ (js "translated", JStr (js "[Translated to hi] False")) ]),
     [ {| method := POST;
          target := js "http://localhost:8000/api/translate";
          sent := Some (JObj [ (js "text", JStr (js "False"));
                               (js "target", JStr (js "hi")) ]) |} ]).
Proof. vm_compute. reflexivity. Qed.

Example text_id_normalized :
  getResult digits_gt0 localhost decode_without_escapes analysis_server
    (Some (js "text:vaccines")) []
  = (Normal (Normalized vaccine_result),
     [ {| method := POST;
          target := js "http://localhost:8000/api/v1/analyze";
          sent := Some (JObj [ (js "content_type", JStr (js "text"));
                               (js "content", JStr (js "vaccines"));
                               (js "language", JStr (js "en")) ]) |} ]).
Proof. vm_compute. reflexivity. Qed.

Example other_id_unsupported :
  getResult digits_gt0 localhost decode_without_escapes analysis_server
    (Some (js "abc123")) []
  = (Throw (Error (js "Unsupported result ID: abc123")),
     [ {| method := GET;
          target := js "http://localhost:8000/api/v1/results/abc123";
          sent := None |} ]).
Proof. vm_compute. reflexivity. Qed.

Example missing_id_and_bad_escape :
  getResult digits_gt0 localhost decode_without_escapes analysis_server None []
  = (Throw (Error (js "No result ID provided")), [])
  /\ getResult digits_gt0 localhost decode_without_escapes analysis_server
       (Some (js "text:%")) []
     = (Throw (Thrown 0), []).
Proof. split; vm_compute; reflexivity. Qed.

Example results_page_offline :
  Results.fetchResult digits_gt0 localhost decode_without_escapes offline
    (fun _ => Normal (JStr (js "Failed to fetch")))
    (Some (js "text:vaccines"))
    {| Results.data := None; Results.loading := true; Results.error := None |} []
  = ({| Results.data := None; Results.loading := false;
        Results.error := Some (JStr (js "Failed to fetch")) |},
     Normal tt,
     [ {| method := POST;
          target := js "http://localhost:8000/api/v1/analyze";
          sent := Some (JObj [ (js "content_type", JStr (js "text"));
                               (js "content", JStr (js "vaccines"));
                               (js "language", JStr (js "en")) ]) |} ]).
Proof. vm_compute. reflexivity. Qed.

Example image_page_refused :
  fst (ImageResults.handleAnalyze localhost analysis_server
         (Some (Normal (js "data:image/png;base64,AAAA")))
         {| ImageResults.isAnalyzing := false; ImageResults.error := None;
            ImageResults.results := None |} [])
  = {| ImageResults.isAnalyzing := false;
       ImageResults.error := Some (js "Image could not be analyzed. Please try again.");
       ImageResults.results := None |}.
Proof. vm_compute. reflexivity. Qed.

(** X1 on the vaccine payload: two items, the second with a title and a
    note of its own and the default url. *)
Lemma evidence_follows_the_payload_on_vaccine :
  transformBackendResult digits_gt0 vaccine_payload = Normal vaccine_result
  /\ Z.of_nat (length (evidence vaccine_result)) = 2%Z
  /\ nth_error (evidence vaccine_result) 1
     = Some {| title := JStr (js "CDC"); url := JStr (js "#");
               note := JStr (js "No link found") |}.
Proof.
  assert (H : transformBackendResult digits_gt0 vaccine_payload = Normal vaccine_result)
    by (vm_compute; reflexivity).
  split; [exact H |].
  destruct (evidence_follows_the_payload digits_gt0 vaccine_payload H)
    as (Hcount & Hentry & _).
  split; [exact Hcount |].
  exact (Hentry _ 1 _ eq_refl eq_refl).
Defined.

(** X2 on the vaccine payload, which has an input and neither id nor
    domain. *)
Lemma identifying_fields_on_vaccine :
  transformBackendResult digits_gt0 vaccine_payload = Normal vaccine_result
  /\ id vaccine_result = JStr (js "live-analysis")
  /\ input vaccine_result = JStr (js "Vaccines cause infertility")
  /\ language vaccine_result = js "en".
Proof.
  assert (H : transformBackendResult digits_gt0 vaccine_payload = Normal vaccine_result)
    by (vm_compute; reflexivity).
  split; [exact H |].
  destruct (identifying_fields_are_never_empty digits_gt0 vaccine_payload H)
    as (_ & _ & Hinput & _ & _ & _ & Hid & _ & _ & _ & _ & _ & Hlanguage).
  split; [exact (Hid eq_refl) |]. split; [exact (Hinput eq_refl) | exact Hlanguage].
Defined.

(** X3 on the items of several shapes. *)
Lemma every_finding_has_an_icon_on_mixed_items :
  exists r,
    transformBackendResult digits_gt0 mixed_items_payload = Normal r
    /\ Forall (fun finding => ToBoolean (icon finding) = true) (quick_analysis r).
Proof.
  eexists. split; [vm_compute; reflexivity |].
  exact (every_finding_has_an_icon digits_gt0 mixed_items_payload eq_refl).
Defined.

(** X4 on the items of several shapes: four items, four findings. *)
Lemma array_quick_analysis_on_mixed_items :
  exists r items,
    transformBackendResult digits_gt0 mixed_items_payload = Normal r
    /\ property mixed_items_payload (js "quick_analysis") = JArr items
    /\ length items = 4
    /\ length (quick_analysis r) = length items.
Proof.
  eexists. eexists. split; [vm_compute; reflexivity |].
  split; [reflexivity |]. split; [reflexivity |].
  refine (proj1 (array_quick_analysis_entries digits_gt0 mixed_items_payload
                   eq_refl eq_refl _)).
  discriminate.
Defined.

(** X5 on the items of several shapes: three items, three strings. *)
Lemma checklist_entries_on_mixed_items :
  exists r,
    transformBackendResult digits_gt0 mixed_items_payload = Normal r
    /\ isArray (property mixed_items_payload (js "education_checklist")) = false
    /\ Forall (fun entry => is_string entry = true) (education_checklist r).
Proof.
  eexists. split; [vm_compute; reflexivity |].
  split; [reflexivity |].
  exact (proj1 (proj2 (checklist_entries digits_gt0 mixed_items_payload eq_refl)) eq_refl).
Defined.

(** X6 on two findings. *)
Lemma printed_findings_are_read_back_on_sample :
  exists r,
    transformBackendResult digits_gt0 (quick_analysis_payload (JStr (bulleted printed_texts)))
    = Normal r
    /\ map text (quick_analysis r) = map JStr printed_texts.
Proof.
  eexists. split; [vm_compute; reflexivity |].
  assert (Hne : printed_texts <> []) by discriminate.
  assert (Htrimmed : Forall (fun t => trim t = t) printed_texts)
    by (repeat constructor).
  exact (proj2 (proj2 (printed_findings_are_read_back digits_gt0
                         (quick_analysis_payload (JStr (bulleted printed_texts)))
                         eq_refl eq_refl Hne (no_line_feed printed_texts eq_refl)))
           Htrimmed).
Defined.

(** X9 on the two frames and a rest, in two chunks and in four. *)
Lemma chunk_boundaries_on_two_frames :
  snd (received ascii_decode tt two_frames_and_a_rest)
  = snd (received ascii_decode tt same_text_cut_elsewhere)
  /\ streamAnalysis parse_unsigned tt ascii_decode recording
       (Responded {| ok := true; status := 200; body_text := None;
                     body := Some (map Chunk two_frames_and_a_rest) |}) []
     = streamAnalysis parse_unsigned tt ascii_decode recording
         (Responded {| ok := true; status := 200; body_text := None;
                       body := Some (map Chunk same_text_cut_elsewhere) |}) [].
Proof.
  split; [reflexivity |].
  exact (proj1 (chunk_boundaries_do_not_matter parse_unsigned tt ascii_decode recording
                  {| ok := true; status := 200; body_text := None;
                     body := Some (map Chunk two_frames_and_a_rest) |}
                  {| ok := true; status := 200; body_text := None;
                     body := Some (map Chunk same_text_cut_elsewhere) |}
                  two_frames_and_a_rest same_text_cut_elsewhere []
                  eq_refl eq_refl eq_refl)
           eq_refl eq_refl).
Defined.

(** X13 on an id that the server does not know. *)
Lemma stored_result_or_unsupported_on_sample :
  startsWith (js "abc123") (js "text:") = false
  /\ snd (getResult digits_gt0 localhost decode_without_escapes analysis_server
            (Some (js "abc123")) [])
     = [ {| method := GET;
            target := localhost ++ js "/api/v1/results/" ++ js "abc123";
            sent := None |} ].
Proof.
  split; [reflexivity |].
  refine (proj1 (stored_result_or_unsupported digits_gt0 localhost decode_without_escapes
                   analysis_server (id := js "abc123") [] _ eq_refl)).
  discriminate.
Defined.

(** X14 on a text id and the server that answers with the vaccine
    payload. *)
Lemma text_id_is_analyzed_and_normalized_on_sample :
  decode_without_escapes (js "vaccines") = Normal (js "vaccines")
  /\ fst (getResult digits_gt0 localhost decode_without_escapes analysis_server
            (Some (js "text:" ++ js "vaccines")) [])
     = Normal (Normalized vaccine_result).
Proof.
  assert (Hdecode : decode_without_escapes (js "vaccines") = Normal (js "vaccines"))
    by (vm_compute; reflexivity).
  split; [exact Hdecode |].
  pose proof (text_id_is_analyzed_and_normalized digits_gt0 localhost
                decode_without_escapes analysis_server (js "vaccines") [] Hdecode) as H.
  cbv zeta in H. destruct H as (_ & Hnormalized & _).
  apply (proj2 (Hnormalized vaccine_result)).
  exists {| head := ok_response; json := Normal vaccine_payload |}, vaccine_payload.
  split; [vm_compute; reflexivity |].
  split; [reflexivity |].
  split; [reflexivity |].
  vm_compute. reflexivity.
Defined.

Example translate_button_offline :
  Results.handleTranslate localhost offline (Normalized vaccine_result)
    {| Results.translated := false; Results.alerts := [] |} []
  = ({| Results.translated := true;
        Results.alerts :=
          [ js "🔄 Translation (Hindi):" ++ [LF; LF]
            ++ js "[Translated to hi] Verdict: False (82%)" ++ [LF; LF]
            ++ js "[Translated to hi] - Found 3 professional fact-check sources confirming this analysis."
            ++ [LF]
            ++ js "- Cross-referenced with international fact-checking databases and expert verification systems."
            ++ [LF]
            ++ js "- AI analysis completed with high confidence based on available evidence." ] |},
     [ {| method := POST;
          target := js "http://localhost:8000/api/translate";
          sent := Some (JObj [ (js "text", JStr (js "Verdict: False (82%)"));
                               (js "target", JStr (js "hi")) ]) |};
       {| method := POST;
          target := js "http://localhost:8000/api/translate";
          sent := Some (JObj [ (js "text",
                                JStr (js "- Found 3 professional fact-check sources confirming this analysis."
                                      ++ [LF]
                                      ++ js "- Cross-referenced with international fact-checking databases and expert verification systems."
                                      ++ [LF]
                                      ++ js "- AI analysis completed with high confidence based on available evidence."));
                               (js "target", JStr (js "hi")) ]) |} ]).
Proof. vm_compute. reflexivity. Qed.

Example translate_button_on_stored_data :
  Results.handleTranslate localhost offline (Stored (JObj []))
    {| Results.translated := false; Results.alerts := [] |} []
  = ({| Results.translated := false;
        Results.alerts := [js "Translation not available right now."] |}, []).
Proof. vm_compute. reflexivity. Qed.

(** X18 on the vaccine result, without a network. *)
Lemma network_failure_shows_the_placeholders_on_vaccine :
  transformBackendResult digits_gt0 vaccine_payload = Normal vaccine_result
  /\ Results.translated
       (fst (Results.handleTranslate localhost offline (Normalized vaccine_result)
               {| Results.translated := false; Results.alerts := [] |} []))
     = true
  /\ length (snd (Results.handleTranslate localhost offline (Normalized vaccine_result)
                    {| Results.translated := false; Results.alerts := [] |} []))
     = 2.
Proof.
  assert (H : transformBackendResult digits_gt0 vaccine_payload = Normal vaccine_result)
    by (vm_compute; reflexivity).
  split; [exact H |].
  assert (Hprintable : Forall (fun finding => printable (text finding) = true)
                         (quick_analysis vaccine_result))
    by (repeat constructor).
  assert (Hnone : forall (log' : list Request) (request : Request) (reply : Reply)
                         (data : JsValue),
             offline log' request = Answered reply ->
             ok (head reply) = true -> json reply <> Normal data)
    by (intros log' request reply data Habsurd; discriminate Habsurd).
  destruct (network_failure_shows_the_placeholders localhost offline digits_gt0
              vaccine_payload {| Results.translated := false; Results.alerts := [] |} []
              H Hprintable Hnone eq_refl)
    as (rated & percent & findings & _ & _ & _ & ->).
  split; reflexivity.
Defined.

Example numbers_printed :
  map Number_toString
    [ 0; 3; -82; 2 ^ 53 - 1; 2 ^ 60; 123456789012345678901; 10 ^ 21; - 10 ^ 21;
      2 ^ 70; 10 ^ 23; 2 ^ 1024 ]%Z
  = [ js "0"; js "3"; js "-82"; js "9007199254740991"; js "1152921504606847000";
      js "123456789012345680000"; js "1e+21"; js "-1e+21";
      js "1.1805916207174113e+21"; js "1e+23"; js "Infinity" ].
Proof. vm_compute. reflexivity. Qed.

Example huge_count_printed :
  option_map (fun r => map text (firstn 1 (quick_analysis r)))
    (match transformBackendResult digits_gt0 huge_count_payload with
     | Normal r => Some r
     | Throw _ => None
     end)
  = Some [JStr (js "Found 1e+21 professional fact-check sources confirming this analysis.")].
Proof. vm_compute. reflexivity. Qed.

Example results_page_with_a_null_result :
  Results.fetchResult digits_gt0 localhost decode_without_escapes null_result_server
    (fun _ => Normal JUndefined)
    (Some (js "abc123"))
    {| Results.data := None; Results.loading := true; Results.error := None |} []
  = ({| Results.data := None; Results.loading := false; Results.error := None |},
     Normal tt,
     [ {| method := GET;
          target := js "http://localhost:8000/api/v1/results/abc123";
          sent := None |} ])
  /\ Results.view {| Results.data := None; Results.loading := false; Results.error := None |}
     = Results.Failure None.
Proof. split; vm_compute; reflexivity. Qed.
